(** * rpi-crypto-ticker-display: the data-ingestion core, embedded in Rocq

    The development follows the Python sources module by module:
    [src/data.py] (shared containers), [src/helpers.py] (ticker update,
    candle building, connection colour), [src/websockets.py] (streaming
    drivers and their reconnect loops), [src/miners.py] (fan-out poller)
    and [src/mempool.py] (network statistics).

    Conventions.
    - A Python [float] that comes from a feed (prices, hashrates, the
      reconnect delay) is an IEEE binary64 number: [PrimFloat.float], with
      the operations of the kernel.  Python's [b > a] on floats is
      [a <? b].
    - A clock reading ([time.time()]) is a finite, positive double below
      [2^53]; on such values [now - start] and the comparisons made by the
      code are exact, so a clock reading is the rational it denotes ([Q]).
    - A Python [int] is a [Z]; [None] is a constructor of its own.
    - A [try]/[except] body is a computation in the [result] monad; what an
      HTTP request answers is an input of the model.
    - Text is a [string] of bytes; the texts the program handles are ASCII
      apart from the ellipsis of the status strings, which [lower] leaves
      alone as Python does.

    The first part of the file is the model, one module per source
    module; the second part states and proves the properties. *)

From Stdlib Require Import ZArith QArith Qround Floats List String Ascii Bool Permutation Lia.
From Stdlib Require Import Sorted Lqa.
From stdpp Require Import base gmap strings.
Import ListNotations.

Set Warnings "-inexact-float,-register-all".

(* ===================================================================== *)
(** * Python values, exceptions and builtins *)
(* ===================================================================== *)

Module Py.

(** The exceptions the modelled code can meet. *)
Inductive exn : Set :=
| KeyError | TypeError | ValueError | AttributeError | OverflowError
| HTTPError | RequestException | JSONDecodeError.

(** Outcome of a statement that may raise. *)
Inductive result (A : Type) : Type :=
| Ok (a : A)
| Raise (e : exn).
Arguments Ok {A} a.
Arguments Raise {A} e.

Definition bind {A B : Type} (m : result A) (k : A -> result B) : result B :=
  match m with
  | Ok a => k a
  | Raise e => Raise e
  end.

Definition raised {A : Type} (m : result A) : bool :=
  match m with Ok _ => false | Raise _ => true end.

(** What [json.loads] builds, which is also what the handlers pass around. *)
Inductive pyval : Type :=
| PNone
| PBool (b : bool)
| PInt (z : Z)
| PFloat (f : float)
| PStr (s : string)
| PList (l : list pyval)
| PDict (d : list (string * pyval)).


Fixpoint assoc (k : string) (d : list (string * pyval)) : option pyval :=
  match d with
  | [] => None
  | (k', v) :: d' => if String.eqb k k' then Some v else assoc k d'
  end.

(** [obj.get(key, default)]: only a dict has the method. *)
Definition get (obj : pyval) (k : string) (default : pyval) : result pyval :=
  match obj with
  | PDict d => Ok (match assoc k d with Some v => v | None => default end)
  | _ => Raise AttributeError
  end.

(** Correctly rounded conversion of an integer (round to nearest, ties to
    even), as CPython converts an [int] operand. *)
Definition float_of_Z (z : Z) : float :=
  SF2Prim (binary_normalize prec emax z 0 false).

Definition int_to_float (z : Z) : result float :=
  let f := float_of_Z z in
  if PrimFloat.is_infinity f then Raise OverflowError else Ok f.

(** [v / d] for a float divisor [d] that is not zero. *)
Definition truediv (v : pyval) (d : float) : result float :=
  match v with
  | PFloat f => Ok (f / d)%float
  | PInt z => bind (int_to_float z) (fun f => Ok (f / d)%float)
  | PBool b => Ok ((if b then 1 else 0) / d)%float
  | _ => Raise TypeError
  end.

(** [float(v)]; parsing a string is the builtin's business and comes as
    [float_of_str] ([None]: [ValueError]). *)
Definition to_float (float_of_str : string -> option float) (v : pyval)
  : result float :=
  match v with
  | PFloat f => Ok f
  | PInt z => int_to_float z
  | PBool b => Ok (if b then 1 else 0)%float
  | PStr s => match float_of_str s with Some f => Ok f | None => Raise ValueError end
  | _ => Raise TypeError
  end.

(** [max(a, b)] and [min(a, b)] on floats: the first argument is kept
    unless the second is strictly better. *)
Definition max (a b : float) : float := if (a <? b)%float then b else a.
Definition min (a b : float) : float := if (b <? a)%float then b else a.

(** [int(x)] on a finite number: truncation toward zero. *)
Definition int_of_Q (q : Q) : Z := Z.quot (Qnum q) (Zpos (Qden q)).

(** [str.lower()] on ASCII letters; every other byte is kept. *)
Definition lower_ascii (c : ascii) : ascii :=
  let n := nat_of_ascii c in
  if (Nat.leb 65 n && Nat.leb n 90)%bool then ascii_of_nat (n + 32) else c.

Fixpoint lower (s : string) : string :=
  match s with
  | EmptyString => EmptyString
  | String c s' => String (lower_ascii c) (lower s')
  end.

(** [s in [..]] for a list of strings. *)
Definition str_in (s : string) (l : list string) : bool :=
  existsb (String.eqb s) l.

(** Whitespace of [str.strip()] among the ASCII characters. *)
Definition is_space (c : ascii) : bool :=
  let n := nat_of_ascii c in
  ((Nat.leb 9 n && Nat.leb n 13) || (Nat.leb 28 n && Nat.leb n 32))%bool.

Fixpoint lstrip (s : string) : string :=
  match s with
  | String c s' => if is_space c then lstrip s' else s
  | EmptyString => EmptyString
  end.

Fixpoint rstrip (s : string) : string :=
  match s with
  | EmptyString => EmptyString
  | String c s' =>
      match rstrip s' with
      | EmptyString => if is_space c then EmptyString else String c EmptyString
      | r => String c r
      end
  end.

Definition strip (s : string) : string := rstrip (lstrip s).

Definition is_digit (c : ascii) : bool :=
  let n := nat_of_ascii c in (Nat.leb 48 n && Nat.leb n 57)%bool.

Fixpoint all_digits (s : string) : bool :=
  match s with
  | EmptyString => true
  | String c s' => (is_digit c && all_digits s')%bool
  end.

(** [s.isdigit()]: at least one character, all of them digits. *)
Definition isdigit (s : string) : bool :=
  match s with
  | EmptyString => false
  | _ => all_digits s
  end.

Fixpoint digits_value (acc : Z) (s : string) : Z :=
  match s with
  | EmptyString => acc
  | String c s' => digits_value (10 * acc + Z.of_nat (nat_of_ascii c - 48)) s'
  end.

(** [int(s)] for a string of decimal digits. *)
Definition int_of_digits (s : string) : Z := digits_value 0 s.

(** [deque(maxlen=n).append(x)]: the oldest element leaves a full deque. *)
Definition deque_append {A : Type} (maxlen : nat) (d : list A) (x : A) : list A :=
  let d' := d ++ [x] in skipn (List.length d' - maxlen) d'.

End Py.

(** [result] is a monad; stdpp's [x ← m; k] spells its bind. *)
#[global] Instance result_ret : MRet Py.result := @Py.Ok.
#[global] Instance result_bind : MBind Py.result := fun A B k m => Py.bind m k.

(* ===================================================================== *)
(** * Order of binary64 numbers: the relations *)
(* ===================================================================== *)

Module FloatOrder.

(** [x <= y] and [x < y] as the interpreter decides them; both are false
    as soon as one side is a NaN. *)
Definition le (a b : float) : Prop := (a <=? b)%float = true.
Definition lt (a b : float) : Prop := (a <? b)%float = true.

Definition SFis_nan (x : spec_float) : bool :=
  match x with S754_nan => true | _ => false end.

End FloatOrder.

(* ===================================================================== *)
(** * src/constants.py: the configurable parameters *)
(* ===================================================================== *)

Module Constants.

(** The entries of [config.json] the modelled code reads. *)
Record config : Type := {
  CANDLE_SECONDS : Q;
  MAX_CANDLES : nat;
  MINER_ACTIVE_THRESHOLD : float;
  WIFI_CHECK_INTERVAL : Q
}.

(** The defaults [config_data.get] falls back to. *)
Definition defaults : config := {|
  CANDLE_SECONDS := 60;
  MAX_CANDLES := 14;
  MINER_ACTIVE_THRESHOLD := 0.25%float;
  WIFI_CHECK_INTERVAL := 12
|}.

Definition color : Set := (Z * Z * Z)%type.
Definition GREEN : color := (0, 230, 140)%Z.
Definition RED : color := (255, 90, 90)%Z.
Definition ORANGE : color := (255, 180, 0)%Z.

End Constants.

(* ===================================================================== *)
(** * src/data.py: the shared containers *)
(* ===================================================================== *)

Module Data.

(** A candle is the dict [{"start", "open", "high", "low", "close"}]. *)
Record Candle : Set := {
  start : Q;
  open : float;
  high : float;
  low : float;
  close : float
}.

(** [class TickerData]; [candles] is the deque of closed candles. *)
Record TickerData : Set := {
  price : option float;
  change_24h : float;
  status : string;
  last_update : option Q;
  candles : list Candle;
  current_candle : option Candle;
  source : string;
  last_marquee_price : option float
}.

(** [TickerData.__init__]. *)
Definition new_ticker (src : string) : TickerData := {|
  price := None;
  change_24h := 0%float;
  status := "Connecting…";
  last_update := None;
  candles := [];
  current_candle := None;
  source := src;
  last_marquee_price := None
|}.

(** [miner_stats]. *)
Record MinerStats : Set := {
  total_hashrate_th : float;
  best_difficulty : Py.pyval;
  connected_count : Z;
  active_count : Z
}.

Definition miner_stats0 : MinerStats := {|
  total_hashrate_th := 0%float;
  best_difficulty := Py.PFloat 0%float;
  connected_count := 0;
  active_count := 0
|}.

(** [mempool_data]; a field holding [PNone] is absent. *)
Record MempoolData : Type := {
  fees_sats_vb : Py.pyval;
  block_height : Py.pyval;
  mining_pool : Py.pyval;
  network_hashrate_eh : Py.pyval;
  network_difficulty : Py.pyval
}.

Definition mempool_none : MempoolData := {|
  fees_sats_vb := Py.PNone;
  block_height := Py.PNone;
  mining_pool := Py.PNone;
  network_hashrate_eh := Py.PNone;
  network_difficulty := Py.PNone
|}.

(** The module-level names of the connection indicator.  [from src.data
    import ...] copies the binding of each into the importing module, so
    every module that imports them holds a record of its own. *)
Record status_names : Set := {
  binance_ws_status : string;
  kraken_ws_status : string
}.

Record wifi_names : Set := {
  wifi_ok : bool;
  last_wifi_check : Q
}.

Definition status_names0 : status_names := {|
  binance_ws_status := "Connecting…";
  kraken_ws_status := "Connecting…"
|}.

Definition wifi_names0 : wifi_names := {|
  wifi_ok := false;
  last_wifi_check := 0
|}.

End Data.

(* ===================================================================== *)
(** * src/helpers.py: ticker update, candle building, connection colour *)
(* ===================================================================== *)

Module Helpers.
Import Constants Data.

(** The names [src.helpers] binds with [from src.data import wifi_ok,
    last_wifi_check, binance_ws_status, kraken_ws_status].  [get_ws_color]
    declares the first two [global] and assigns them; no statement of the
    module assigns the other two. *)
Record globals : Set := {
  wifi : wifi_names;
  ws : status_names
}.

Definition globals0 : globals := {| wifi := wifi_names0; ws := status_names0 |}.

Definition Qgt_bool (a b : Q) : bool :=
  match (a ?= b)%Q with Gt => true | _ => false end.

(** The phrases [get_ws_color] accepts, for each driver. *)
Definition binance_phrases : list string :=
  ["websocket connected"; "binance ws connected"; "connected";
   "live"; "open"; "connecting…"; "subscription sent"].

Definition kraken_phrases : list string :=
  ["websocket connected"; "kraken subscription sent"; "connected";
   "live"; "open"; "connecting…"; "subscription sent"].

(** The decision of [get_ws_color] once the names have been read. *)
Definition ws_color (wifi_ok : bool) (binance_status kraken_status : string) : color :=
  if negb wifi_ok then RED
  else
    let binance_ok := Py.str_in (Py.lower binance_status) binance_phrases in
    let kraken_ok := Py.str_in (Py.lower kraken_status) kraken_phrases in
    if (binance_ok && kraken_ok)%bool then GREEN
    else if (binance_ok || kraken_ok)%bool then ORANGE
    else RED.

(** [get_ws_color()] at clock [now]; [probe] is what [is_wifi_connected()]
    answers if it is called.  Returns the colour and the module's names. *)
Definition get_ws_color (cfg : config) (now : Q) (probe : bool) (g : globals)
  : color * globals :=
  let w :=
    if Qgt_bool (now - last_wifi_check (wifi g)) (WIFI_CHECK_INTERVAL cfg)
    then {| wifi_ok := probe; last_wifi_check := now |}
    else wifi g in
  (ws_color (wifi_ok w) (binance_ws_status (ws g)) (kraken_ws_status (ws g)),
   {| wifi := w; ws := ws g |}).

(** The candle a sample opens. *)
Definition new_candle (now : Q) (p : float) : Candle := {|
  start := inject_Z (Py.int_of_Q now);
  open := p;
  high := p;
  low := p;
  close := p
|}.

(** The [else] branch: the sample widens the open candle. *)
Definition widen (candle : Candle) (p : float) : Candle := {|
  start := start candle;
  open := open candle;
  high := Py.max (high candle) p;
  low := Py.min (low candle) p;
  close := p
|}.

(** The test [candle is None or now - candle["start"] >= CANDLE_SECONDS]. *)
Definition rolls_over (cfg : config) (now : Q) (cur : option Candle) : bool :=
  match cur with
  | None => true
  | Some candle => Qle_bool (CANDLE_SECONDS cfg) (now - start candle)
  end.

(** Lines 126-140: the closed history and the open candle after a sample.
    A candle is a dict of five keys, so [if candle:] holds for each. *)
Definition build_candle (cfg : config) (now : Q) (p : float) (t : TickerData)
  : list Candle * option Candle :=
  if rolls_over cfg now (current_candle t) then
    (match current_candle t with
     | Some candle => Py.deque_append (MAX_CANDLES cfg) (candles t) candle
     | None => candles t
     end,
     Some (new_candle now p))
  else
    (candles t,
     match current_candle t with
     | Some candle => Some (widen candle p)
     | None => None
     end).

(** The body of [with data_lock:] on the ticker object found. *)
Definition update_ticker (cfg : config) (now : Q) (p change : float)
  (update_marquee : bool) (t : TickerData) : TickerData :=
  let '(closed, cur) := build_candle cfg now p t in
  {| price := Some p;
     change_24h := change;
     status := "Live";
     last_update := Some now;
     candles := closed;
     current_candle := cur;
     source := source t;
     last_marquee_price := if update_marquee then Some p else last_marquee_price t |}.

(** [update_ticker_data(key, price, change, update_marquee)] with the clock
    at [now], over the dict [data]: the outcome and the dict afterwards.
    [data[key]] raises before any statement has written. *)
Definition update_ticker_data (cfg : config) (now : Q) (key : string)
  (p change : float) (update_marquee : bool) (data : gmap string TickerData)
  : Py.result unit * gmap string TickerData :=
  match data !! key with
  | None => (Py.Raise Py.KeyError, data)
  | Some ticker =>
      (Py.Ok tt, <[key := update_ticker cfg now p change update_marquee ticker]> data)
  end.

(** The bounds of a candle, as Python evaluates them:
    [high >= max(open, close) and low <= min(open, close)]. *)
Definition candle_ok (c : Candle) : bool :=
  ((Py.max (open c) (close c) <=? high c)
   && (low c <=? Py.min (open c) (close c)))%float%bool.

(** The same bounds one field at a time, with [low <= high]. *)
Definition candle_bounds (c : Candle) : bool :=
  ((open c <=? high c) && (close c <=? high c) && (low c <=? high c)
   && (low c <=? open c) && (low c <=? close c))%float%bool.

(** A timestamp floored to a multiple of the bucket width, in the
    specification's words. *)
Definition bucket_floor (width now : Q) : Q :=
  inject_Z (Qfloor (now / width)) * width.

(** One call of the update path: the clock and the three arguments. *)
Record sample : Set := {
  s_now : Q;
  s_price : float;
  s_change : float;
  s_marquee : bool
}.

(** A sequence of calls on one ticker object, in order. *)
Definition feed (cfg : config) (samples : list sample) (t : TickerData)
  : TickerData :=
  fold_left
    (fun t s => update_ticker cfg (s_now s) (s_price s) (s_change s) (s_marquee s) t)
    samples t.

(** The bounds, field by field, as propositions. *)
Definition bounded (c : Candle) : Prop :=
  FloatOrder.le (open c) (high c) /\ FloatOrder.le (close c) (high c)
  /\ FloatOrder.le (low c) (high c)
  /\ FloatOrder.le (low c) (open c) /\ FloatOrder.le (low c) (close c).

(** A ticker whose candles, closed and open, are all within bounds. *)
Definition sound (t : TickerData) : Prop :=
  Forall bounded (candles t)
  /\ match current_candle t with Some c => bounded c | None => True end.

(** A sample with no change figure, for the examples. *)
Definition tick (now : Q) (p : float) : sample :=
  {| s_now := now; s_price := p; s_change := 0%float; s_marquee := true |}.

(** A dict of two tickers, for the examples. *)
Definition two_tickers : gmap string TickerData :=
  <["btcusdt" := new_ticker "binance"]> (<["xmrusdt" := new_ticker "kraken"]> ∅).

End Helpers.

(* ===================================================================== *)
(** * src/websockets.py: the streaming drivers *)
(* ===================================================================== *)

Module Websockets.
Import Data.

(** What a connection does while [ws.run_forever] runs: the callbacks it
    fires, in order.  A message reaches the ticker store only. *)
Inductive ws_event : Set := WsOpen | WsMessage | WsError | WsClose.

Definition is_open (e : ws_event) : bool :=
  match e with WsOpen => true | _ => false end.

(** The handlers assign the names [src.websockets] bound with its own
    [from src.data import binance_ws_status, kraken_ws_status]. *)
Definition kraken_handler (g : status_names) (e : ws_event) : status_names :=
  match e with
  | WsOpen => {| binance_ws_status := binance_ws_status g; kraken_ws_status := "Live" |}
  | WsError => {| binance_ws_status := binance_ws_status g; kraken_ws_status := "Error" |}
  | WsClose => {| binance_ws_status := binance_ws_status g; kraken_ws_status := "Reconnecting…" |}
  | WsMessage => g
  end.

Definition binance_handler (g : status_names) (e : ws_event) : status_names :=
  match e with
  | WsOpen => {| binance_ws_status := "Live"; kraken_ws_status := kraken_ws_status g |}
  | WsError => {| binance_ws_status := "Error"; kraken_ws_status := kraken_ws_status g |}
  | WsClose => {| binance_ws_status := "Reconnecting…"; kraken_ws_status := kraken_ws_status g |}
  | WsMessage => g
  end.

(** [backoff = min(backoff * 1.8, 120)]; the cap is the int [120], which
    sleeps, multiplies and compares as the float [120.0]. *)
Definition next_backoff (backoff : float) : float :=
  Py.min (backoff * 1.8)%float 120%float.

(** The local [backoff] and the module's names. *)
Record driver : Set := {
  backoff : float;
  names : status_names
}.

Definition driver0 : driver := {| backoff := 1%float; names := status_names0 |}.

(** What one turn of a driver's [while True] did: the callbacks fired by
    the connection and the argument of [time.sleep]; or the idle sleep of
    the Binance driver when it has no symbol. *)
Inductive turn : Set :=
| Reconnect (events : list ws_event) (slept : float)
| Idle (slept : float).

(** One turn of [run_kraken_websocket]'s loop. *)
Definition kraken_turn (events : list ws_event) (d : driver) : turn * driver :=
  (Reconnect events (backoff d),
   {| backoff := next_backoff (backoff d);
      names := fold_left kraken_handler events (names d) |}).

(** The first turns of [run_kraken_websocket], one per connection. *)
Fixpoint run_kraken_websocket (conns : list (list ws_event)) (d : driver)
  : list turn * driver :=
  match conns with
  | [] => ([], d)
  | events :: rest =>
      let '(t, d') := kraken_turn events d in
      let '(ts, d'') := run_kraken_websocket rest d' in
      (t :: ts, d'')
  end.

(** One turn of [run_binance_websocket]'s loop: [None] when the list of
    Binance symbols is empty (it sleeps ten seconds and [continue]s). *)
Definition binance_turn (conn : option (list ws_event)) (d : driver) : turn * driver :=
  match conn with
  | None => (Idle 10%float, d)
  | Some events =>
      (Reconnect events (backoff d),
       {| backoff := next_backoff (backoff d);
          names := fold_left binance_handler events (names d) |})
  end.

Fixpoint run_binance_websocket (conns : list (option (list ws_event))) (d : driver)
  : list turn * driver :=
  match conns with
  | [] => ([], d)
  | conn :: rest =>
      let '(t, d') := binance_turn conn d in
      let '(ts, d'') := run_binance_websocket rest d' in
      (t :: ts, d'')
  end.

(** The connections of a Binance run: the turns that had symbols. *)
Definition attempts (conns : list (option (list ws_event))) : nat :=
  List.length (List.filter (fun c => match c with Some _ => true | None => false end) conns).

(** The delays slept after connections, in order. *)
Fixpoint delays (log : list turn) : list float :=
  match log with
  | [] => []
  | Reconnect _ slept :: log' => slept :: delays log'
  | Idle _ :: log' => delays log'
  end.

(** The delay before the [n]-th reconnection of a driver: [backoff]
    after [n] assignments. *)
Fixpoint backoff_seq (n : nat) : float :=
  match n with
  | O => 1%float
  | S n' => next_backoff (backoff_seq n')
  end.

(** The reset the specification describes, in its words: the delay goes
    back to its initial value when the connection reaches Live.  A log
    obeys it when every connection that fired [on_open] is followed by a
    sleep of one second. *)
Definition resets_on_live (log : list turn) : bool :=
  forallb
    (fun t =>
       match t with
       | Reconnect events slept => implb (existsb is_open events) (slept =? 1)%float
       | Idle _ => true
       end)
    log.

(** The whole process as the connection indicator sees it: each module
    holds its own binding of the status names. *)
Record process : Set := {
  helpers_names : Helpers.globals;
  websockets_names : status_names
}.

Definition process0 : process :=
  {| helpers_names := Helpers.globals0; websockets_names := status_names0 |}.

(** A callback of either driver fires. *)
Inductive callback : Set :=
| Kraken (e : ws_event)
| Binance (e : ws_event).

Definition fire (p : process) (c : callback) : process :=
  {| helpers_names := helpers_names p;
     websockets_names :=
       match c with
       | Kraken e => kraken_handler (websockets_names p) e
       | Binance e => binance_handler (websockets_names p) e
       end |}.

(** The render loop asks for the colour. *)
Definition indicator (cfg : Constants.config) (now : Q) (probe : bool) (p : process)
  : Constants.color * process :=
  let '(c, g) := Helpers.get_ws_color cfg now probe (helpers_names p) in
  (c, {| helpers_names := g; websockets_names := websockets_names p |}).

End Websockets.

(* ===================================================================== *)
(** * The [requests] library, as far as the pollers use it *)
(* ===================================================================== *)

Module Requests.

(** A response object: its status, its body as text, and what [.json()]
    makes of the body ([Raise JSONDecodeError] when it is not JSON). *)
Record response : Type := {
  status_code : Z;
  text : string;
  json : Py.result Py.pyval
}.

(** What [requests.get(url, timeout=...)] comes to: a response, or
    [Raise RequestException] on a timeout or a connection error. *)
Definition answer : Type := Py.result response.

(** [resp.raise_for_status()]. *)
Definition raise_for_status (r : response) : Py.result unit :=
  if ((400 <=? status_code r) && (status_code r <? 600))%Z
  then Py.Raise Py.HTTPError else Py.Ok tt.

End Requests.

(* ===================================================================== *)
(** * src/miners.py: the fan-out poller *)
(* ===================================================================== *)

Module Miners.
Import Constants Data.

(** The [try] body of [fetch_miner_stats]. *)
Definition fetch_body (a : Requests.answer) : Py.result (float * Py.pyval * bool) :=
  resp ← a;
  _ ← Requests.raise_for_status resp;
  data ← Requests.json resp;
  hash_rate ← Py.get data "hashRate" (Py.PFloat 0);
  hr_th ← Py.truediv hash_rate 1000;
  diff ← Py.get data "bestDiff" (Py.PFloat 0);
  mret (hr_th, diff, true).

(** [fetch_miner_stats(ip)], given what the endpoint answers. *)
Definition fetch_miner_stats (a : Requests.answer) : float * Py.pyval * bool :=
  match fetch_body a with
  | Py.Ok r => r
  | Py.Raise _ => (0%float, Py.PFloat 0, false)
  end.

(** The ways a query fails: the request itself (timeout, connection
    error), a 4xx or 5xx status, a body that is not JSON, or any other
    exception of the [try] body. *)
Inductive failure (a : Requests.answer) : Prop :=
| request_failed (e : Py.exn) :
    a = Py.Raise e -> failure a
| bad_status (r : Requests.response) :
    a = Py.Ok r -> (400 <= Requests.status_code r < 600)%Z -> failure a
| malformed_json (r : Requests.response) (e : Py.exn) :
    a = Py.Ok r -> Requests.json r = Py.Raise e -> failure a
| body_raised (e : Py.exn) :
    fetch_body a = Py.Raise e -> failure a.

(** The numbers [max] can compare; a [bool] is an [int]. *)
Inductive num : Set :=
| NBool (b : bool)
| NInt (z : Z)
| NFloat (f : float).

Definition as_num (v : Py.pyval) : option num :=
  match v with
  | Py.PBool b => Some (NBool b)
  | Py.PInt z => Some (NInt z)
  | Py.PFloat f => Some (NFloat f)
  | _ => None
  end.

Definition of_num (n : num) : Py.pyval :=
  match n with
  | NBool b => Py.PBool b
  | NInt z => Py.PInt z
  | NFloat f => Py.PFloat f
  end.

(** Exact comparison of a float with an integer ([None] for a NaN). *)
Definition cmp_float_Z (f : float) (z : Z) : option comparison :=
  match Prim2SF f with
  | S754_nan => None
  | S754_zero _ => Some (0 ?= z)%Z
  | S754_infinity s => Some (if s then Lt else Gt)
  | S754_finite s m e =>
      let v := if s then Zneg m else Zpos m in
      Some (if (0 <=? e)%Z then (v * 2 ^ e ?= z)%Z else (v ?= z * 2 ^ (- e))%Z)
  end.

Definition int_of_num (b : bool) : Z := if b then 1%Z else 0%Z.

(** [a < b] between numbers, as Python decides it. *)
Definition num_lt (a b : num) : bool :=
  match a, b with
  | NFloat x, NFloat y => (x <? y)%float
  | NFloat x, NInt z => match cmp_float_Z x z with Some Lt => true | _ => false end
  | NFloat x, NBool c =>
      match cmp_float_Z x (int_of_num c) with Some Lt => true | _ => false end
  | NInt z, NFloat y => match cmp_float_Z y z with Some Gt => true | _ => false end
  | NBool c, NFloat y =>
      match cmp_float_Z y (int_of_num c) with Some Gt => true | _ => false end
  | NInt x, NInt y => (x <? y)%Z
  | NInt x, NBool c => (x <? int_of_num c)%Z
  | NBool c, NInt y => (int_of_num c <? y)%Z
  | NBool c, NBool c' => (int_of_num c <? int_of_num c')%Z
  end.

(** [max(best_diff, diff)]: [diff > best_diff] raises [TypeError] when
    [diff] is not a number. *)
Definition max_diff (best : num) (diff : Py.pyval) : Py.result num :=
  match as_num diff with
  | Some d => Py.Ok (if num_lt best d then d else best)
  | None => Py.Raise Py.TypeError
  end.

(** The locals of one cycle. *)
Record tally : Set := {
  total_hr : float;
  best_diff : num;
  conn_count : Z;
  act_count : Z
}.

Definition tally0 : tally :=
  {| total_hr := 0%float; best_diff := NFloat 0; conn_count := 0; act_count := 0 |}.

(** The body of [for future in as_completed(futures)]. *)
Definition tally_step (cfg : config) (t : tally) (r : float * Py.pyval * bool)
  : Py.result tally :=
  let '(hr, diff, connected) := r in
  best ← max_diff (best_diff t) diff;
  mret {| total_hr := (total_hr t + hr)%float;
          best_diff := best;
          conn_count := if connected then (conn_count t + 1)%Z else conn_count t;
          act_count :=
            if (MINER_ACTIVE_THRESHOLD cfg <? hr)%float
            then (act_count t + 1)%Z else act_count t |}.

(** The loop over the results, in the order they arrive. *)
Fixpoint tally_all (cfg : config) (t : tally) (results : list (float * Py.pyval * bool))
  : Py.result tally :=
  match results with
  | [] => Py.Ok t
  | r :: rest => t' ← tally_step cfg t r; tally_all cfg t' rest
  end.

(** The shared state the poller writes. *)
Record store : Set := {
  miner_stats : MinerStats;
  hash_history : list float
}.

Definition store0 : store := {| miner_stats := miner_stats0; hash_history := [] |}.

Definition stats_of (t : tally) : MinerStats := {|
  total_hashrate_th := total_hr t;
  best_difficulty := of_num (best_diff t);
  connected_count := conn_count t;
  active_count := act_count t
|}.

(** One cycle of [run_miners_polling] over the results in arrival order:
    the store afterwards, or the exception that leaves the loop. *)
Definition poll_cycle (cfg : config) (results : list (float * Py.pyval * bool))
  (s : store) : Py.result store :=
  t ← tally_all cfg tally0 results;
  mret {| miner_stats := stats_of t;
          hash_history := Py.deque_append (MAX_CANDLES cfg) (hash_history s) (total_hr t) |}.

(** A cycle from what the endpoints answer, in arrival order. *)
Definition poll_endpoints (cfg : config) (answers : list Requests.answer) (s : store)
  : Py.result store :=
  poll_cycle cfg (map fetch_miner_stats answers) s.

(** [run_miners_polling(miners_ips)] over its first cycles, each given by
    what the endpoints answered, in arrival order.  With no miner
    configured it returns at once; an exception of a cycle ends the loop. *)
Definition run_miners_polling (cfg : config) (miners_ips : list string)
  (cycles : list (list Requests.answer)) (s : store) : Py.result store :=
  match miners_ips with
  | [] => Py.Ok s
  | _ =>
      fold_left (fun acc answers => s' ← acc; poll_endpoints cfg answers s')
        cycles (Py.Ok s)
  end.

(** Results as the annotation [tuple[float, float, bool]] types them. *)
Definition typed (rs : list (float * float * bool)) : list (float * Py.pyval * bool) :=
  map (fun r => (fst (fst r), Py.PFloat (snd (fst r)), snd r)) rs.

Definition hashrate (r : float * float * bool) : float := fst (fst r).
Definition difficulty (r : float * float * bool) : float := snd (fst r).
Definition connected (r : float * float * bool) : bool := snd r.

(** The counts of the specification's reduction: how many results are
    connected, and how many have a hashrate above the threshold. *)
Definition count_connected (rs : list (float * float * bool)) : Z :=
  Z.of_nat (List.length (List.filter connected rs)).

Definition count_active (cfg : config) (rs : list (float * float * bool)) : Z :=
  Z.of_nat
    (List.length
       (List.filter (fun r => (MINER_ACTIVE_THRESHOLD cfg <? hashrate r)%float) rs)).

(** An endpoint that answers 503, for the examples. *)
Definition server_error : Requests.answer :=
  Py.Ok {| Requests.status_code := 503; Requests.text := "Service Unavailable";
           Requests.json := Py.Raise Py.JSONDecodeError |}.

(** The accumulator of [max] starts at [0.0] and only moves upwards. *)
Definition floor_or_above (a : float) : Prop := a = 0%float \/ FloatOrder.lt 0 a.

(** The scenario of the specification. *)
Definition scenario : list (float * float * bool) :=
  [(10, 500, true); (0, 0, false); (5, 300, true)]%float.

End Miners.

(* ===================================================================== *)
(** * src/mempool.py: the network statistics poller *)
(* ===================================================================== *)

Module Mempool.
Import Data.

(** What mempool.space answers during one cycle; the last two requests
    depend on the height and on the block hash read before. *)
Record answers : Type := {
  fees_answer : Requests.answer;
  height_answer : Requests.answer;
  hash_answer : Z -> Requests.answer;
  block_answer : string -> Requests.answer;
  hashrate_answer : Requests.answer
}.

Definition truthy_height (h : option Z) : option Z :=
  match h with
  | Some z => if (z =? 0)%Z then None else Some z
  | None => None
  end.

(** The block lookup under [if height:]: the pool and the difficulty. *)
Definition block_info (env : answers) (height : option Z)
  : Py.result (Py.pyval * Py.pyval) :=
  match truthy_height height with
  | None => mret (Py.PNone, Py.PNone)
  | Some h =>
      hash_resp ← hash_answer env h;
      let block_hash := Py.strip (Requests.text hash_resp) in
      match block_hash with
      | EmptyString => mret (Py.PNone, Py.PNone)
      | _ =>
          resp ← block_answer env block_hash;
          block_resp ← Requests.json resp;
          extras ← Py.get block_resp "extras" (Py.PDict []);
          pool_obj ← Py.get extras "pool" (Py.PDict []);
          pool ← Py.get pool_obj "name" (Py.PStr "Unknown");
          net_diff ← Py.get block_resp "difficulty" Py.PNone;
          mret (pool, net_diff)
      end
  end.

(** The [try] body of the loop, up to the dict it hands to [update]. *)
Definition fetch_chain (float_of_str : string -> option float) (env : answers)
  : Py.result MempoolData :=
  resp ← fees_answer env;
  fees_resp ← Requests.json resp;
  half_hour ← Py.get fees_resp "halfHourFee" Py.PNone;
  fees ← Py.to_float float_of_str half_hour;
  height_resp ← height_answer env;
  let height_str := Py.strip (Requests.text height_resp) in
  let height :=
    if Py.isdigit height_str then Some (Py.int_of_digits height_str) else None in
  info ← block_info env height;
  resp ← hashrate_answer env;
  hr_resp ← Requests.json resp;
  current ← Py.get hr_resp "currentHashrate" (Py.PInt 0);
  net_hr ← Py.truediv current 1e18;
  mret {| fees_sats_vb := Py.PFloat fees;
          block_height := match height with Some z => Py.PInt z | None => Py.PNone end;
          mining_pool := fst info;
          network_hashrate_eh := Py.PFloat net_hr;
          network_difficulty := snd info |}.

(** One turn of [run_mempool_polling]: both branches write all five keys
    of [mempool_data]. *)
Definition poll_cycle (float_of_str : string -> option float) (env : answers)
  (before : MempoolData) : MempoolData :=
  match fetch_chain float_of_str env with
  | Py.Ok fresh => fresh
  | Py.Raise _ => mempool_none
  end.





(** A 200 answer whose body is the JSON value [v]. *)
Definition ok_json (v : Py.pyval) : Requests.answer :=
  Py.Ok {| Requests.status_code := 200; Requests.text := ""; Requests.json := Py.Ok v |}.


(** [int(height_str) if height_str.isdigit() else None] on the body of
    the height answer. *)
Definition height_of (r : Requests.response) : option Z :=
  if Py.isdigit (Py.strip (Requests.text r))
  then Some (Py.int_of_digits (Py.strip (Requests.text r))) else None.

(** The cycle asks for the hash of the block at height [h]: the height
    endpoint answered, with a height that is not zero. *)
Definition asks_hash (env : answers) (h : Z) : Prop :=
  exists r, height_answer env = Py.Ok r /\ truthy_height (height_of r) = Some h.

(** The cycle asks for the block of hash [block_hash]: the hash endpoint
    answered, with a body that is not blank. *)
Definition asks_block (env : answers) (block_hash : string) : Prop :=
  exists h r,
    asks_hash env h /\ hash_answer env h = Py.Ok r
    /\ block_hash = Py.strip (Requests.text r) /\ block_hash <> EmptyString.

(** The ways a cycle fails, on what the endpoints answer: a request that
    raises (timeout, connection error), a body [.json()] cannot decode, a
    JSON value without the method [.get] where the code calls it, a fee
    [float] cannot convert ([None] when the key is missing), a hashrate
    that cannot be divided.  The status of an answer is not looked at. *)
Inductive failure (float_of_str : string -> option float) (env : answers) : Prop :=
| fees_request_failed (e : Py.exn) :
    fees_answer env = Py.Raise e -> failure float_of_str env
| fees_not_json (r : Requests.response) (e : Py.exn) :
    fees_answer env = Py.Ok r -> Requests.json r = Py.Raise e ->
    failure float_of_str env
| fees_not_an_object (r : Requests.response) (v : Py.pyval) (e : Py.exn) :
    fees_answer env = Py.Ok r -> Requests.json r = Py.Ok v ->
    Py.get v "halfHourFee" Py.PNone = Py.Raise e ->
    failure float_of_str env
| fee_not_a_number (r : Requests.response) (v x : Py.pyval) (e : Py.exn) :
    fees_answer env = Py.Ok r -> Requests.json r = Py.Ok v ->
    Py.get v "halfHourFee" Py.PNone = Py.Ok x ->
    Py.to_float float_of_str x = Py.Raise e ->
    failure float_of_str env
| height_request_failed (e : Py.exn) :
    height_answer env = Py.Raise e -> failure float_of_str env
| hash_request_failed (h : Z) (e : Py.exn) :
    asks_hash env h -> hash_answer env h = Py.Raise e ->
    failure float_of_str env
| block_request_failed (block_hash : string) (e : Py.exn) :
    asks_block env block_hash -> block_answer env block_hash = Py.Raise e ->
    failure float_of_str env
| block_not_json (block_hash : string) (r : Requests.response) (e : Py.exn) :
    asks_block env block_hash -> block_answer env block_hash = Py.Ok r ->
    Requests.json r = Py.Raise e ->
    failure float_of_str env
| block_not_an_object (block_hash : string) (r : Requests.response) (v : Py.pyval)
    (e : Py.exn) :
    asks_block env block_hash -> block_answer env block_hash = Py.Ok r ->
    Requests.json r = Py.Ok v ->
    Py.get v "extras" (Py.PDict []) = Py.Raise e ->
    failure float_of_str env
| extras_not_an_object (block_hash : string) (r : Requests.response)
    (v extras : Py.pyval) (e : Py.exn) :
    asks_block env block_hash -> block_answer env block_hash = Py.Ok r ->
    Requests.json r = Py.Ok v ->
    Py.get v "extras" (Py.PDict []) = Py.Ok extras ->
    Py.get extras "pool" (Py.PDict []) = Py.Raise e ->
    failure float_of_str env
| pool_not_an_object (block_hash : string) (r : Requests.response)
    (v extras pool_obj : Py.pyval) (e : Py.exn) :
    asks_block env block_hash -> block_answer env block_hash = Py.Ok r ->
    Requests.json r = Py.Ok v ->
    Py.get v "extras" (Py.PDict []) = Py.Ok extras ->
    Py.get extras "pool" (Py.PDict []) = Py.Ok pool_obj ->
    Py.get pool_obj "name" (Py.PStr "Unknown") = Py.Raise e ->
    failure float_of_str env
| hashrate_request_failed (e : Py.exn) :
    hashrate_answer env = Py.Raise e -> failure float_of_str env
| hashrate_not_json (r : Requests.response) (e : Py.exn) :
    hashrate_answer env = Py.Ok r -> Requests.json r = Py.Raise e ->
    failure float_of_str env
| hashrate_not_an_object (r : Requests.response) (v : Py.pyval) (e : Py.exn) :
    hashrate_answer env = Py.Ok r -> Requests.json r = Py.Ok v ->
    Py.get v "currentHashrate" (Py.PInt 0) = Py.Raise e ->
    failure float_of_str env
| hashrate_not_a_number (r : Requests.response) (v x : Py.pyval) (e : Py.exn) :
    hashrate_answer env = Py.Ok r -> Requests.json r = Py.Ok v ->
    Py.get v "currentHashrate" (Py.PInt 0) = Py.Ok x ->
    Py.truediv x 1e18 = Py.Raise e ->
    failure float_of_str env.





End Mempool.

(* ===================================================================== *)
(** * Threads: the update path against the readers of a ticker *)
(* ===================================================================== *)

Module Threads.
Import Constants Data Helpers.

Inductive thread : Set := Writer | Reader.

(** The statements of [update_ticker_data] from [with data_lock:] on, for
    a key the dict holds, one per source line; the interpreter may switch
    threads between any two. *)
Inductive wstmt : Set :=
| WAcquire | WPrice | WChange | WStatus | WLastUpdate | WMarquee | WCandle | WRelease.

Definition update_ticker_data_stmts : list wstmt :=
  [WAcquire; WPrice; WChange; WStatus; WLastUpdate; WMarquee; WCandle; WRelease].

(** The statements of a reader. *)
Inductive rstmt : Set :=
| RAcquire | RRelease | RPrice | RLastUpdate | RChange.

(** [run_render_loop]: it fetches the ticker object under [data_lock]
    (lines 203-204), and reads [ticker.price] and [ticker.last_update]
    later (lines 320-321), the lock released. *)
Definition render_loop_stmts : list rstmt :=
  [RAcquire; RRelease; RPrice; RLastUpdate].

(** [create_marquee_surfaces]: it reads [ticker.price] and
    [ticker.change_24h] inside [with data_lock:]. *)
Definition marquee_stmts : list rstmt :=
  [RAcquire; RPrice; RChange; RRelease].

(** The arguments of the call and the clock it read before the lock. *)
Record call : Set := {
  a_now : Q;
  a_price : float;
  a_change : float;
  a_marquee : bool
}.

Definition set_price (v : option float) (t : TickerData) : TickerData :=
  {| price := v; change_24h := change_24h t; status := status t;
     last_update := last_update t; candles := candles t;
     current_candle := current_candle t; source := source t;
     last_marquee_price := last_marquee_price t |}.

Definition set_change (v : float) (t : TickerData) : TickerData :=
  {| price := price t; change_24h := v; status := status t;
     last_update := last_update t; candles := candles t;
     current_candle := current_candle t; source := source t;
     last_marquee_price := last_marquee_price t |}.

Definition set_status (v : string) (t : TickerData) : TickerData :=
  {| price := price t; change_24h := change_24h t; status := v;
     last_update := last_update t; candles := candles t;
     current_candle := current_candle t; source := source t;
     last_marquee_price := last_marquee_price t |}.

Definition set_last_update (v : option Q) (t : TickerData) : TickerData :=
  {| price := price t; change_24h := change_24h t; status := status t;
     last_update := v; candles := candles t;
     current_candle := current_candle t; source := source t;
     last_marquee_price := last_marquee_price t |}.

Definition set_marquee (v : option float) (t : TickerData) : TickerData :=
  {| price := price t; change_24h := change_24h t; status := status t;
     last_update := last_update t; candles := candles t;
     current_candle := current_candle t; source := source t;
     last_marquee_price := v |}.

Definition set_candles (v : list Candle * option Candle) (t : TickerData) : TickerData :=
  {| price := price t; change_24h := change_24h t; status := status t;
     last_update := last_update t; candles := fst v;
     current_candle := snd v; source := source t;
     last_marquee_price := last_marquee_price t |}.

(** One statement of the writer on the ticker object. *)
Definition exec_w (cfg : config) (c : call) (s : wstmt) (t : TickerData) : TickerData :=
  match s with
  | WPrice => set_price (Some (a_price c)) t
  | WChange => set_change (a_change c) t
  | WStatus => set_status "Live" t
  | WLastUpdate => set_last_update (Some (a_now c)) t
  | WMarquee => if a_marquee c then set_marquee (Some (a_price c)) t else t
  | WCandle => set_candles (build_candle cfg (a_now c) (a_price c) t) t
  | WAcquire | WRelease => t
  end.

(** The ticker object, the holder of [data_lock], what is left of each
    thread, and what the reader has read. *)
Record machine : Set := {
  ticker : TickerData;
  lock : option thread;
  wpc : list wstmt;
  rpc : list rstmt;
  seen_price : option (option float);
  seen_update : option (option Q);
  seen_change : option float
}.

Definition boot (t : TickerData) (reader : list rstmt) : machine := {|
  ticker := t; lock := None;
  wpc := update_ticker_data_stmts; rpc := reader;
  seen_price := None; seen_update := None; seen_change := None
|}.

Definition step_writer (cfg : config) (c : call) (m : machine) : machine :=
  match wpc m with
  | [] => m
  | WAcquire :: rest =>
      match lock m with
      | None => {| ticker := ticker m; lock := Some Writer; wpc := rest; rpc := rpc m;
                   seen_price := seen_price m; seen_update := seen_update m;
                   seen_change := seen_change m |}
      | Some _ => m
      end
  | WRelease :: rest =>
      {| ticker := ticker m; lock := None; wpc := rest; rpc := rpc m;
         seen_price := seen_price m; seen_update := seen_update m;
         seen_change := seen_change m |}
  | s :: rest =>
      {| ticker := exec_w cfg c s (ticker m); lock := lock m; wpc := rest; rpc := rpc m;
         seen_price := seen_price m; seen_update := seen_update m;
         seen_change := seen_change m |}
  end.

Definition step_reader (m : machine) : machine :=
  match rpc m with
  | [] => m
  | RAcquire :: rest =>
      match lock m with
      | None => {| ticker := ticker m; lock := Some Reader; wpc := wpc m; rpc := rest;
                   seen_price := seen_price m; seen_update := seen_update m;
                   seen_change := seen_change m |}
      | Some _ => m
      end
  | RRelease :: rest =>
      {| ticker := ticker m; lock := None; wpc := wpc m; rpc := rest;
         seen_price := seen_price m; seen_update := seen_update m;
         seen_change := seen_change m |}
  | RPrice :: rest =>
      {| ticker := ticker m; lock := lock m; wpc := wpc m; rpc := rest;
         seen_price := Some (price (ticker m)); seen_update := seen_update m;
         seen_change := seen_change m |}
  | RLastUpdate :: rest =>
      {| ticker := ticker m; lock := lock m; wpc := wpc m; rpc := rest;
         seen_price := seen_price m; seen_update := Some (last_update (ticker m));
         seen_change := seen_change m |}
  | RChange :: rest =>
      {| ticker := ticker m; lock := lock m; wpc := wpc m; rpc := rest;
         seen_price := seen_price m; seen_update := seen_update m;
         seen_change := Some (change_24h (ticker m)) |}
  end.

(** The thread the interpreter picks runs its next statement; a thread
    waiting for the lock, or finished, does nothing. *)
Definition step (cfg : config) (c : call) (m : machine) (who : thread) : machine :=
  match who with
  | Writer => step_writer cfg c m
  | Reader => step_reader m
  end.

Definition run (cfg : config) (c : call) (schedule : list thread) (m : machine)
  : machine :=
  fold_left (step cfg c) schedule m.

(** A ticker updated at clock 100 with price 50000. *)
Definition ticker_at_100 : TickerData :=
  update_ticker defaults 100 50000%float 1.2%float true (new_ticker "binance").

Definition call_at_130 : call :=
  {| a_now := 130; a_price := 50500%float; a_change := 1.5%float; a_marquee := true |}.

(** What a reader of [price] and [change_24h] should see together. *)
Definition pair (t : TickerData) : option float * float := (price t, change_24h t).

Definition updated (c : call) : option float * float := (Some (a_price c), a_change c).

(** Where the writer stands, with the lock and the pair of the ticker. *)
Definition writer_inv (c : call) (t0 : TickerData) (m : machine) : Prop :=
  (wpc m = update_ticker_data_stmts /\ lock m <> Some Writer /\ pair (ticker m) = pair t0)
  \/ (wpc m = skipn 1 update_ticker_data_stmts /\ lock m = Some Writer
      /\ pair (ticker m) = pair t0)
  \/ (wpc m = skipn 2 update_ticker_data_stmts /\ lock m = Some Writer
      /\ price (ticker m) = Some (a_price c))
  \/ (In (wpc m) [skipn 3 update_ticker_data_stmts; skipn 4 update_ticker_data_stmts;
                  skipn 5 update_ticker_data_stmts; skipn 6 update_ticker_data_stmts;
                  skipn 7 update_ticker_data_stmts]
      /\ lock m = Some Writer /\ pair (ticker m) = updated c)
  \/ (wpc m = [] /\ lock m <> Some Writer /\ pair (ticker m) = updated c).

(** Where the marquee reader stands, with the lock and what it has seen. *)
Definition reader_inv (c : call) (t0 : TickerData) (m : machine) : Prop :=
  (rpc m = marquee_stmts /\ lock m <> Some Reader
   /\ seen_price m = None /\ seen_change m = None)
  \/ (rpc m = skipn 1 marquee_stmts /\ lock m = Some Reader
      /\ seen_price m = None /\ seen_change m = None)
  \/ (rpc m = skipn 2 marquee_stmts /\ lock m = Some Reader
      /\ seen_price m = Some (price (ticker m)) /\ seen_change m = None)
  \/ (rpc m = skipn 3 marquee_stmts /\ lock m = Some Reader
      /\ seen_price m = Some (price (ticker m))
      /\ seen_change m = Some (change_24h (ticker m)))
  \/ (rpc m = [] /\ lock m <> Some Reader
      /\ exists x y, seen_price m = Some x /\ seen_change m = Some y
                     /\ ((x, y) = pair t0 \/ (x, y) = updated c)).

End Threads.

(* ===================================================================== *)
(** * More builtins: subscripts, membership, [str.replace] *)
(* ===================================================================== *)

Module Builtins.
Import Py.

(** What a statement of a handler or of the render loop raises: an
    exception of [Py.exn], [IndexError] or [ZeroDivisionError]. *)
Inductive raised : Set :=
| Exception (e : exn)
| IndexError
| ZeroDivisionError.

Inductive attempt (A : Type) : Type :=
| Done (a : A)
| Failed (r : raised).
Arguments Done {A} a.
Arguments Failed {A} r.

Definition lift {A : Type} (m : result A) : attempt A :=
  match m with
  | Ok a => Done a
  | Raise e => Failed (Exception e)
  end.

(** [obj[key]] for a string key. *)
Definition getitem (obj : pyval) (k : string) : result pyval :=
  match obj with
  | PDict d => match assoc k d with Some v => Ok v | None => Raise KeyError end
  | _ => Raise TypeError
  end.

(** [obj[i]] for a literal index [i >= 0]; a JSON dict has string keys
    only. *)
Definition getindex (obj : pyval) (i : nat) : attempt pyval :=
  match obj with
  | PList l =>
      match nth_error l i with Some v => Done v | None => Failed IndexError end
  | PStr s =>
      match String.get i s with
      | Some c => Done (PStr (String c EmptyString))
      | None => Failed IndexError
      end
  | PDict _ => Failed (Exception KeyError)
  | _ => Failed (Exception TypeError)
  end.

(** [v == s] and [v != s] for a string [s]. *)
Definition eq_str (v : pyval) (s : string) : bool :=
  match v with PStr s' => String.eqb s' s | _ => false end.

Fixpoint has_substring (k s : string) : bool :=
  (String.prefix k s
   || match s with
      | EmptyString => false
      | String _ s' => has_substring k s'
      end)%bool.

(** [k in obj] for a string [k]: a key of a dict, an element of a list, a
    substring of a string. *)
Definition contains (k : string) (obj : pyval) : result bool :=
  match obj with
  | PDict d => Ok (match assoc k d with Some _ => true | None => false end)
  | PList l => Ok (existsb (fun v => eq_str v k) l)
  | PStr s => Ok (has_substring k s)
  | _ => Raise TypeError
  end.

(** [s.replace(c, "")] for a one-character [c]. *)
Fixpoint delete_char (c : ascii) (s : string) : string :=
  match s with
  | EmptyString => EmptyString
  | String x s' =>
      if Ascii.eqb x c then delete_char c s' else String x (delete_char c s')
  end.

(** [a != b] between values that are [None] or a float. *)
Definition ne (a b : option float) : bool :=
  match a, b with
  | None, None => false
  | Some x, Some y => negb (x =? y)%float
  | _, _ => true
  end.

End Builtins.

#[global] Instance attempt_ret : MRet Builtins.attempt := @Builtins.Done.
#[global] Instance attempt_bind : MBind Builtins.attempt :=
  fun A B k m =>
    match m with
    | Builtins.Done a => k a
    | Builtins.Failed r => Builtins.Failed r
    end.

(* ===================================================================== *)
(** * app.py: the symbols and the initialisation of the ticker dict *)
(* ===================================================================== *)

Module App.
Import Data.

(** The symbol entries of [config.json]; a dict is the list of its items
    in order, with distinct keys. *)
Record symbols : Set := {
  MAIN_SYMBOLS : list string;
  MARQUEE_SYMBOLS : list string;
  KRAKEN_PAIRS : list (string * string);
  COINGECKO_IDS : list (string * string)
}.

Definition default_symbols : symbols := {|
  MAIN_SYMBOLS := ["BTCUSDT"];
  MARQUEE_SYMBOLS :=
    ["ETHUSDT"; "BNBUSDT"; "XMRUSDT"; "SOLUSDT"; "LTCUSDT"; "XRPUSDT"; "ADAUSDT";
     "TRXUSDT"; "MEUSDT"; "HBARUSDT"; "ESXUSD"; "XECUSDT"; "RUNECOIN"];
  KRAKEN_PAIRS := [("xmrusdt", "XMR/USDT"); ("esxusd", "ESX/USD")];
  COINGECKO_IDS := [("runecoin", "runecoin")]
|}.

(** [key in d] for a dict of strings. *)
Definition has_key (key : string) (d : list (string * string)) : bool :=
  existsb (fun kv => String.eqb key (fst kv)) d.

(** The source the loop gives a key. *)
Definition source_of (sy : symbols) (key : string) : string :=
  if has_key key (KRAKEN_PAIRS sy) then "kraken"
  else if has_key key (COINGECKO_IDS sy) then "coingecko"
  else "binance".

(** One turn of [for symbol in MAIN_SYMBOLS + MARQUEE_SYMBOLS]. *)
Definition init_step (sy : symbols) (data : gmap string TickerData) (symbol : string)
  : gmap string TickerData :=
  let key := Py.lower symbol in
  <[key := new_ticker (source_of sy key)]> data.

(** The dict [data] after the loop. *)
Definition init_data (sy : symbols) : gmap string TickerData :=
  fold_left (init_step sy) (MAIN_SYMBOLS sy ++ MARQUEE_SYMBOLS sy) ∅.

End App.

(* ===================================================================== *)
(** * src/websockets.py: the message handlers and the CoinGecko loop *)
(* ===================================================================== *)

Module Feeds.
Import Constants Data Helpers Builtins App.

(** The [try] body of [binance_on_message]; [message] is what
    [json.loads] makes of the frame, [now] the clock [update_ticker_data]
    reads.  The result is the dict [data] afterwards. *)
Definition binance_body (float_of_str : string -> option float) (cfg : config)
  (now : Q) (message : Py.result Py.pyval) (data : gmap string TickerData)
  : Py.result (gmap string TickerData) :=
  data_json ← message;
  s ← Py.get data_json "s" (Py.PStr "");
  match s with
  | Py.PStr s =>
      let symbol := Py.lower s in
      match data !! symbol with
      | None => mret data
      | Some ticker =>
          if negb (String.eqb (source ticker) "binance") then mret data
          else
            c ← getitem data_json "c";
            price ← Py.to_float float_of_str c;
            P ← getitem data_json "P";
            change_pct ← Py.to_float float_of_str P;
            let '(r, data') :=
              update_ticker_data cfg now symbol price change_pct true data in
            _ ← r;
            mret data'
      end
  | _ => Py.Raise Py.AttributeError
  end.

(** [binance_on_message(ws, message)]: an exception is logged. *)
Definition binance_on_message (float_of_str : string -> option float) (cfg : config)
  (now : Q) (message : Py.result Py.pyval) (data : gmap string TickerData)
  : gmap string TickerData :=
  match binance_body float_of_str cfg now message data with
  | Py.Ok data' => data'
  | Py.Raise _ => data
  end.

(** [next((k for k, v in KRAKEN_PAIRS.items()
          if v.replace("/", "") == pair_clean), None)]. *)
Fixpoint pair_key (pairs : list (string * string)) (pair_clean : string)
  : option string :=
  match pairs with
  | [] => None
  | (k, v) :: rest =>
      if String.eqb (delete_char "/" v) pair_clean then Some k
      else pair_key rest pair_clean
  end.

(** [((price - open_24h) / open_24h * 100) if open_24h > 0 else 0.0]. *)
Definition change_since_open (price open_24h : float) : float :=
  if (0 <? open_24h)%float then ((price - open_24h) / open_24h * 100)%float
  else 0%float.

(** From [if not key or "c" not in ticker_data ...] to the update. *)
Definition kraken_update (float_of_str : string -> option float) (cfg : config)
  (now : Q) (key : option string) (ticker_data : Py.pyval)
  (data : gmap string TickerData) : attempt (gmap string TickerData) :=
  match key with
  | None | Some EmptyString => mret data
  | Some key =>
      has_c ← lift (contains "c" ticker_data);
      if negb has_c then mret data
      else
        has_o ← lift (contains "o" ticker_data);
        if negb has_o then mret data
        else
          c ← lift (getitem ticker_data "c");
          c0 ← getindex c 0;
          price ← lift (Py.to_float float_of_str c0);
          o ← lift (getitem ticker_data "o");
          o1 ← getindex o 1;
          open_24h ← lift (Py.to_float float_of_str o1);
          let change_pct := change_since_open price open_24h in
          let '(r, data') :=
            update_ticker_data cfg now key price change_pct true data in
          _ ← lift r;
          mret data'
  end.

(** The [try] body of [kraken_on_message]. *)
Definition kraken_body (float_of_str : string -> option float) (cfg : config)
  (sy : symbols) (now : Q) (message : Py.result Py.pyval)
  (data : gmap string TickerData) : attempt (gmap string TickerData) :=
  msg ← lift message;
  match msg with
  | Py.PDict d =>
      (* a dict: with an "event" key it returns, without one it is no list *)
      mret data
  | Py.PList l =>
      if (List.length l <? 4)%nat then mret data
      else if negb (eq_str (nth 2 l Py.PNone) "ticker") then mret data
      else
        match l with
        | [_; ticker_data; _; pair_name] =>
            match pair_name with
            | Py.PStr p =>
                let pair_clean := delete_char "/" p in
                kraken_update float_of_str cfg now
                  (pair_key (KRAKEN_PAIRS sy) pair_clean) ticker_data data
            | _ => Failed (Exception Py.AttributeError)
            end
        | _ => Failed (Exception Py.ValueError)
        end
  | _ => mret data
  end.

(** [kraken_on_message(ws, message)]: an exception is logged. *)
Definition kraken_on_message (float_of_str : string -> option float) (cfg : config)
  (sy : symbols) (now : Q) (message : Py.result Py.pyval)
  (data : gmap string TickerData) : gmap string TickerData :=
  match kraken_body float_of_str cfg sy now message data with
  | Done data' => data'
  | Failed _ => data
  end.

(** A frame received by one of the two connections, with the clock at
    its arrival. *)
Inductive frame : Type :=
| FromBinance (now : Q) (message : Py.result Py.pyval)
| FromKraken (now : Q) (message : Py.result Py.pyval).

Definition deliver (float_of_str : string -> option float) (cfg : config)
  (sy : symbols) (data : gmap string TickerData) (f : frame)
  : gmap string TickerData :=
  match f with
  | FromBinance now message => binance_on_message float_of_str cfg now message data
  | FromKraken now message => kraken_on_message float_of_str cfg sy now message data
  end.

(** [bool(response)]: a response is true when [raise_for_status] would
    not raise. *)
Definition truthy (r : Requests.response) : bool :=
  negb (Py.raised (Requests.raise_for_status r)).

(** The value [run_coingecko_polling] assigns to [backoff] in one turn:
    [a] is what the request comes to, [rest] what the body does from
    [resp.json()] on, [jitter] the draw of [random.uniform(0, 30)].  The
    only [HTTPError] is the one of [raise_for_status], whose [response] is
    the response itself. *)
Definition coingecko_backoff (jitter : float) (a : Requests.answer)
  (rest : Requests.response -> Py.result unit) : float :=
  match a with
  | Py.Raise _ => 60%float
  | Py.Ok resp =>
      match Requests.raise_for_status resp with
      | Py.Raise _ =>
          if (truthy resp && (Requests.status_code resp =? 429)%Z)%bool
          then (180 + jitter)%float
          else 60%float
      | Py.Ok _ =>
          match rest resp with
          | Py.Ok _ => 300%float
          | Py.Raise _ => 60%float
          end
      end
  end.

(** The arguments of [time.sleep] over the first turns of the loop. *)
Fixpoint coingecko_sleeps (backoff : float)
  (turns : list (float * Requests.answer * (Requests.response -> Py.result unit)))
  : list float :=
  match turns with
  | [] => []
  | (jitter, a, rest) :: turns' =>
      backoff :: coingecko_sleeps (coingecko_backoff jitter a rest) turns'
  end.

(** The list comprehension at the top of a turn of
    [run_binance_websocket]; [data.get(s.lower(), {}).source] raises
    [AttributeError] for a key the dict does not hold. *)
Fixpoint binance_symbols (syms : list string) (data : gmap string TickerData)
  : Py.result (list string) :=
  match syms with
  | [] => mret []
  | s :: rest =>
      match data !! Py.lower s with
      | None => Py.Raise Py.AttributeError
      | Some ticker =>
          rest' ← binance_symbols rest data;
          mret (if String.eqb (source ticker) "binance" then Py.lower s :: rest'
                else rest')
      end
  end.

(** The address the driver connects to, for a list of symbols that is not
    empty. *)
Definition stream_url (binance_symbols : list string) : string :=
  String.append "wss://stream.binance.com:9443/ws/"
    (String.concat "/" (map (fun s => String.append s "@ticker") binance_symbols)).

(** Every ticker of the dict is under the source the initialisation
    gives its key. *)
Definition sources_assigned (sy : symbols) (data : gmap string TickerData) : Prop :=
  forall k t, data !! k = Some t -> source t = source_of sy k.

(** The source a connection feeds. *)
Definition feed_source (f : frame) : string :=
  match f with
  | FromBinance _ _ => "binance"
  | FromKraken _ _ => "kraken"
  end.

(** A Binance frame for BTCUSDT and a Kraken frame for XMR/USDT. *)
Definition btc_frame : Py.pyval :=
  Py.PDict [("s", Py.PStr "BTCUSDT"); ("c", Py.PFloat 50000); ("P", Py.PFloat 1.2)].

Definition xmr_frame : Py.pyval :=
  Py.PList [Py.PInt 42;
            Py.PDict [("c", Py.PList [Py.PFloat 150; Py.PFloat 1]);
                      ("o", Py.PList [Py.PFloat 148; Py.PFloat 146])];
            Py.PStr "ticker"; Py.PStr "XMR/USDT"].

End Feeds.

(* ===================================================================== *)
(** * The marquee change detection *)
(* ===================================================================== *)

Module Marquee.
Import Data Builtins.

(** [last_known_marquee_prices.get(key)]. *)
Definition last_known (d : gmap string (option float)) (key : string) : option float :=
  match d !! key with
  | Some v => v
  | None => None
  end.

(** [prices_changed_for_marquee()] of [src/helpers.py], over the dict
    its module name [last_known_marquee_prices] refers to. *)
Fixpoint prices_changed_for_marquee (marquee : list string)
  (data : gmap string TickerData) (known : gmap string (option float))
  : Py.result bool :=
  match marquee with
  | [] => Py.Ok false
  | sym :: rest =>
      let key := Py.lower sym in
      match data !! key with
      | None => Py.Raise Py.KeyError
      | Some ticker =>
          if ne (last_marquee_price ticker) (last_known known key) then Py.Ok true
          else prices_changed_for_marquee rest data known
      end
  end.

(** The dict comprehension of [run_render_loop]:
    [{k.lower(): data[k.lower()].last_marquee_price for k in MARQUEE_SYMBOLS}]. *)
Fixpoint snapshot (marquee : list string) (data : gmap string TickerData)
  (acc : gmap string (option float)) : Py.result (gmap string (option float)) :=
  match marquee with
  | [] => Py.Ok acc
  | k :: rest =>
      match data !! Py.lower k with
      | None => Py.Raise Py.KeyError
      | Some ticker =>
          snapshot rest data (<[Py.lower k := last_marquee_price ticker]> acc)
      end
  end.

(** The name [last_known_marquee_prices] in the two modules that import
    it from [src.data].  Both start on the one dict made there; nothing
    mutates that dict, and [run_render_loop] declares the name [global] and
    assigns a new dict to it, which rebinds the name of [src.rendering]. *)
Record names : Type := {
  helpers_last_known : gmap string (option float);
  rendering_last_known : gmap string (option float)
}.

Definition names0 : names :=
  {| helpers_last_known := ∅; rendering_last_known := ∅ |}.

(** The assignment in [run_render_loop] after a rebuild of the marquee. *)
Definition record_prices (marquee : list string) (data : gmap string TickerData)
  (n : names) : Py.result names :=
  snap ← snapshot marquee data ∅;
  mret {| helpers_last_known := helpers_last_known n; rendering_last_known := snap |}.

(** The call of [prices_changed_for_marquee()] by the render loop. *)
Definition changed (marquee : list string) (data : gmap string TickerData)
  (n : names) : Py.result bool :=
  prices_changed_for_marquee marquee data (helpers_last_known n).

(** Some marquee symbol has a published price. *)
Definition some_published (marquee : list string) (data : gmap string TickerData)
  : bool :=
  existsb
    (fun sym =>
       match data !! Py.lower sym with
       | Some ticker =>
           match last_marquee_price ticker with Some _ => true | None => false end
       | None => false
       end)
    marquee.

(** The rebuilds of the marquee over a run of the render loop, each with
    the dict as it was at that turn. *)
Fixpoint rebuilds (marquee : list string) (datas : list (gmap string TickerData))
  (n : names) : Py.result names :=
  match datas with
  | [] => Py.Ok n
  | data :: rest => n' ← record_prices marquee data n; rebuilds marquee rest n'
  end.

End Marquee.

(* ===================================================================== *)
(** * Successive calls of [get_ws_color] *)
(* ===================================================================== *)

Module Probe.
Import Constants Data Helpers.

(** Whether a call at clock [now] runs [is_wifi_connected()]. *)
Definition probes (cfg : config) (now : Q) (g : globals) : bool :=
  Qgt_bool (now - last_wifi_check (wifi g)) (WIFI_CHECK_INTERVAL cfg).

(** The clocks at which a sequence of calls ran the probe; a call is its
    clock and what the probe would answer. *)
Fixpoint probe_times (cfg : config) (calls : list (Q * bool)) (g : globals) : list Q :=
  match calls with
  | [] => []
  | (now, probe) :: rest =>
      let g' := snd (get_ws_color cfg now probe g) in
      if probes cfg now g then now :: probe_times cfg rest g'
      else probe_times cfg rest g'
  end.

(** Each clock of the list is more than [w] after the one before it,
    the first after [last]. *)
Fixpoint spaced (w last : Q) (ts : list Q) : Prop :=
  match ts with
  | [] => True
  | t :: ts' => (w < t - last)%Q /\ spaced w t ts'
  end.

End Probe.

(* ===================================================================== *)
(** * The indicator over a run of the process *)
(* ===================================================================== *)

Module Session.
Import Constants Data Helpers Websockets.

(** What happens in the process, as far as the indicator is concerned: a
    driver fires a callback, or the render loop asks for the colour. *)
Inductive action : Set :=
| Fired (c : callback)
| Asked (now : Q) (probe : bool).

(** The colours the render loop is given over a run, in order. *)
Fixpoint colours (cfg : config) (acts : list action) (p : process) : list color :=
  match acts with
  | [] => []
  | Fired c :: rest => colours cfg rest (fire p c)
  | Asked now probe :: rest =>
      let '(c, p') := indicator cfg now probe p in
      c :: colours cfg rest p'
  end.

(** Both drivers go live, Kraken fails, Binance closes; the render loop
    asks before and after. *)
Definition outage : list action :=
  [Asked 100 true; Fired (Binance WsOpen); Fired (Kraken WsOpen);
   Fired (Kraken WsError); Asked 120 true; Fired (Binance WsClose);
   Asked 140 false].

End Session.

(* ===================================================================== *)
(** * src/rendering.py: what the render loop decides before it draws *)
(* ===================================================================== *)

Module Rendering.
Import Constants Data Builtins.

Definition BLUE : color := (100, 180, 255)%Z.

(** The locals [current_symbol_idx] and [last_symbol_switch]. *)
Record rotation : Set := {
  current_symbol_idx : Z;
  last_symbol_switch : Q
}.

(** The locals before the loop, the clock at [now]. *)
Definition rotation0 (now : Q) : rotation :=
  {| current_symbol_idx := 0; last_symbol_switch := now |}.

(** [0 if len(MAIN_SYMBOLS) <= 1 else 21.0]. *)
Definition symbol_switch_interval (main : list string) : Q :=
  if (List.length main <=? 1)%nat then 0 else 21.

(** The rotation of the main symbol at the top of a turn. *)
Definition rotate (main : list string) (now : Q) (r : rotation) : attempt rotation :=
  if Qle_bool (symbol_switch_interval main) (now - last_symbol_switch r) then
    match main with
    | [] => Failed ZeroDivisionError
    | _ =>
        Done {| current_symbol_idx :=
                  (current_symbol_idx r + 1) mod Z.of_nat (List.length main);
                last_symbol_switch := now |}
    end
  else Done r.

(** [MAIN_SYMBOLS[current_symbol_idx].lower()]; a negative index counts
    from the end. *)
Definition current_symbol (main : list string) (r : rotation) : attempt string :=
  let n := Z.of_nat (List.length main) in
  let i := if (current_symbol_idx r <? 0)%Z then (current_symbol_idx r + n)%Z
           else current_symbol_idx r in
  if ((0 <=? i) && (i <? n))%Z%bool then
    match nth_error main (Z.to_nat i) with
    | Some s => Done (Py.lower s)
    | None => Failed IndexError
    end
  else Failed IndexError.

(** The top of one turn of the loop: the locals afterwards and what
    [data.get(current_symbol)] gives. *)
Definition fetch_ticker (main : list string) (now : Q)
  (data : gmap string TickerData) (r : rotation)
  : attempt (rotation * option TickerData) :=
  r' ← rotate main now r;
  sym ← current_symbol main r';
  mret (r', data !! sym).

(** The tickers fetched over the first turns of the loop; a turn is its
    clock and the dict as it was then. *)
Fixpoint fetched (main : list string) (turns : list (Q * gmap string TickerData))
  (r : rotation) : attempt (list (option TickerData)) :=
  match turns with
  | [] => mret []
  | (now, data) :: rest =>
      x ← fetch_ticker main now data r;
      l ← fetched main rest (fst x);
      mret (snd x :: l)
  end.

(** The colour of the miner line, drawn when [total_miners > 0]. *)
Definition miner_color (total_miners conn_count active_count : Z) : color :=
  if ((conn_count =? total_miners) && (active_count =? total_miners))%Z%bool then BLUE
  else if (0 <? conn_count)%Z then ORANGE
  else RED.

End Rendering.

(* ===================================================================== *)
(** * Views of a ticker and configurations for the examples *)
(* ===================================================================== *)

Module Views.
Import Constants Data Helpers.

(** The start times of the candles of a ticker, the closed ones in the
    order of the deque and then the open one. *)
Definition timeline (t : TickerData) : list Q :=
  map start
    (candles t ++ match current_candle t with Some c => [c] | None => [] end).

(** A ticker that has an open candle as soon as it has closed ones, and
    whose candles start one after the other. *)
Definition chronological (t : TickerData) : Prop :=
  (current_candle t = None -> candles t = [])
  /\ StronglySorted Qlt (timeline t).

(** The defaults with room for two closed candles only. *)
Definition two_candles : config := {|
  CANDLE_SECONDS := 60;
  MAX_CANDLES := 2;
  MINER_ACTIVE_THRESHOLD := 0.25%float;
  WIFI_CHECK_INTERVAL := 12
|}.

(** The configuration with room for [n] closed candles. *)
Definition with_capacity (n : nat) (cfg : config) : config := {|
  CANDLE_SECONDS := CANDLE_SECONDS cfg;
  MAX_CANDLES := n;
  MINER_ACTIVE_THRESHOLD := MINER_ACTIVE_THRESHOLD cfg;
  WIFI_CHECK_INTERVAL := WIFI_CHECK_INTERVAL cfg
|}.

(** Four ticks one minute apart. *)
Definition four_minutes : list sample :=
  [tick 100 1%float; tick 160 2%float; tick 220 3%float; tick 280 4%float].

(** A ticker fed three ticks one minute apart. *)
Definition three_minutes (cfg : config) : TickerData :=
  feed cfg [tick 100 1%float; tick 160 2%float; tick 220 3%float]
    (new_ticker "binance").

(** A miner that answers 200 with its best difficulty as text. *)
Definition text_difficulty : Requests.answer :=
  Py.Ok {| Requests.status_code := 200; Requests.text := "";
           Requests.json :=
             Py.Ok (Py.PDict [("hashRate", Py.PFloat 500);
                              ("bestDiff", Py.PStr "4.29M")]) |}.

(** A miner that answers 200 with numbers: 1200 GH/s, best share 2.5e9. *)
Definition healthy_miner : Requests.answer :=
  Py.Ok {| Requests.status_code := 200; Requests.text := "";
           Requests.json :=
             Py.Ok (Py.PDict [("hashRate", Py.PFloat 1200);
                              ("bestDiff", Py.PFloat 2.5e9)]) |}.

(** CoinGecko answers 429. *)
Definition rate_limited : Requests.answer :=
  Py.Ok {| Requests.status_code := 429; Requests.text := "Too Many Requests";
           Requests.json := Py.Raise Py.JSONDecodeError |}.

(** mempool.space answers the height request with the text "0". *)
Definition genesis : Mempool.answers := {|
  Mempool.fees_answer := Mempool.ok_json (Py.PDict [("halfHourFee", Py.PFloat 5)]);
  Mempool.height_answer :=
    Py.Ok {| Requests.status_code := 200; Requests.text := "0";
             Requests.json := Py.Ok (Py.PInt 0) |};
  Mempool.hash_answer := fun _ => Py.Raise Py.RequestException;
  Mempool.block_answer := fun _ => Py.Raise Py.RequestException;
  Mempool.hashrate_answer :=
    Mempool.ok_json (Py.PDict [("currentHashrate", Py.PFloat 7e20%float)])
|}.

End Views.

(* ===================================================================== *)
(** * Order of binary64 numbers *)
(* ===================================================================== *)

(** The comparisons of [PrimFloat] are those of [SpecFloat] on the
    decoded number; the facts below are proved there, case by case. *)

Ltac cmp_cases :=
  repeat match goal with
  | H : context [Pos.compare_cont Eq ?a ?b] |- _ =>
      change (Pos.compare_cont Eq a b) with (Pos.compare a b) in H
  | |- context [Pos.compare_cont Eq ?a ?b] =>
      change (Pos.compare_cont Eq a b) with (Pos.compare a b)
  | H : context [Z.compare ?a ?b] |- _ => destruct (Z.compare_spec a b)
  | |- context [Z.compare ?a ?b] => destruct (Z.compare_spec a b)
  | H : context [Pos.compare ?a ?b] |- _ => destruct (Pos.compare_spec a b)
  | |- context [Pos.compare ?a ?b] => destruct (Pos.compare_spec a b)
  end.

Ltac sf_cases :=
  simpl; try reflexivity; try discriminate; intros; cmp_cases; simpl in *;
  try reflexivity; try discriminate; try congruence; try lia.

Section SpecFloatFacts.
Import FloatOrder.

Lemma SFleb_trans (x y z : spec_float) :
  SFleb x y = true -> SFleb y z = true -> SFleb x z = true.
Proof.
  unfold SFleb, SFcompare.
  destruct x as [[]|[]| |[] mx ex], y as [[]|[]| |[] my ey],
    z as [[]|[]| |[] mz ez]; sf_cases.
Qed.

Lemma SFltb_trans (x y z : spec_float) :
  SFltb x y = true -> SFltb y z = true -> SFltb x z = true.
Proof.
  unfold SFltb, SFcompare.
  destruct x as [[]|[]| |[] mx ex], y as [[]|[]| |[] my ey],
    z as [[]|[]| |[] mz ez]; sf_cases.
Qed.

Lemma SFltb_leb_trans (x y z : spec_float) :
  SFltb x y = true -> SFleb y z = true -> SFleb x z = true.
Proof.
  unfold SFltb, SFleb, SFcompare.
  destruct x as [[]|[]| |[] mx ex], y as [[]|[]| |[] my ey],
    z as [[]|[]| |[] mz ez]; sf_cases.
Qed.

Lemma SFleb_ltb_trans (x y z : spec_float) :
  SFleb x y = true -> SFltb y z = true -> SFleb x z = true.
Proof.
  unfold SFltb, SFleb, SFcompare.
  destruct x as [[]|[]| |[] mx ex], y as [[]|[]| |[] my ey],
    z as [[]|[]| |[] mz ez]; sf_cases.
Qed.

Lemma SFleb_refl (x : spec_float) : SFis_nan x = false -> SFleb x x = true.
Proof.
  unfold SFleb, SFcompare.
  destruct x as [[]|[]| |[] mx ex]; simpl; intros; try reflexivity;
    try discriminate; rewrite Z.compare_refl; change (Pos.compare_cont Eq mx mx)
      with (Pos.compare mx mx); rewrite Pos.compare_refl; reflexivity.
Qed.

Lemma SFltb_irrefl (x : spec_float) : SFltb x x = false.
Proof.
  unfold SFltb, SFcompare.
  destruct x as [[]|[]| |[] mx ex]; simpl; try reflexivity;
    rewrite Z.compare_refl; change (Pos.compare_cont Eq mx mx)
      with (Pos.compare mx mx); rewrite Pos.compare_refl; reflexivity.
Qed.

Lemma SFleb_not_nan (x y : spec_float) :
  SFleb x y = true -> SFis_nan x = false /\ SFis_nan y = false.
Proof.
  unfold SFleb, SFcompare.
  destruct x as [[]|[]| |[] mx ex], y as [[]|[]| |[] my ey]; simpl; intros;
    try discriminate; split; reflexivity.
Qed.

(** Two numbers that are not NaN are comparable. *)
Lemma SFnot_ltb_leb (x y : spec_float) :
  SFis_nan x = false -> SFis_nan y = false ->
  SFltb x y = false -> SFleb y x = true.
Proof.
  unfold SFltb, SFleb, SFcompare.
  destruct x as [[]|[]| |[] mx ex], y as [[]|[]| |[] my ey]; sf_cases.
Qed.

(** Above zero, two numbers neither of which is below the other are the
    same number. *)
Lemma SFtie_eq (x y : spec_float) :
  SFltb (S754_zero false) x = true -> SFltb (S754_zero false) y = true ->
  SFltb x y = false -> SFltb y x = false -> x = y.
Proof.
  unfold SFltb, SFcompare.
  destruct x as [[]|[]| |[] mx ex], y as [[]|[]| |[] my ey]; sf_cases.
Qed.

End SpecFloatFacts.

Section FloatFacts.
Import FloatOrder.
Local Open Scope float_scope.

Lemma float_is_nan_spec (a : float) : PrimFloat.is_nan a = SFis_nan (Prim2SF a).
Proof.
  unfold PrimFloat.is_nan. rewrite FloatAxioms.eqb_spec. unfold SFeqb.
  destruct (Prim2SF a) as [[]|[]| |[] m e] eqn:E; simpl; try reflexivity;
    rewrite Z.compare_refl; change (Pos.compare_cont Eq m m) with (Pos.compare m m);
    rewrite Pos.compare_refl; reflexivity.
Qed.

Lemma float_le_trans (a b c : float) : le a b -> le b c -> le a c.
Proof. unfold le. rewrite !FloatAxioms.leb_spec. apply SFleb_trans. Qed.

Lemma float_lt_trans (a b c : float) : lt a b -> lt b c -> lt a c.
Proof. unfold lt. rewrite !FloatAxioms.ltb_spec. apply SFltb_trans. Qed.

Lemma float_lt_le_trans (a b c : float) : lt a b -> le b c -> le a c.
Proof.
  unfold lt, le. rewrite !FloatAxioms.leb_spec, FloatAxioms.ltb_spec.
  apply SFltb_leb_trans.
Qed.

Lemma float_le_lt_trans (a b c : float) : le a b -> lt b c -> le a c.
Proof.
  unfold lt, le. rewrite !FloatAxioms.leb_spec, FloatAxioms.ltb_spec.
  apply SFleb_ltb_trans.
Qed.

Lemma float_le_refl (a : float) : PrimFloat.is_nan a = false -> le a a.
Proof. unfold le. rewrite float_is_nan_spec, FloatAxioms.leb_spec. apply SFleb_refl. Qed.

Lemma float_lt_irrefl (a : float) : (a <? a) = false.
Proof. rewrite FloatAxioms.ltb_spec. apply SFltb_irrefl. Qed.

Lemma float_le_not_nan_l (a b : float) : le a b -> PrimFloat.is_nan a = false.
Proof.
  unfold le. rewrite float_is_nan_spec, FloatAxioms.leb_spec. intros H.
  apply (SFleb_not_nan _ _ H).
Qed.

Lemma float_le_not_nan_r (a b : float) : le a b -> PrimFloat.is_nan b = false.
Proof.
  unfold le. rewrite float_is_nan_spec, FloatAxioms.leb_spec. intros H.
  apply (SFleb_not_nan _ _ H).
Qed.

Lemma float_not_lt_le (a b : float) :
  PrimFloat.is_nan a = false -> PrimFloat.is_nan b = false ->
  (a <? b) = false -> le b a.
Proof.
  unfold le.
  rewrite !float_is_nan_spec, FloatAxioms.ltb_spec, FloatAxioms.leb_spec.
  apply SFnot_ltb_leb.
Qed.

Lemma float_tie_eq (a b : float) :
  lt 0 a -> lt 0 b -> (a <? b) = false -> (b <? a) = false -> a = b.
Proof.
  unfold lt. rewrite !FloatAxioms.ltb_spec. intros Ha Hb Hab Hba.
  apply Prim2SF_inj. apply SFtie_eq; assumption.
Qed.

End FloatFacts.

Create HintDb float_order.
#[global] Hint Resolve float_le_trans float_lt_trans float_lt_le_trans
  float_le_lt_trans : float_order.

(* ===================================================================== *)
(** * The candle aggregator *)
(* ===================================================================== *)

Section Candles.
Import Constants Data Helpers FloatOrder.
Local Open Scope float_scope.

Variable cfg : config.

Lemma bounded_candle_bounds (c : Candle) : bounded c -> candle_bounds c = true.
Proof.
  unfold bounded, candle_bounds, le.
  intros (-> & -> & -> & -> & ->). reflexivity.
Qed.

Lemma bounded_candle_ok (c : Candle) : bounded c -> candle_ok c = true.
Proof.
  unfold bounded, candle_ok, Py.max, Py.min, le.
  intros (Hoh & Hch & _ & Hlo & Hlc).
  destruct (open c <? close c), (close c <? open c);
    rewrite ?Hoh, ?Hch, ?Hlo, ?Hlc; reflexivity.
Qed.

Lemma new_candle_bounded (now : Q) (p : float) :
  PrimFloat.is_nan p = false -> bounded (new_candle now p).
Proof.
  intros Hp. pose proof (float_le_refl p Hp) as H.
  unfold bounded, new_candle; simpl. tauto.
Qed.

Lemma widen_bounded (c : Candle) (p : float) :
  PrimFloat.is_nan p = false -> bounded c -> bounded (widen c p).
Proof.
  intros Hp (Hoh & Hch & Hlh & Hlo & Hlc).
  pose proof (float_le_refl p Hp) as Hpp.
  pose proof (float_le_not_nan_r _ _ Hoh) as Hh.
  pose proof (float_le_not_nan_l _ _ Hlo) as Hl.
  unfold bounded, widen, Py.max, Py.min; simpl.
  destruct (high c <? p) eqn:Ehp, (p <? low c) eqn:Epl.
  - repeat split; eauto with float_order.
  - pose proof (float_not_lt_le _ _ Hp Hl Epl) as Hlp.
    repeat split; eauto with float_order.
  - pose proof (float_not_lt_le _ _ Hh Hp Ehp) as Hph.
    repeat split; eauto with float_order.
  - pose proof (float_not_lt_le _ _ Hp Hl Epl) as Hlp.
    pose proof (float_not_lt_le _ _ Hh Hp Ehp) as Hph.
    repeat split; eauto with float_order.
Qed.

Lemma deque_append_Forall {A : Type} (P : A -> Prop) (n : nat) (d : list A) (x : A) :
  Forall P d -> P x -> Forall P (Py.deque_append n d x).
Proof.
  intros Hd Hx. unfold Py.deque_append.
  assert (Hall : Forall P (d ++ [x])).
  { apply Forall_app. split; [assumption | constructor; [assumption | constructor]]. }
  apply Forall_drop. exact Hall.
Qed.

Lemma update_ticker_sound (now : Q) (p change : float) (m : bool) (t : TickerData) :
  PrimFloat.is_nan p = false -> sound t ->
  sound (update_ticker cfg now p change m t).
Proof.
  intros Hp [Hclosed Hcur].
  unfold sound, update_ticker, build_candle.
  destruct (current_candle t) as [c|] eqn:Ecur; simpl.
  - destruct (Qle_bool (CANDLE_SECONDS cfg) (now - start c)); simpl.
    + split; [apply deque_append_Forall; assumption | apply new_candle_bounded; assumption].
    + split; [assumption | apply widen_bounded; assumption].
  - split; [assumption | apply new_candle_bounded; assumption].
Qed.

Lemma feed_sound (samples : list sample) (t : TickerData) :
  Forall (fun s => PrimFloat.is_nan (s_price s) = false) samples ->
  sound t -> sound (feed cfg samples t).
Proof.
  unfold feed. revert t.
  induction samples as [|s samples IH]; intros t Hs Ht; simpl.
  - exact Ht.
  - inversion Hs as [|? ? Hp Hrest]; subst.
    apply IH; [assumption | apply update_ticker_sound; assumption].
Qed.

Lemma new_ticker_sound (src : string) : sound (new_ticker src).
Proof. split; simpl; [constructor | exact I]. Qed.

End Candles.

Section CandleClaims.
Import Constants Data Helpers FloatOrder.
Local Open Scope float_scope.

(** C2, as amended: for every sequence of samples none of whose prices is
    NaN, fed through the update path of a fresh ticker, every candle of the
    closed history has [high >= max(open, close)] and
    [low <= min(open, close)], and field by field
    [high >= open, close, low] and [low <= open, close]. *)
Theorem closed_candles_within_bounds (cfg : config) (src : string)
  (samples : list sample) :
  Forall (fun s => PrimFloat.is_nan (s_price s) = false) samples ->
  Forall (fun c => candle_ok c = true /\ candle_bounds c = true)
    (candles (feed cfg samples (new_ticker src))).
Proof.
  intros Hs.
  destruct (feed_sound cfg samples (new_ticker src) Hs (new_ticker_sound src))
    as [Hclosed _].
  eapply Forall_impl; [exact Hclosed|].
  intros c Hc. split.
  - apply bounded_candle_ok. exact Hc.
  - apply bounded_candle_bounds. exact Hc.
Qed.

(** Three ticks, the third one minute after the first: one closed candle. *)
Lemma closed_candles_within_bounds_witness :
  Forall (fun c => candle_ok c = true /\ candle_bounds c = true)
    (candles (feed defaults [tick 100 50000; tick 130 50500; tick 160 50200]
                (new_ticker "binance"))).
Proof.
  apply closed_candles_within_bounds.
  repeat constructor.
Defined.

(** C2 as stated fails on a NaN price: the candle it opens is closed by
    the next bucket and is outside the bounds. *)
Lemma nan_candle_out_of_bounds :
  let closed := candles (feed defaults [tick 100 nan; tick 160 50000]
                           (new_ticker "binance")) in
  List.length closed = 1%nat /\ forallb candle_ok closed = false.
Proof. vm_compute. split; reflexivity. Qed.

(** C4, as amended: when no candle is open or
    [now - candle["start"] >= CANDLE_SECONDS], the open candle (if any) is
    appended to the closed deque and the new open candle has
    [open = high = low = close = price] and [start = int(now)], the clock
    truncated to a whole second (its floor, the clock being positive);
    otherwise the open candle keeps its [open] and its [start], and the
    closed deque is left alone. *)
Theorem candle_rollover (cfg : config) (now : Q) (p change : float) (m : bool)
  (t : TickerData) :
  (0 <= now)%Q ->
  let t' := update_ticker cfg now p change m t in
  let fresh := {| start := inject_Z (Qfloor now);
                  open := p; high := p; low := p; close := p |} in
  match current_candle t with
  | None => candles t' = candles t /\ current_candle t' = Some fresh
  | Some c =>
      ((CANDLE_SECONDS cfg <= now - start c)%Q ->
       candles t' = Py.deque_append (MAX_CANDLES cfg) (candles t) c
       /\ current_candle t' = Some fresh)
      /\ (~ (CANDLE_SECONDS cfg <= now - start c)%Q ->
          candles t' = candles t
          /\ exists c', current_candle t' = Some c'
                        /\ open c' = open c /\ start c' = start c)
  end.
Proof.
  intros Hnow t' fresh. subst t' fresh.
  assert (Hint : inject_Z (Py.int_of_Q now) = inject_Z (Qfloor now)).
  { unfold Py.int_of_Q, Qfloor. destruct now as [n d]. simpl.
    rewrite Z.quot_div_nonneg; [reflexivity | | lia].
    unfold Qle in Hnow. simpl in Hnow. lia. }
  unfold update_ticker, build_candle, rolls_over, new_candle.
  destruct (current_candle t) as [c|] eqn:Ecur.
  - destruct (Qle_bool (CANDLE_SECONDS cfg) (now - start c)) eqn:Eroll; simpl.
    + split.
      * intros _. rewrite Hint. split; reflexivity.
      * intros Hn. exfalso. apply Hn. apply Qle_bool_iff. exact Eroll.
    + split.
      * intros Hle. apply Qle_bool_iff in Hle. congruence.
      * intros _. split; [reflexivity|].
        exists (widen c p). repeat split; reflexivity.
  - simpl. rewrite Hint. split; reflexivity.
Qed.

(** A candle opened at clock 100.2 rolls over at clock 160.7. *)
Lemma candle_rollover_witness :
  let t := update_ticker defaults (1002 # 10) 50000 1.2 true (new_ticker "binance") in
  let t' := update_ticker defaults (1607 # 10) 50500 1.5 true t in
  candles t' =
    [{| start := inject_Z 100;
        open := 50000; high := 50000; low := 50000; close := 50000 |}]
  /\ current_candle t' =
       Some {| start := inject_Z 160;
               open := 50500; high := 50500; low := 50500; close := 50500 |}.
Proof.
  apply (proj1 (candle_rollover defaults (1607 # 10) 50500 1.5 true
                  (update_ticker defaults (1002 # 10) 50000 1.2 true
                     (new_ticker "binance"))
                  ltac:(apply Qle_bool_iff; reflexivity))).
  apply Qle_bool_iff. reflexivity.
Defined.

(** The scenario of the specification: two ticks in the same bucket leave
    one open candle and no closed one. *)
Example same_bucket_scenario :
  let t := feed defaults
             [{| s_now := 100; s_price := 50000; s_change := 1.2; s_marquee := true |};
              {| s_now := 130; s_price := 50500; s_change := 1.5; s_marquee := true |}]
             (new_ticker "binance") in
  candles t = []
  /\ current_candle t =
       Some {| start := inject_Z 100;
               open := 50000; high := 50500; low := 50000; close := 50500 |}.
Proof. vm_compute. split; reflexivity. Qed.

(** C4 as stated fails: at clock 125.7 with one-minute buckets the new
    candle starts at 125, and the bucket floor is 120. *)
Lemma start_not_bucket_aligned :
  let t' := update_ticker defaults (1257 # 10) 50000 0 true (new_ticker "binance") in
  option_map start (current_candle t') = Some (inject_Z 125)
  /\ bucket_floor (CANDLE_SECONDS defaults) (1257 # 10) = (120 # 1)%Q
  /\ Qeq_bool (inject_Z 125) (bucket_floor (CANDLE_SECONDS defaults) (1257 # 10)) = false.
Proof. vm_compute. repeat split; reflexivity. Qed.

(** C9: for a key the ticker dict does not hold, [update_ticker_data]
    raises [KeyError] and leaves the dict as it was; and whatever the key,
    the set of keys after the call is the set of keys before. *)
Theorem unknown_key_raises (cfg : config) (now : Q) (key : string)
  (p change : float) (m : bool) (data : gmap string TickerData) :
  let r := update_ticker_data cfg now key p change m data in
  dom (snd r) = dom data
  /\ (data !! key = None -> r = (Py.Raise Py.KeyError, data)).
Proof.
  intros r. subst r. unfold update_ticker_data.
  destruct (data !! key) as [t|] eqn:E; simpl.
  - split; [|discriminate].
    apply dom_insert_lookup_L. rewrite E. eexists. reflexivity.
  - split; [reflexivity|]. intros _. reflexivity.
Qed.

Lemma unknown_key_raises_witness :
  update_ticker_data defaults 100 "dogeusdt" 1 0 true two_tickers
  = (Py.Raise Py.KeyError, two_tickers).
Proof.
  apply (proj2 (unknown_key_raises defaults 100 "dogeusdt" 1 0 true two_tickers)).
  reflexivity.
Defined.

End CandleClaims.

(* ===================================================================== *)
(** * The reconnect delay of the streaming drivers *)
(* ===================================================================== *)

Section Backoff.
Import Data Websockets.
Local Open Scope float_scope.

Lemma next_backoff_cap : next_backoff 120 = 120.
Proof. reflexivity. Qed.

Lemma backoff_seq_capped (n : nat) : backoff_seq (9 + n) = 120.
Proof.
  induction n as [|n IH].
  - vm_compute. reflexivity.
  - replace (9 + S n)%nat with (S (9 + n)) by lia.
    change (backoff_seq (S (9 + n))) with (next_backoff (backoff_seq (9 + n))).
    rewrite IH. apply next_backoff_cap.
Qed.

(** Below the cap there are nine values; each is checked by evaluation. *)
Lemma backoff_seq_cases (P : nat -> Prop) :
  P 0%nat -> P 1%nat -> P 2%nat -> P 3%nat -> P 4%nat -> P 5%nat -> P 6%nat ->
  P 7%nat -> P 8%nat -> (forall k, P (9 + k)%nat) -> forall n, P n.
Proof.
  intros H0 H1 H2 H3 H4 H5 H6 H7 H8 H9 n.
  do 9 (destruct n as [|n]; [assumption|]).
  apply (H9 n).
Qed.

Lemma backoff_seq_monotone (n : nat) : (backoff_seq n <=? backoff_seq (S n)) = true.
Proof.
  revert n. apply backoff_seq_cases; try (vm_compute; reflexivity).
  intros k. change (S (9 + k)) with (9 + S k)%nat.
  rewrite !backoff_seq_capped. reflexivity.
Qed.

Lemma backoff_seq_bounded (n : nat) : (backoff_seq n <=? 120) = true.
Proof.
  revert n. apply backoff_seq_cases; try (vm_compute; reflexivity).
  intros k. rewrite backoff_seq_capped. reflexivity.
Qed.

(** A driver whose [backoff] is the [k]-th delay sleeps the delays that
    follow, whatever the connections did. *)
Lemma kraken_delays_from (conns : list (list ws_event)) (k : nat) (d : driver) :
  backoff d = backoff_seq k ->
  delays (fst (run_kraken_websocket conns d))
  = map backoff_seq (seq k (List.length conns)).
Proof.
  revert k d. induction conns as [|events rest IH]; intros k d Hd; simpl.
  - reflexivity.
  - destruct (run_kraken_websocket rest _) as [ts d''] eqn:Erun. simpl.
    rewrite Hd. f_equal.
    specialize (IH (S k)
      {| backoff := next_backoff (backoff d);
         names := fold_left kraken_handler events (names d) |}).
    rewrite Erun in IH. simpl in IH. apply IH. rewrite Hd. reflexivity.
Qed.

Lemma binance_delays_from (conns : list (option (list ws_event))) (k : nat)
  (d : driver) :
  backoff d = backoff_seq k ->
  delays (fst (run_binance_websocket conns d))
  = map backoff_seq (seq k (attempts conns)).
Proof.
  revert k d. induction conns as [|conn rest IH]; intros k d Hd; simpl.
  - reflexivity.
  - destruct conn as [events|]; simpl.
    + destruct (run_binance_websocket rest _) as [ts d''] eqn:Erun. simpl.
      rewrite Hd. unfold attempts. simpl. f_equal.
      specialize (IH (S k)
        {| backoff := next_backoff (backoff d);
           names := fold_left binance_handler events (names d) |}).
      rewrite Erun in IH. simpl in IH. apply IH. rewrite Hd. reflexivity.
    + destruct (run_binance_websocket rest d) as [ts d''] eqn:Erun. simpl.
      specialize (IH k d Hd). rewrite Erun in IH. exact IH.
Qed.

(** C3, as amended: in both drivers the delay slept after the [n]-th
    connection is [backoff_seq n], where [backoff_seq 0 = 1.0] and
    [backoff_seq (n+1) = min(backoff_seq n * 1.8, 120)]: 1.0, 1.8, 3.24, ...,
    never decreasing, never above 120 and equal to 120 from the ninth
    reconnection on.  The delays depend on the number of connections only:
    no callback, [on_open] (the Live state) included, resets the delay. *)
Theorem backoff_schedule :
  (forall conns : list (list ws_event),
     delays (fst (run_kraken_websocket conns driver0))
     = map backoff_seq (seq 0 (List.length conns)))
  /\ (forall conns : list (option (list ws_event)),
        delays (fst (run_binance_websocket conns driver0))
        = map backoff_seq (seq 0 (attempts conns)))
  /\ map backoff_seq [0; 1; 2]%nat = [1; 1.8; 3.24]
  /\ (forall n, backoff_seq (S n) = Py.min (backoff_seq n * 1.8) 120)
  /\ (forall n, (backoff_seq n <=? backoff_seq (S n)) = true)
  /\ (forall n, (backoff_seq n <=? 120) = true)
  /\ (forall n, backoff_seq (9 + n) = 120).
Proof.
  split; [|split; [|split; [|split; [|split; [|split]]]]].
  - intros conns. apply kraken_delays_from. reflexivity.
  - intros conns. apply binance_delays_from. reflexivity.
  - vm_compute. reflexivity.
  - intros n. reflexivity.
  - apply backoff_seq_monotone.
  - apply backoff_seq_bounded.
  - apply backoff_seq_capped.
Qed.

(** C3 as stated fails: a connection that reached Live and then closed is
    followed, the second time, by a sleep of 1.8 seconds, not of one. *)
Lemma no_reset_on_live :
  let log := fst (run_kraken_websocket [[WsOpen; WsClose]; [WsOpen; WsClose]] driver0) in
  kraken_ws_status (fold_left kraken_handler [WsOpen] status_names0) = "Live"
  /\ delays log = [1; 1.8]
  /\ resets_on_live log = false.
Proof. vm_compute. repeat split; reflexivity. Qed.

End Backoff.

(* ===================================================================== *)
(** * The connection indicator *)
(* ===================================================================== *)

Section Indicator.
Import Constants Data Helpers Websockets.

(** The decision table of [get_ws_color] on the names it reads. *)
Lemma ws_color_table (wifi_ok : bool) (b k : string) :
  ws_color wifi_ok b k =
    if negb wifi_ok then RED
    else match Py.str_in (Py.lower b) binance_phrases,
               Py.str_in (Py.lower k) kraken_phrases with
         | true, true => GREEN
         | true, false | false, true => ORANGE
         | false, false => RED
         end.
Proof.
  unfold ws_color.
  destruct wifi_ok, (Py.str_in (Py.lower b) binance_phrases),
    (Py.str_in (Py.lower k) kraken_phrases); reflexivity.
Qed.

(** No callback writes a name of [src.helpers]. *)
Lemma fire_keeps_helpers_names (cbs : list callback) (p : process) :
  helpers_names (fold_left fire cbs p) = helpers_names p.
Proof.
  revert p. induction cbs as [|c cbs IH]; intros p; simpl.
  - reflexivity.
  - rewrite IH. reflexivity.
Qed.

(** [get_ws_color] leaves the status names of its module as they are. *)
Lemma get_ws_color_keeps_status (cfg : config) (now : Q) (probe : bool) (g : globals) :
  ws (snd (get_ws_color cfg now probe g)) = ws g.
Proof. reflexivity. Qed.

(** The colour does not depend on what the drivers reported. *)
Lemma indicator_ignores_callbacks (cfg : config) (now : Q) (probe : bool)
  (cbs : list callback) (p : process) :
  fst (indicator cfg now probe (fold_left fire cbs p))
  = fst (indicator cfg now probe p).
Proof.
  unfold indicator. rewrite fire_keeps_helpers_names.
  destruct (get_ws_color cfg now probe (helpers_names p)). reflexivity.
Qed.

(** C6, the code at the failing input: Binance is Live, Kraken reported
    Error, the probe succeeds, and the indicator is green; the names
    [get_ws_color] reads still hold the initial status. *)
Theorem driver_error_still_green :
  let p := fold_left fire [Binance WsOpen; Kraken WsOpen; Kraken WsError] process0 in
  websockets_names p = {| binance_ws_status := "Live"; kraken_ws_status := "Error" |}
  /\ ws (helpers_names p) = status_names0
  /\ fst (indicator defaults 100 true p) = GREEN
  /\ ws_color true "Live" "Error" = ORANGE.
Proof. vm_compute. repeat split; reflexivity. Qed.

(** C10: the initial status "Connecting…" is one of the accepted phrases
    of either driver; and while the names [get_ws_color] reads hold the
    initial status, the colour is green whenever the probe (as cached)
    says the network is reachable. *)
Theorem connecting_counts_as_ok (cfg : config) (now : Q) (probe : bool) (g : globals) :
  ws g = status_names0 ->
  wifi_ok (wifi (snd (get_ws_color cfg now probe g))) = true ->
  Py.str_in (Py.lower (binance_ws_status status_names0)) binance_phrases = true
  /\ Py.str_in (Py.lower (kraken_ws_status status_names0)) kraken_phrases = true
  /\ fst (get_ws_color cfg now probe g) = GREEN.
Proof.
  intros Hws Hwifi.
  split; [reflexivity | split; [reflexivity|]].
  unfold get_ws_color in *. simpl in *. rewrite Hws, Hwifi. reflexivity.
Qed.

Lemma connecting_counts_as_ok_witness :
  Py.str_in (Py.lower (binance_ws_status status_names0)) binance_phrases = true
  /\ Py.str_in (Py.lower (kraken_ws_status status_names0)) kraken_phrases = true
  /\ fst (get_ws_color defaults 1700000000 true globals0) = GREEN.
Proof.
  apply (connecting_counts_as_ok defaults 1700000000 true globals0); reflexivity.
Defined.

End Indicator.

(* ===================================================================== *)
(** * The miner poller *)
(* ===================================================================== *)

Section MinerClaims.
Import Constants Data Miners FloatOrder.
Local Open Scope float_scope.

Lemma failure_raises (a : Requests.answer) :
  failure a -> Py.raised (fetch_body a) = true.
Proof.
  intros [e ->|r -> Hst|r e -> Hj|e He].
  - reflexivity.
  - unfold fetch_body. simpl. unfold Requests.raise_for_status.
    replace (400 <=? Requests.status_code r)%Z with true by (symmetry; apply Z.leb_le; lia).
    replace (Requests.status_code r <? 600)%Z with true by (symmetry; apply Z.ltb_lt; lia).
    reflexivity.
  - unfold fetch_body. simpl.
    destruct (Requests.raise_for_status r); simpl; [|reflexivity].
    rewrite Hj. reflexivity.
  - rewrite He. reflexivity.
Qed.

(** C7: whatever makes the query fail, [fetch_miner_stats] returns
    [(0.0, 0.0, False)] (it is a total function: no exception reaches the
    caller), and the loop of the cycle goes on with that result: it adds
    [0.0] to the total and leaves the connected count as it was. *)
Theorem failing_endpoint_yields_zeros (cfg : config) (a : Requests.answer) (t : tally) :
  failure a ->
  fetch_miner_stats a = (0, Py.PFloat 0, false)
  /\ tally_step cfg t (fetch_miner_stats a)
     = Py.Ok {| total_hr := total_hr t + 0;
                best_diff := if num_lt (best_diff t) (NFloat 0) then NFloat 0
                             else best_diff t;
                conn_count := conn_count t;
                act_count := if MINER_ACTIVE_THRESHOLD cfg <? 0
                             then (act_count t + 1)%Z else act_count t |}.
Proof.
  intros Hf. apply failure_raises in Hf.
  assert (Hz : fetch_miner_stats a = (0, Py.PFloat 0, false)).
  { unfold fetch_miner_stats. destruct (fetch_body a); [discriminate | reflexivity]. }
  split; [exact Hz|]. rewrite Hz. reflexivity.
Qed.

Lemma failing_endpoint_yields_zeros_witness :
  fetch_miner_stats server_error = (0, Py.PFloat 0, false)
  /\ tally_step defaults tally0 (fetch_miner_stats server_error) = Py.Ok tally0.
Proof.
  apply (failing_endpoint_yields_zeros defaults server_error tally0).
  eapply bad_status; [reflexivity | simpl; lia].
Defined.

(** The loop over typed results, as three folds and two counts. *)
Lemma tally_all_typed (cfg : config) (rs : list (float * float * bool)) (t : tally)
  (b : float) :
  best_diff t = NFloat b ->
  tally_all cfg t (typed rs)
  = Py.Ok {| total_hr := fold_left PrimFloat.add (map hashrate rs) (total_hr t);
             best_diff := NFloat (fold_left Py.max (map difficulty rs) b);
             conn_count := (conn_count t + count_connected rs)%Z;
             act_count := (act_count t + count_active cfg rs)%Z |}.
Proof.
  revert t b. induction rs as [|[[hr d] c] rs IH]; intros t b Hb.
  - simpl. unfold count_connected, count_active. simpl.
    rewrite !Z.add_0_r. destruct t; simpl in *. rewrite Hb. reflexivity.
  - change (typed ((hr, d, c) :: rs)) with ((hr, Py.PFloat d, c) :: typed rs).
    simpl. rewrite Hb. simpl.
    rewrite (IH _ (Py.max b d))
      by (simpl; unfold Py.max; destruct (b <? d); reflexivity).
    simpl. unfold count_connected, count_active, hashrate, connected. simpl.
    f_equal. f_equal.
    + destruct c; simpl; lia.
    + destruct (MINER_ACTIVE_THRESHOLD cfg <? hr); simpl; lia.
Qed.

Lemma filter_length_Permutation {A : Type} (f : A -> bool) (l l' : list A) :
  Permutation l l' ->
  List.length (List.filter f l) = List.length (List.filter f l').
Proof.
  induction 1 as [|x l l' _ IH|x y l|l l' l'' _ IH1 _ IH2]; simpl.
  - reflexivity.
  - destruct (f x); simpl; congruence.
  - destruct (f x), (f y); reflexivity.
  - congruence.
Qed.

Lemma max_floor_or_above (a x : float) :
  floor_or_above a -> floor_or_above (Py.max a x).
Proof.
  intros Ha. unfold Py.max. destruct (a <? x) eqn:E; [|exact Ha].
  right. destruct Ha as [->|Ha]; [exact E | exact (float_lt_trans _ _ _ Ha E)].
Qed.

Lemma float_lt_above (a x : float) : floor_or_above a -> lt a x -> lt 0 x.
Proof.
  intros [->|Ha] Hx; [exact Hx | exact (float_lt_trans _ _ _ Ha Hx)].
Qed.

Lemma float_lt_asym (a b : float) : lt a b -> (b <? a) = false.
Proof.
  intros Hab. destruct (b <? a) eqn:E; [|reflexivity].
  pose proof (float_lt_trans _ _ _ Hab E) as H. unfold lt in H.
  rewrite float_lt_irrefl in H. discriminate.
Qed.

(** Two results may arrive in either order. *)
Lemma max_swap (a x y : float) :
  floor_or_above a -> Py.max (Py.max a x) y = Py.max (Py.max a y) x.
Proof.
  intros Ha. unfold Py.max.
  destruct (a <? x) eqn:Eax, (a <? y) eqn:Eay; rewrite ?Eax, ?Eay.
  - destruct (x <? y) eqn:Exy, (y <? x) eqn:Eyx; try reflexivity.
    + rewrite (float_lt_asym _ _ Exy) in Eyx. discriminate.
    + symmetry. apply float_tie_eq; eauto using float_lt_above.
  - destruct (x <? y) eqn:Exy; [|reflexivity].
    pose proof (float_lt_trans _ _ _ Eax Exy) as H. unfold lt in H. congruence.
  - destruct (y <? x) eqn:Eyx; [|reflexivity].
    pose proof (float_lt_trans _ _ _ Eay Eyx) as H. unfold lt in H. congruence.
  - reflexivity.
Qed.

Lemma fold_max_Permutation (l l' : list float) :
  Permutation l l' ->
  forall a, floor_or_above a -> fold_left Py.max l a = fold_left Py.max l' a.
Proof.
  induction 1 as [|x l l' _ IH|x y l|l l' l'' _ IH1 _ IH2]; intros a Ha; simpl.
  - reflexivity.
  - apply IH. apply max_floor_or_above. exact Ha.
  - rewrite (max_swap a y x Ha). reflexivity.
  - rewrite (IH1 a Ha). apply IH2. exact Ha.
Qed.

(** The fold ends on its start or on an element above it, and no
    element is above its result. *)
Lemma fold_max_spec (l : list float) (a : float) :
  let b := fold_left Py.max l a in
  (b = a \/ lt a b) /\ (b = a \/ In b l)
  /\ Forall (fun d => (b <? d) = false) l.
Proof.
  revert a. induction l as [|x l IH]; intros a; simpl.
  - repeat split; auto.
  - destruct (IH (Py.max a x)) as (Hge & Hin & Hall).
    set (b := fold_left Py.max l (Py.max a x)) in *.
    assert (Hstep : (Py.max a x = a \/ lt a (Py.max a x))
                    /\ (Py.max a x = a \/ Py.max a x = x)
                    /\ (Py.max a x <? x) = false).
    { unfold Py.max. destruct (a <? x) eqn:E.
      - repeat split; auto. apply float_lt_irrefl.
      - repeat split; auto. }
    destruct Hstep as (Hs1 & Hs2 & Hs3).
    split; [|split].
    + destruct Hge as [Hb|Hb], Hs1 as [Hm|Hm].
      * left. congruence.
      * right. rewrite Hb. exact Hm.
      * right. rewrite <- Hm. exact Hb.
      * right. exact (float_lt_trans _ _ _ Hm Hb).
    + destruct Hin as [Hb|Hb]; [|right; right; exact Hb].
      destruct Hs2 as [Hm|Hm]; [left; congruence | right; left; congruence].
    + constructor; [|exact Hall].
      destruct Hge as [Hb|Hb]; [rewrite Hb; exact Hs3|].
      destruct (b <? x) eqn:E; [|reflexivity].
      pose proof (float_lt_trans _ _ _ Hb E) as H. unfold lt in H. congruence.
Qed.

(** C5, as amended: a cycle over results [(hashrate, difficulty,
    connected)] whose difficulties are floats stores
    - as total, the float sum of the hashrates taken from [0.0] in arrival
      order;
    - as best difficulty, [0.0] or a difficulty of the list, with no
      difficulty of the list above it;
    - as counts, the number of connected results and the number of
      hashrates above the threshold;
    and appends the total to the hashrate history.  The best difficulty and
    the two counts are the same for every arrival order of the same
    results.  The scenario [(10,500,true),(0,0,false),(5,300,true)] with
    threshold 0.25 stores total 15, best 500, connected 2, active 2. *)
Theorem miner_aggregate_reduction (cfg : config)
  (rs rs' : list (float * float * bool)) (s : store) :
  Permutation rs rs' ->
  (exists st st' b,
     poll_cycle cfg (typed rs) s = Py.Ok st
     /\ poll_cycle cfg (typed rs') s = Py.Ok st'
     /\ total_hashrate_th (miner_stats st)
        = fold_left PrimFloat.add (map hashrate rs) 0
     /\ best_difficulty (miner_stats st) = Py.PFloat b
     /\ (b = 0 \/ In b (map difficulty rs))
     /\ Forall (fun d => (b <? d) = false) (map difficulty rs)
     /\ connected_count (miner_stats st) = count_connected rs
     /\ active_count (miner_stats st) = count_active cfg rs
     /\ hash_history st
        = Py.deque_append (MAX_CANDLES cfg) (hash_history s)
            (total_hashrate_th (miner_stats st))
     /\ best_difficulty (miner_stats st') = best_difficulty (miner_stats st)
     /\ connected_count (miner_stats st') = connected_count (miner_stats st)
     /\ active_count (miner_stats st') = active_count (miner_stats st))
  /\ poll_cycle defaults (typed scenario) store0
     = Py.Ok {| miner_stats := {| total_hashrate_th := 15;
                                  best_difficulty := Py.PFloat 500;
                                  connected_count := 2;
                                  active_count := 2 |};
                hash_history := [15] |}.
Proof.
  intros HP. split; [|vm_compute; reflexivity].
  pose proof (tally_all_typed cfg rs tally0 0 eq_refl) as E.
  pose proof (tally_all_typed cfg rs' tally0 0 eq_refl) as E'.
  destruct (fold_max_spec (map difficulty rs) 0) as (_ & Hin & Hall).
  unfold poll_cycle. rewrite E, E'. simpl.
  eexists _, _, (fold_left Py.max (map difficulty rs) 0).
  split; [reflexivity|]. split; [reflexivity|]. simpl.
  split; [reflexivity|]. split; [reflexivity|].
  split; [exact Hin|]. split; [exact Hall|].
  split; [reflexivity|]. split; [reflexivity|]. split; [reflexivity|].
  split; [|split].
  - f_equal. symmetry. apply fold_max_Permutation.
    + apply Permutation_map. exact HP.
    + left. reflexivity.
  - unfold count_connected. f_equal. f_equal. symmetry.
    apply filter_length_Permutation. exact HP.
  - unfold count_active. f_equal. f_equal. symmetry.
    apply filter_length_Permutation. exact HP.
Qed.

Lemma miner_aggregate_reduction_witness :
  exists st st',
    poll_cycle defaults (typed scenario) store0 = Py.Ok st
    /\ poll_cycle defaults (typed (rev scenario)) store0 = Py.Ok st'
    /\ best_difficulty (miner_stats st') = best_difficulty (miner_stats st)
    /\ connected_count (miner_stats st') = connected_count (miner_stats st)
    /\ active_count (miner_stats st') = active_count (miner_stats st).
Proof.
  destruct (miner_aggregate_reduction defaults scenario (rev scenario) store0
              (Permutation_rev scenario))
    as [(st & st' & b & H1 & H2 & _ & _ & _ & _ & _ & _ & _ & H3 & H4 & H5) _].
  exists st, st'. repeat split; assumption.
Defined.

(** C5 as stated fails: three miners at 0.1, 0.2 and 0.3 TH/s give the
    total 0.6000000000000001 when they answer in that order and 0.6 when
    they answer in the opposite order. *)
Lemma total_depends_on_arrival_order :
  let rs := [(0.1, 100, true); (0.2, 200, true); (0.3, 300, true)] in
  Permutation rs (rev rs)
  /\ poll_cycle defaults (typed rs) store0
     = Py.Ok {| miner_stats := {| total_hashrate_th := 0.6000000000000001;
                                  best_difficulty := Py.PFloat 300;
                                  connected_count := 3;
                                  active_count := 1 |};
                hash_history := [0.6000000000000001] |}
  /\ poll_cycle defaults (typed (rev rs)) store0
     = Py.Ok {| miner_stats := {| total_hashrate_th := 0.6;
                                  best_difficulty := Py.PFloat 300;
                                  connected_count := 3;
                                  active_count := 1 |};
                hash_history := [0.6] |}
  /\ (0.6000000000000001 =? 0.6) = false.
Proof.
  split; [apply Permutation_rev|].
  vm_compute. repeat split; reflexivity.
Qed.

End MinerClaims.

(* ===================================================================== *)
(** * The network statistics poller *)
(* ===================================================================== *)

Section MempoolClaims.
Import Data Mempool.
Local Open Scope float_scope.

Variable float_of_str : string -> option float.

Lemma bind_Ok {A B : Type} (m : Py.result A) (k : A -> Py.result B) (b : B) :
  (m ≫= k) = Py.Ok b -> exists a, m = Py.Ok a /\ k a = Py.Ok b.
Proof.
  destruct m as [a|e]; simpl; intros H; [|discriminate].
  exists a. split; [reflexivity | exact H].
Qed.








End MempoolClaims.

Section MempoolExample.
Import Data Mempool.
Local Open Scope float_scope.



End MempoolExample.

(* ===================================================================== *)
(** * Readers of a ticker while it is updated *)
(* ===================================================================== *)

Section ThreadClaims.
Import Constants Data Helpers Threads.
Local Open Scope float_scope.

(** Run without interruption, the statements of the writer make the
    update of the sequential model. *)
Lemma writer_alone (cfg : config) (c : call) (t : TickerData) (reader : list rstmt) :
  let m := run cfg c (repeat Writer 8) (boot t reader) in
  ticker m = update_ticker cfg (a_now c) (a_price c) (a_change c) (a_marquee c) t
  /\ lock m = None /\ wpc m = [] /\ rpc m = reader.
Proof.
  unfold update_ticker. simpl.
  destruct (a_marquee c); simpl;
    destruct (build_candle cfg (a_now c) (a_price c) t) as [closed cur] eqn:E;
    unfold build_candle in *; simpl in *; rewrite E; simpl; repeat split.
Qed.

(** C8, the code at the failing schedules.  The render loop has fetched
    the ticker and released the lock.  First schedule: the writer takes the
    lock and assigns [price]; the render loop then reads the new price,
    50500, and the timestamp of the previous update, 100; the writer goes on
    to store 130.  Second schedule: the render loop reads the old price,
    50000; the writer runs its whole critical section; the render loop
    reads the new timestamp, 130. *)
Theorem render_loop_torn_read :
  let m := run defaults call_at_130
             [Reader; Reader; Writer; Writer; Reader; Reader]
             (boot ticker_at_100 render_loop_stmts) in
  let m' := run defaults call_at_130 (repeat Writer 6) m in
  let n := run defaults call_at_130
             ([Reader; Reader; Reader] ++ repeat Writer 8 ++ [Reader])
             (boot ticker_at_100 render_loop_stmts) in
  (seen_price m = Some (Some 50500)
   /\ seen_update m = Some (Some 100%Q)
   /\ lock m = Some Writer
   /\ rpc m = [] /\ wpc m' = []
   /\ price (ticker m') = Some 50500
   /\ last_update (ticker m') = Some 130%Q)
  /\ (seen_price n = Some (Some 50000)
      /\ seen_update n = Some (Some 130%Q)
      /\ rpc n = [] /\ wpc n = []).
Proof. vm_compute. repeat split; reflexivity. Qed.

Lemma boot_inv (c : call) (t0 : TickerData) :
  writer_inv c t0 (boot t0 marquee_stmts) /\ reader_inv c t0 (boot t0 marquee_stmts).
Proof.
  split; left; simpl; repeat split; discriminate.
Qed.

(** While the reader holds the lock the ticker shows one of the two pairs. *)
Lemma reader_holds_lock (c : call) (t0 : TickerData) (m : machine) :
  writer_inv c t0 m -> lock m = Some Reader ->
  pair (ticker m) = pair t0 \/ pair (ticker m) = updated c.
Proof.
  intros [(_ & _ & H)|[(_ & Hl & _)|[(_ & Hl & _)|[(_ & Hl & _)|(_ & _ & H)]]]] Hr;
    try (rewrite Hl in Hr; discriminate); auto.
Qed.

Ltac inv_done :=
  simpl in *; repeat split; try assumption; try congruence; try discriminate; try tauto.

(** The reader side of the invariant does not look at the writer's
    position, nor at the ticker while the reader is outside the lock. *)
Lemma reader_inv_outside (c : call) (t0 : TickerData) (m : machine)
  (t : TickerData) (l : option thread) (w : list wstmt) :
  reader_inv c t0 m -> lock m <> Some Reader -> l <> Some Reader ->
  reader_inv c t0 {| ticker := t; lock := l; wpc := w; rpc := rpc m;
                     seen_price := seen_price m; seen_update := seen_update m;
                     seen_change := seen_change m |}.
Proof.
  intros [(Hr & Hl' & Hs1 & Hs2)|[(_ & Hl' & _)|[(_ & Hl' & _)
         |[(_ & Hl' & _)|(Hr & Hl' & Hs)]]]] Hm Hl; try contradiction.
  - left. inv_done.
  - right; right; right; right. inv_done.
Qed.

Lemma step_writer_inv (cfg : config) (c : call) (t0 : TickerData) (m : machine) :
  writer_inv c t0 m -> reader_inv c t0 m ->
  writer_inv c t0 (step_writer cfg c m) /\ reader_inv c t0 (step_writer cfg c m).
Proof.
  intros HW HR. unfold step_writer.
  destruct HW as [(Hp & Hl & Hpair)|[(Hp & Hl & Hpair)|[(Hp & Hl & Hpr)
                 |[(Hp & Hl & Hpair)|(Hp & Hl & Hpair)]]]].
  - rewrite Hp. simpl. destruct (lock m) as [th|] eqn:El.
    + split; [|exact HR]. left. rewrite El. inv_done.
    + split.
      * right; left. inv_done.
      * apply reader_inv_outside; [exact HR | rewrite El; discriminate | discriminate].
  - rewrite Hp. simpl. split.
    + right; right; left. inv_done.
    + apply reader_inv_outside; [exact HR | rewrite Hl; discriminate
                                | rewrite Hl; discriminate].
  - rewrite Hp. simpl. split.
    + right; right; right; left. simpl. split; [tauto|]. split; [assumption|].
      unfold pair, updated. simpl. rewrite Hpr. reflexivity.
    + apply reader_inv_outside; [exact HR | rewrite Hl; discriminate
                                | rewrite Hl; discriminate].
  - simpl in Hp.
    destruct Hp as [Hp|[Hp|[Hp|[Hp|[Hp|[]]]]]]; rewrite <- Hp; simpl; split;
      try (apply reader_inv_outside;
           [exact HR | rewrite Hl; discriminate | try rewrite Hl; discriminate]).
    + right; right; right; left. simpl. split; [tauto|]. split; assumption.
    + right; right; right; left. simpl. split; [tauto|]. split; assumption.
    + right; right; right; left. simpl. split; [tauto|]. split; [assumption|].
      destruct (a_marquee c); exact Hpair.
    + right; right; right; left. simpl. split; [tauto|]. split; assumption.
    + right; right; right; right. inv_done.
  - rewrite Hp. split; [|exact HR].
    right; right; right; right. inv_done.
Qed.

Lemma step_reader_inv (c : call) (t0 : TickerData) (m : machine) :
  writer_inv c t0 m -> reader_inv c t0 m ->
  writer_inv c t0 (step_reader m) /\ reader_inv c t0 (step_reader m).
Proof.
  intros HW HR. unfold step_reader.
  assert (Hw : forall l r sp su sc,
             (lock m <> Some Writer -> l <> Some Writer) ->
             (lock m = Some Writer -> l = Some Writer) ->
             writer_inv c t0 {| ticker := ticker m; lock := l; wpc := wpc m; rpc := r;
                                seen_price := sp; seen_update := su;
                                seen_change := sc |}).
  { intros l r sp su sc Hne Heq.
    destruct HW as [(Hp & Hl & Hpair)|[(Hp & Hl & Hpair)|[(Hp & Hl & Hpr)
                   |[(Hp & Hl & Hpair)|(Hp & Hl & Hpair)]]]].
    - left. inv_done; auto.
    - right; left. inv_done; auto.
    - right; right; left. inv_done; auto.
    - right; right; right; left. simpl. split; [exact Hp|]. split; [|exact Hpair].
      apply Heq. exact Hl.
    - right; right; right; right. inv_done; auto. }
  destruct HR as [(Hr & Hl & Hs1 & Hs2)|[(Hr & Hl & Hs1 & Hs2)|[(Hr & Hl & Hs1 & Hs2)
                 |[(Hr & Hl & Hs1 & Hs2)|(Hr & Hl & Hs)]]]].
  - rewrite Hr. simpl. destruct (lock m) as [th|] eqn:El.
    + split; [exact HW|]. left. rewrite El. inv_done.
    + split; [apply Hw; intros; discriminate|].
      right; left. inv_done.
  - rewrite Hr. simpl. split.
    + apply Hw; intros H; [exact H | rewrite Hl in H; discriminate].
    + right; right; left. inv_done.
  - rewrite Hr. simpl. split.
    + apply Hw; intros H; [exact H | rewrite Hl in H; discriminate].
    + right; right; right; left. inv_done.
  - rewrite Hr. simpl. split.
    + apply Hw; intros H; [discriminate | rewrite Hl in H; discriminate].
    + right; right; right; right. simpl. split; [reflexivity|].
      split; [discriminate|].
      exists (price (ticker m)), (change_24h (ticker m)).
      split; [assumption|]. split; [assumption|].
      apply (reader_holds_lock c t0 m HW Hl).
  - rewrite Hr. split; [exact HW|].
    right; right; right; right. inv_done.
Qed.

Lemma run_inv (cfg : config) (c : call) (t0 : TickerData) (schedule : list thread)
  (m : machine) :
  writer_inv c t0 m /\ reader_inv c t0 m ->
  writer_inv c t0 (run cfg c schedule m) /\ reader_inv c t0 (run cfg c schedule m).
Proof.
  unfold run. revert m.
  induction schedule as [|who schedule IH]; intros m [HW HR]; simpl.
  - split; assumption.
  - apply IH. destruct who; simpl.
    + apply step_writer_inv; assumption.
    + apply step_reader_inv; assumption.
Qed.

(** X11: the reader that keeps the lock while it reads sees, under every
    schedule, the price and the change of one and the same update. *)
Lemma marquee_reader_consistent (cfg : config) (c : call) (t0 : TickerData)
  (schedule : list thread) (x : option float) (y : float) :
  let m := run cfg c schedule (boot t0 marquee_stmts) in
  seen_price m = Some x -> seen_change m = Some y ->
  (x, y) = pair t0 \/ (x, y) = updated c.
Proof.
  intros m Hx Hy.
  destruct (run_inv cfg c t0 schedule _ (boot_inv c t0)) as [HW HR].
  fold m in HW, HR.
  destruct HR as [(_ & _ & _ & Hs)|[(_ & _ & _ & Hs)|[(_ & _ & _ & Hs)
                 |[(_ & Hl & Hs1 & Hs2)|(_ & _ & x' & y' & Hs1 & Hs2 & H)]]]];
    try congruence.
  rewrite Hx in Hs1. rewrite Hy in Hs2.
  injection Hs1 as ->. injection Hs2 as ->.
  apply (reader_holds_lock c t0 m HW Hl).
Qed.

End ThreadClaims.

(* ===================================================================== *)
(** * The closed history: capacity, eviction, order *)
(* ===================================================================== *)

Section History.
Import Constants Data Helpers.

Lemma deque_append_length {A : Type} (n : nat) (d : list A) (x : A) :
  (List.length d <= n)%nat -> (List.length (Py.deque_append n d x) <= n)%nat.
Proof.
  intros H. unfold Py.deque_append.
  rewrite length_skipn, length_app. simpl. lia.
Qed.

Lemma deque_append_room {A : Type} (n : nat) (d : list A) (x : A) :
  (List.length d < n)%nat -> Py.deque_append n d x = d ++ [x].
Proof.
  intros H. unfold Py.deque_append. rewrite length_app. simpl.
  replace (List.length d + 1 - n)%nat with 0%nat by lia. reflexivity.
Qed.

Lemma deque_append_full {A : Type} (n : nat) (d : list A) (x : A) :
  List.length d = n -> (0 < n)%nat -> Py.deque_append n d x = tl d ++ [x].
Proof.
  intros H Hn. unfold Py.deque_append. rewrite length_app. simpl.
  replace (List.length d + 1 - n)%nat with 1%nat by lia.
  destruct d as [|y d]; [simpl in H; lia | reflexivity].
Qed.

Lemma update_ticker_capacity (cfg : config) (now : Q) (p change : float) (m : bool)
  (t : TickerData) :
  (List.length (candles t) <= MAX_CANDLES cfg)%nat ->
  (List.length (candles (update_ticker cfg now p change m t)) <= MAX_CANDLES cfg)%nat.
Proof.
  intros H. unfold update_ticker, build_candle.
  destruct (rolls_over cfg now (current_candle t)); simpl; [|exact H].
  destruct (current_candle t); [apply deque_append_length|]; exact H.
Qed.

(** X1: the closed-candle history of a ticker never grows past [MAX_CANDLES],
    whatever samples the update path receives. *)
Theorem closed_history_capacity (cfg : config) (samples : list sample)
  (t : TickerData) :
  (List.length (candles t) <= MAX_CANDLES cfg)%nat ->
  (List.length (candles (feed cfg samples t)) <= MAX_CANDLES cfg)%nat.
Proof.
  unfold feed. revert t.
  induction samples as [|s samples IH]; intros t H; simpl.
  - exact H.
  - apply IH. apply update_ticker_capacity. exact H.
Qed.

Lemma closed_history_capacity_witness :
  (List.length
     (candles (feed defaults [tick 100 1%float; tick 160 2%float; tick 220 3%float]
                 (new_ticker "binance"))) <= 14)%nat.
Proof.
  apply (closed_history_capacity defaults
           [tick 100 1%float; tick 160 2%float; tick 220 3%float]
           (new_ticker "binance")).
  simpl. lia.
Defined.

(** When a sample closes the open candle, that candle goes to the end of
    the history; a history already at capacity loses its oldest candle,
    and one below capacity loses none. *)
Lemma rollover_evicts_oldest (cfg : config) (now : Q) (p change : float) (m : bool)
  (t : TickerData) (c : Candle) :
  current_candle t = Some c ->
  (CANDLE_SECONDS cfg <= now - start c)%Q ->
  (0 < MAX_CANDLES cfg)%nat ->
  let closed := candles (update_ticker cfg now p change m t) in
  (List.length (candles t) = MAX_CANDLES cfg -> closed = tl (candles t) ++ [c])
  /\ ((List.length (candles t) < MAX_CANDLES cfg)%nat -> closed = candles t ++ [c]).
Proof.
  intros Hc Hroll Hmax closed. subst closed.
  unfold update_ticker, build_candle, rolls_over. rewrite Hc.
  apply Qle_bool_iff in Hroll. rewrite Hroll. simpl. split; intros H.
  - apply deque_append_full; assumption.
  - apply deque_append_room; assumption.
Qed.

End History.

Section Chronology.
Import Constants Data Helpers Views.

Lemma StronglySorted_last_above {A : Type} (R : A -> A -> Prop) (l : list A) (c : A) :
  StronglySorted R (l ++ [c]) -> Forall (fun x => R x c) l.
Proof.
  induction l as [|x l IH]; simpl; intros H.
  - constructor.
  - apply StronglySorted_inv in H. destruct H as [Hs Hall].
    constructor; [|apply IH; exact Hs].
    rewrite Forall_app in Hall. destruct Hall as [_ Hc].
    inversion Hc; assumption.
Qed.

Lemma StronglySorted_snoc {A : Type} (R : A -> A -> Prop) (l : list A) (y : A) :
  StronglySorted R l -> Forall (fun x => R x y) l -> StronglySorted R (l ++ [y]).
Proof.
  induction l as [|x l IH]; simpl; intros Hs Hall.
  - repeat constructor.
  - apply StronglySorted_inv in Hs. destruct Hs as [Hs Hx].
    inversion Hall as [|? ? Hxy Hall']; subst.
    constructor; [apply IH; assumption|].
    apply Forall_app. split; [exact Hx | constructor; [exact Hxy | constructor]].
Qed.

Lemma StronglySorted_skipn {A : Type} (R : A -> A -> Prop) (n : nat) (l : list A) :
  StronglySorted R l -> StronglySorted R (skipn n l).
Proof.
  revert l. induction n as [|n IH]; intros l H; [exact H|].
  destruct l as [|x l]; [exact H|]. simpl. apply IH.
  apply StronglySorted_inv in H. apply H.
Qed.

(** [int(x)] is less than one below [x] at most. *)
Lemma int_of_Q_above (q : Q) : (q - 1 < inject_Z (Py.int_of_Q q))%Q.
Proof.
  destruct q as [n d]. unfold Py.int_of_Q, Qlt, Qminus, Qplus, Qopp, inject_Z. simpl.
  pose proof (Z.quot_rem' n (Zpos d)) as Hq.
  pose proof (Z.rem_bound_abs n (Zpos d) ltac:(lia)) as Hr.
  nia.
Qed.

Lemma update_ticker_chronological (cfg : config) (now : Q) (p change : float)
  (m : bool) (t : TickerData) :
  (1 <= CANDLE_SECONDS cfg)%Q -> chronological t ->
  chronological (update_ticker cfg now p change m t).
Proof.
  intros Hw [Hnone Hsorted].
  unfold chronological, timeline, update_ticker, build_candle, rolls_over in *.
  destruct (current_candle t) as [c|] eqn:Ecur.
  - destruct (Qle_bool (CANDLE_SECONDS cfg) (now - start c)) eqn:Eroll; simpl.
    + split; [discriminate|].
      apply Qle_bool_iff in Eroll.
      assert (Hlt : (start c < inject_Z (Py.int_of_Q now))%Q).
      { pose proof (int_of_Q_above now). lra. }
      unfold Py.deque_append.
      rewrite <- (drop_app_le (candles t ++ [c]) [new_candle now p]).
      * rewrite <- skipn_map. apply StronglySorted_skipn.
        rewrite map_app. simpl. apply StronglySorted_snoc; [exact Hsorted|].
        rewrite map_app in Hsorted. simpl in Hsorted.
        pose proof (StronglySorted_last_above _ _ _ Hsorted) as Hbelow.
        rewrite map_app. apply Forall_app. split.
        -- eapply Forall_impl; [exact Hbelow|]. intros x Hx. simpl in Hx. lra.
        -- constructor; [exact Hlt | constructor].
      * lia.
    + split; [discriminate|].
      rewrite map_app in *. exact Hsorted.
  - simpl. split; [discriminate|].
    rewrite (Hnone eq_refl). simpl. repeat constructor.
Qed.

(** X3: with buckets of a second or more, the candles of a ticker fed
    through the update path start strictly one after the other: the
    closed ones in the order of the deque, then the open one. *)
Theorem candles_in_time_order (cfg : config) (src : string) (samples : list sample) :
  (1 <= CANDLE_SECONDS cfg)%Q ->
  StronglySorted Qlt (timeline (feed cfg samples (new_ticker src))).
Proof.
  intros Hw.
  assert (H : forall t, chronological t -> chronological (feed cfg samples t)).
  { unfold feed. induction samples as [|s samples IH]; intros t Ht; simpl.
    - exact Ht.
    - apply IH. apply update_ticker_chronological; assumption. }
  apply (H (new_ticker src)).
  split; [reflexivity | constructor].
Qed.

Lemma candles_in_time_order_witness :
  StronglySorted Qlt (timeline (three_minutes defaults)).
Proof.
  apply (candles_in_time_order defaults "binance").
  apply Qle_bool_iff. reflexivity.
Defined.

End Chronology.

Section TickerFrame.
Import Constants Data Helpers Views.

Lemma rollover_evicts_oldest_witness :
  let t := three_minutes two_candles in
  candles (update_ticker two_candles 280 4%float 0%float true t)
  = tl (candles t)
    ++ [{| start := inject_Z 220; open := 3%float; high := 3%float;
           low := 3%float; close := 3%float |}].
Proof.
  apply (proj1 (rollover_evicts_oldest two_candles 280 4%float 0%float true
                  (three_minutes two_candles)
                  {| start := inject_Z 220; open := 3%float; high := 3%float;
                     low := 3%float; close := 3%float |}
                  eq_refl
                  ltac:(apply Qle_bool_iff; reflexivity)
                  ltac:(simpl; lia))).
  reflexivity.
Defined.

Lemma update_ticker_source (cfg : config) (now : Q) (p change : float) (m : bool)
  (t : TickerData) :
  source (update_ticker cfg now p change m t) = source t.
Proof.
  unfold update_ticker. destruct (build_candle cfg now p t). reflexivity.
Qed.

(** X4: [update_ticker_data(key, ...)] writes the ticker under [key] only:
    every other entry of the dict is the one it was, and no entry, the
    written one included, changes its source. *)
Theorem update_ticker_data_frame (cfg : config) (now : Q) (key : string)
  (p change : float) (m : bool) (data : gmap string TickerData) (k : string) :
  k <> key ->
  let data' := snd (update_ticker_data cfg now key p change m data) in
  data' !! k = data !! k
  /\ forall k', source <$> (data' !! k') = source <$> (data !! k').
Proof.
  intros Hk data'. subst data'. unfold update_ticker_data.
  destruct (data !! key) as [t|] eqn:E; simpl; [|split; reflexivity].
  split.
  - apply lookup_insert_ne. congruence.
  - intros k'. destruct (decide (key = k')) as [<-|Hne].
    + rewrite lookup_insert_eq, E. simpl. rewrite update_ticker_source. reflexivity.
    + rewrite lookup_insert_ne by exact Hne. reflexivity.
Qed.

Lemma update_ticker_data_frame_witness :
  let data' := snd (update_ticker_data defaults 100 "btcusdt" 50000%float 1.2%float
                      true two_tickers) in
  data' !! "xmrusdt" = two_tickers !! "xmrusdt"
  /\ forall k', source <$> (data' !! k') = source <$> (two_tickers !! k').
Proof.
  apply (update_ticker_data_frame defaults 100 "btcusdt" 50000%float 1.2%float
           true two_tickers "xmrusdt").
  discriminate.
Defined.

End TickerFrame.

(* ===================================================================== *)
(** * The message handlers of the two streaming feeds *)
(* ===================================================================== *)

Section FeedHandlers.
Import Constants Data Helpers Builtins App Feeds.

Variable float_of_str : string -> option float.
Variable cfg : config.

Lemma attempt_Done {A B : Type} (m : attempt A) (k : A -> attempt B) (b : B) :
  (m ≫= k) = Done b -> exists a, m = Done a /\ k a = Done b.
Proof.
  destruct m as [a|r]; simpl; intros H; [|discriminate].
  exists a. split; [reflexivity | exact H].
Qed.

Lemma lift_Done {A : Type} (m : Py.result A) (a : A) :
  lift m = Done a -> m = Py.Ok a.
Proof. destruct m; simpl; intros H; [congruence | discriminate]. Qed.

Ltac ok_inv H x :=
  let E := fresh "E" in
  apply bind_Ok in H; destruct H as (x & E & H).

Ltac done_inv H x :=
  let E := fresh "E" in
  apply attempt_Done in H; destruct H as (x & E & H); try apply lift_Done in E.

(** A call for a key the dict holds writes the updated ticker there. *)
Lemma update_ticker_data_present (now : Q) (key : string) (p change : float)
  (data : gmap string TickerData) (r : Py.result unit)
  (data' : gmap string TickerData) :
  update_ticker_data cfg now key p change true data = (r, data') ->
  r = Py.Ok tt ->
  exists t, data !! key = Some t
            /\ data' = <[key := update_ticker cfg now p change true t]> data.
Proof.
  unfold update_ticker_data. destruct (data !! key) as [t|]; intros H Hr.
  - injection H as _ <-. exists t. split; reflexivity.
  - injection H as <- _. discriminate.
Qed.

(** The cases of [binance_on_message]. *)
Lemma binance_on_message_cases (now : Q) (message : Py.result Py.pyval)
  (data : gmap string TickerData) :
  let data' := binance_on_message float_of_str cfg now message data in
  data' = data
  \/ exists data_json s c P t price change,
       message = Py.Ok data_json
       /\ Py.get data_json "s" (Py.PStr "") = Py.Ok (Py.PStr s)
       /\ data !! Py.lower s = Some t
       /\ source t = "binance"
       /\ getitem data_json "c" = Py.Ok c
       /\ Py.to_float float_of_str c = Py.Ok price
       /\ getitem data_json "P" = Py.Ok P
       /\ Py.to_float float_of_str P = Py.Ok change
       /\ data' = <[Py.lower s := update_ticker cfg now price change true t]> data.
Proof.
  intros data'. subst data'. unfold binance_on_message.
  destruct (binance_body float_of_str cfg now message data) as [d|e] eqn:H;
    [|left; reflexivity].
  unfold binance_body in H.
  ok_inv H data_json. ok_inv H s.
  destruct s as [| | | |s| |]; try discriminate.
  destruct (data !! Py.lower s) as [t|] eqn:Et;
    [|left; injection H as <-; reflexivity].
  destruct (String.eqb (source t) "binance") eqn:Es; simpl in H;
    [|left; injection H as <-; reflexivity].
  ok_inv H c. ok_inv H pr. ok_inv H P. ok_inv H chg.
  destruct (update_ticker_data cfg now (Py.lower s) pr chg true data)
    as [r d'] eqn:Eu.
  ok_inv H u. injection H as <-. destruct u.
  destruct (update_ticker_data_present _ _ _ _ _ _ _ Eu E5) as (t' & Ht' & ->).
  rewrite Et in Ht'. injection Ht' as <-.
  right. exists data_json, s, c, P, t, pr, chg.
  apply String.eqb_eq in Es. repeat split; assumption.
Qed.

(** X5: [binance_on_message] either leaves the dict as it is, or rewrites one
    ticker: the one under the lower-cased "s" of the frame, whose source is
    "binance", with the price and the change parsed from "c" and "P", both
    parsed before anything is written. *)
Theorem binance_message_effect (now : Q) (message : Py.result Py.pyval)
  (data : gmap string TickerData) :
  let data' := binance_on_message float_of_str cfg now message data in
  data' = data
  \/ exists data_json s c P t price change,
       message = Py.Ok data_json
       /\ Py.get data_json "s" (Py.PStr "") = Py.Ok (Py.PStr s)
       /\ data !! Py.lower s = Some t
       /\ source t = "binance"
       /\ getitem data_json "c" = Py.Ok c
       /\ Py.to_float float_of_str c = Py.Ok price
       /\ getitem data_json "P" = Py.Ok P
       /\ Py.to_float float_of_str P = Py.Ok change
       /\ data' = <[Py.lower s := update_ticker cfg now price change true t]> data.
Proof. exact (binance_on_message_cases now message data). Qed.

Lemma pair_key_has_key (pairs : list (string * string)) (pair_clean key : string) :
  pair_key pairs pair_clean = Some key -> has_key key pairs = true.
Proof.
  induction pairs as [|[k v] pairs IH]; simpl; intros H; [discriminate|].
  destruct (String.eqb (delete_char "/" v) pair_clean).
  - injection H as ->. rewrite String.eqb_refl. reflexivity.
  - rewrite (IH H). apply orb_true_r.
Qed.

Lemma kraken_update_effect (now : Q) (key : option string) (ticker_data : Py.pyval)
  (data d : gmap string TickerData) :
  kraken_update float_of_str cfg now key ticker_data data = Done d ->
  d = data
  \/ exists k c c0 o o1 t price open_24h,
       key = Some k
       /\ getitem ticker_data "c" = Py.Ok c /\ getindex c 0 = Done c0
       /\ Py.to_float float_of_str c0 = Py.Ok price
       /\ getitem ticker_data "o" = Py.Ok o /\ getindex o 1 = Done o1
       /\ Py.to_float float_of_str o1 = Py.Ok open_24h
       /\ data !! k = Some t
       /\ d = <[k := update_ticker cfg now price
                       (change_since_open price open_24h) true t]> data.
Proof.
  unfold kraken_update. intros H.
  destruct key as [k|]; [|left; injection H as <-; reflexivity].
  destruct k as [|a k']; [left; injection H as <-; reflexivity|].
  set (k := String a k') in *.
  done_inv H has_c.
  destruct has_c; simpl in H; [|left; injection H as <-; reflexivity].
  done_inv H has_o.
  destruct has_o; simpl in H; [|left; injection H as <-; reflexivity].
  done_inv H c. done_inv H c0. done_inv H pr.
  done_inv H o. done_inv H o1. done_inv H open_24h.
  destruct (update_ticker_data cfg now k pr (change_since_open pr open_24h)
              true data) as [r d'] eqn:Eu.
  done_inv H u. injection H as <-. destruct u.
  destruct (update_ticker_data_present _ _ _ _ _ _ _ Eu E7) as (t & Ht & ->).
  right. exists k, c, c0, o, o1, t, pr, open_24h.
  repeat split; assumption.
Qed.

(** The cases of [kraken_on_message]. *)
Lemma kraken_on_message_cases (sy : symbols) (now : Q)
  (message : Py.result Py.pyval) (data : gmap string TickerData) :
  let data' := kraken_on_message float_of_str cfg sy now message data in
  data' = data
  \/ exists channel ticker_data p key c c0 o o1 t pr open_24h,
       message = Py.Ok (Py.PList [channel; ticker_data; Py.PStr "ticker"; Py.PStr p])
       /\ pair_key (KRAKEN_PAIRS sy) (delete_char "/" p) = Some key
       /\ getitem ticker_data "c" = Py.Ok c /\ getindex c 0 = Done c0
       /\ Py.to_float float_of_str c0 = Py.Ok pr
       /\ getitem ticker_data "o" = Py.Ok o /\ getindex o 1 = Done o1
       /\ Py.to_float float_of_str o1 = Py.Ok open_24h
       /\ data !! key = Some t
       /\ data' = <[key := update_ticker cfg now pr
                             (if (0 <? open_24h)%float
                              then ((pr - open_24h) / open_24h * 100)%float
                              else 0%float)
                             true t]> data.
Proof.
  intros data'. subst data'. unfold kraken_on_message.
  destruct (kraken_body float_of_str cfg sy now message data) as [d|r] eqn:H;
    [|left; reflexivity].
  unfold kraken_body in H. done_inv H msg.
  destruct msg as [| | | | |l|dict]; try (left; injection H as <-; reflexivity).
  destruct (List.length l <? 4)%nat; [left; injection H as <-; reflexivity|].
  destruct (eq_str (nth 2 l Py.PNone) "ticker") eqn:Etick; simpl in H;
    [|left; injection H as <-; reflexivity].
  destruct l as [|channel [|ticker_data [|third [|pair_name [|extra l]]]]];
    try discriminate.
  destruct pair_name as [| | | |p| |]; try discriminate.
  simpl in Etick. destruct third as [| | | |third| |]; try discriminate.
  simpl in Etick. apply String.eqb_eq in Etick. subst third.
  apply kraken_update_effect in H.
  destruct H as [->|(k & c & c0 & o & o1 & t & pr & open_24h & Hk & H)];
    [left; reflexivity|].
  right. exists channel, ticker_data, p, k, c, c0, o, o1, t, pr, open_24h.
  split; [congruence|]. split; [exact Hk|]. exact H.
Qed.

(** X6: [kraken_on_message] either leaves the dict as it is, or rewrites one
    ticker: the frame is a list of four whose third element is "ticker",
    the key is the first of [KRAKEN_PAIRS] whose pair, slash removed, is the
    fourth element, slash removed; the price is ["c"][0], the change is
    computed from it and from ["o"][1], and is [0.0] unless that open price
    is above zero. *)
Theorem kraken_message_effect (sy : symbols) (now : Q)
  (message : Py.result Py.pyval) (data : gmap string TickerData) :
  let data' := kraken_on_message float_of_str cfg sy now message data in
  data' = data
  \/ exists channel ticker_data p key c c0 o o1 t pr open_24h,
       message = Py.Ok (Py.PList [channel; ticker_data; Py.PStr "ticker"; Py.PStr p])
       /\ pair_key (KRAKEN_PAIRS sy) (delete_char "/" p) = Some key
       /\ getitem ticker_data "c" = Py.Ok c /\ getindex c 0 = Done c0
       /\ Py.to_float float_of_str c0 = Py.Ok pr
       /\ getitem ticker_data "o" = Py.Ok o /\ getindex o 1 = Done o1
       /\ Py.to_float float_of_str o1 = Py.Ok open_24h
       /\ data !! key = Some t
       /\ data' = <[key := update_ticker cfg now pr
                             (if (0 <? open_24h)%float
                              then ((pr - open_24h) / open_24h * 100)%float
                              else 0%float)
                             true t]> data.
Proof. exact (kraken_on_message_cases sy now message data). Qed.

End FeedHandlers.

Section AppInit.
Import Constants Data Helpers Builtins App Feeds.

Variable sy : symbols.

Lemma init_data_lookup (k : string) (t : TickerData) :
  init_data sy !! k = Some t <->
  t = new_ticker (source_of sy k)
  /\ In k (map Py.lower (MAIN_SYMBOLS sy ++ MARQUEE_SYMBOLS sy)).
Proof.
  unfold init_data.
  assert (H : forall syms data,
             fold_left (init_step sy) syms data !! k = Some t <->
             (t = new_ticker (source_of sy k) /\ In k (map Py.lower syms))
             \/ (~ In k (map Py.lower syms) /\ data !! k = Some t)).
  { induction syms as [|symbol syms IH]; intros data; simpl.
    - tauto.
    - rewrite IH. unfold init_step.
      destruct (decide (Py.lower symbol = k)) as [->|Hne].
      + rewrite lookup_insert_eq. split.
        * intros [[-> Hin]|[Hnin Heq]]; [left; tauto|].
          injection Heq as <-. left. tauto.
        * intros [[-> Hin]|[Hnin _]]; [|tauto].
          destruct (in_dec string_dec k (map Py.lower syms)) as [Hi|Hn].
          -- left. tauto.
          -- right. tauto.
      + rewrite lookup_insert_ne by exact Hne. split.
        * intros [[-> Hin]|[Hnin Heq]]; [left; tauto|].
          right. split; [|exact Heq]. intros [Heq'|Hin]; [congruence | tauto].
        * intros [[-> [Heq|Hin]]|[Hnin Heq]]; [congruence | left; tauto |].
          right. split; [tauto | exact Heq]. }
  rewrite H. rewrite lookup_empty. split.
  - intros [Hl|[_ Hr]]; [exact Hl | discriminate].
  - intros Hl. left. exact Hl.
Qed.

(** X7: the initialisation of [app.py] gives the dict one fresh ticker for
    each main or marquee symbol, under the lower-cased symbol, and no other
    entry; the source of a ticker is "kraken" when its key is one of
    [KRAKEN_PAIRS], otherwise "coingecko" when it is one of [COINGECKO_IDS],
    otherwise "binance". *)
Theorem init_data_entries (k : string) (t : TickerData) :
  init_data sy !! k = Some t <->
  t = new_ticker (source_of sy k)
  /\ In k (map Py.lower (MAIN_SYMBOLS sy ++ MARQUEE_SYMBOLS sy)).
Proof. exact (init_data_lookup k t). Qed.

Lemma init_data_sources : sources_assigned sy (init_data sy).
Proof.
  intros k t H. apply init_data_lookup in H. destruct H as [-> _]. reflexivity.
Qed.

Lemma has_key_source (key : string) :
  has_key key (KRAKEN_PAIRS sy) = true -> source_of sy key = "kraken".
Proof. unfold source_of. intros ->. reflexivity. Qed.

End AppInit.

Section FeedIsolation.
Import Constants Data Helpers Builtins App Feeds.

Variable float_of_str : string -> option float.
Variable cfg : config.
Variable sy : symbols.

(** What a frame does to the dict: nothing, or one existing ticker of the
    connection's source is updated. *)
Lemma deliver_effect (data : gmap string TickerData) (f : frame) :
  sources_assigned sy data ->
  deliver float_of_str cfg sy data f = data
  \/ exists key t now p change,
       data !! key = Some t /\ source t = feed_source f
       /\ deliver float_of_str cfg sy data f
          = <[key := update_ticker cfg now p change true t]> data.
Proof.
  intros Hsrc. destruct f as [now message|now message]; simpl.
  - destruct (binance_on_message_cases float_of_str cfg now message data)
      as [H|(dj & s & c & P & t & pr & chg & _ & _ & Ht & Hs & _ & _ & _ & _ & H)];
      [left; exact H|].
    right. exists (Py.lower s), t, now, pr, chg. auto.
  - destruct (kraken_on_message_cases float_of_str cfg sy now message data)
      as [H|(ch & td & p & key & c & c0 & o & o1 & t & pr & op & _ & Hk & _ & _
             & _ & _ & _ & _ & Ht & H)];
      [left; exact H|].
    right. eexists key, t, now, pr, _. split; [exact Ht|]. split; [|exact H].
    rewrite (Hsrc key t Ht). apply (has_key_source sy).
    apply (pair_key_has_key _ _ _ Hk).
Qed.

Lemma deliver_sources (data : gmap string TickerData) (f : frame) :
  sources_assigned sy data ->
  sources_assigned sy (deliver float_of_str cfg sy data f)
  /\ dom (deliver float_of_str cfg sy data f) = dom data.
Proof.
  intros Hsrc.
  destruct (deliver_effect data f Hsrc)
    as [->|(key & t & now & p & change & Ht & _ & ->)]; [split; auto|].
  split.
  - intros k t'. destruct (decide (key = k)) as [<-|Hne].
    + rewrite lookup_insert_eq. intros H. injection H as <-.
      rewrite update_ticker_source. apply (Hsrc key t Ht).
    + rewrite lookup_insert_ne by exact Hne. apply Hsrc.
  - apply dom_insert_lookup_L. rewrite Ht. eexists. reflexivity.
Qed.

Lemma deliver_all_sources (frames : list frame) (data : gmap string TickerData) :
  sources_assigned sy data ->
  sources_assigned sy (fold_left (deliver float_of_str cfg sy) frames data)
  /\ dom (fold_left (deliver float_of_str cfg sy) frames data) = dom data.
Proof.
  revert data. induction frames as [|f frames IH]; intros data Hsrc; simpl.
  - split; auto.
  - destruct (deliver_sources data f Hsrc) as [Hs Hd].
    destruct (IH _ Hs) as [Hs' Hd']. split; [exact Hs' | congruence].
Qed.

(** X8: after the initialisation of [app.py], whatever frames the two
    connections have received, a further frame leaves untouched every
    ticker whose source is not that of the connection it came from: a
    Binance frame writes no Kraken or CoinGecko ticker, a Kraken frame no
    Binance or CoinGecko ticker.  The keys of the dict and the source of
    each ticker stay those of the initialisation. *)
Theorem feeds_write_their_own (frames : list frame) (f : frame) (k : string)
  (t : TickerData) :
  let data := fold_left (deliver float_of_str cfg sy) frames (init_data sy) in
  data !! k = Some t ->
  source t <> feed_source f ->
  deliver float_of_str cfg sy data f !! k = Some t
  /\ source t = source_of sy k
  /\ dom (deliver float_of_str cfg sy data f) = dom (init_data sy).
Proof.
  intros data Hk Hsrc.
  destruct (deliver_all_sources frames (init_data sy) (init_data_sources sy))
    as [Hs Hd]. fold data in Hs, Hd.
  destruct (deliver_sources data f Hs) as [_ Hd'].
  split; [|split; [apply (Hs k t Hk) | congruence]].
  destruct (deliver_effect data f Hs)
    as [->|(key & t0 & now & p & change & Ht & Hfeed & ->)]; [exact Hk|].
  rewrite lookup_insert_ne; [exact Hk|].
  intros <-. rewrite Hk in Ht. injection Ht as <-. contradiction.
Qed.

End FeedIsolation.

Section FeedExamples.
Import Constants Data Helpers Builtins App Feeds.

Lemma feeds_write_their_own_witness :
  let data := fold_left (deliver (fun _ => None) defaults default_symbols)
                [FromBinance 100 (Py.Ok btc_frame)] (init_data default_symbols) in
  deliver (fun _ => None) defaults default_symbols data
    (FromKraken 101 (Py.Ok xmr_frame)) !! "btcusdt"
  = Some (update_ticker defaults 100 50000%float 1.2%float true (new_ticker "binance"))
  /\ "binance" = source_of default_symbols "btcusdt"
  /\ dom (deliver (fun _ => None) defaults default_symbols data
            (FromKraken 101 (Py.Ok xmr_frame)))
     = dom (init_data default_symbols).
Proof.
  apply (feeds_write_their_own (fun _ => None) defaults default_symbols
           [FromBinance 100 (Py.Ok btc_frame)] (FromKraken 101 (Py.Ok xmr_frame))
           "btcusdt"
           (update_ticker defaults 100 50000%float 1.2%float true
              (new_ticker "binance"))).
  - vm_compute. reflexivity.
  - discriminate.
Defined.

(** The two frames of the examples do reach their tickers. *)
Example frames_are_applied :
  let data := deliver (fun _ => None) defaults default_symbols
                (deliver (fun _ => None) defaults default_symbols
                   (init_data default_symbols) (FromBinance 100 (Py.Ok btc_frame)))
                (FromKraken 101 (Py.Ok xmr_frame)) in
  (price <$> data !! "btcusdt") = Some (Some 50000%float)
  /\ (price <$> data !! "xmrusdt") = Some (Some 150%float)
  /\ (change_24h <$> data !! "xmrusdt")
     = Some ((150 - 146) / 146 * 100)%float
  /\ (price <$> data !! "runecoin") = Some None.
Proof. vm_compute. repeat split; reflexivity. Qed.

End FeedExamples.

(* ===================================================================== *)
(** * The marquee change detection *)
(* ===================================================================== *)

Section MarqueeCache.
Import Constants Data Helpers Builtins App Feeds Marquee.

Lemma record_prices_keeps_helpers (marquee : list string)
  (data : gmap string TickerData) (n n' : names) :
  record_prices marquee data n = Py.Ok n' ->
  helpers_last_known n' = helpers_last_known n.
Proof.
  unfold record_prices. intros H.
  apply bind_Ok in H. destruct H as (snap & _ & H).
  injection H as <-. reflexivity.
Qed.

Lemma rebuilds_keeps_helpers (marquee : list string)
  (datas : list (gmap string TickerData)) (n n' : names) :
  rebuilds marquee datas n = Py.Ok n' ->
  helpers_last_known n' = helpers_last_known n.
Proof.
  revert n. induction datas as [|data datas IH]; intros n H; simpl in H.
  - injection H as <-. reflexivity.
  - apply bind_Ok in H. destruct H as (n1 & H1 & H).
    rewrite (IH _ H). apply (record_prices_keeps_helpers _ _ _ _ H1).
Qed.

(** Against the empty dict, a price differs from the known one exactly
    when there is a price. *)
Lemma prices_changed_from_nothing (marquee : list string)
  (data : gmap string TickerData) :
  Forall (fun sym => is_Some (data !! Py.lower sym)) marquee ->
  prices_changed_for_marquee marquee data ∅ = Py.Ok (some_published marquee data).
Proof.
  induction 1 as [|sym marquee [ticker Hsym] _ IH]; simpl; [reflexivity|].
  rewrite Hsym. unfold last_known. rewrite lookup_empty.
  destruct (last_marquee_price ticker); simpl; [reflexivity | exact IH].
Qed.

(** X10: the prices the render loop records after a rebuild of the marquee
    never reach [prices_changed_for_marquee]: it compares with the dict of
    [src.data], which stays empty.  So, however many rebuilds came before,
    it answers [True] exactly when some marquee symbol has had a price
    published, whether or not that price has changed since. *)
Theorem marquee_prices_always_changed (marquee : list string)
  (datas : list (gmap string TickerData)) (data : gmap string TickerData)
  (n : names) :
  rebuilds marquee datas names0 = Py.Ok n ->
  Forall (fun sym => is_Some (data !! Py.lower sym)) marquee ->
  changed marquee data n = Py.Ok (some_published marquee data).
Proof.
  intros Hn Hkeys. unfold changed.
  rewrite (rebuilds_keeps_helpers _ _ _ _ Hn). simpl.
  apply prices_changed_from_nothing. exact Hkeys.
Qed.

End MarqueeCache.

Section MarqueeExample.
Import Constants Data Helpers Builtins App Feeds Marquee.

Lemma marquee_prices_always_changed_witness :
  let data := deliver (fun _ => None) defaults default_symbols
                (init_data default_symbols) (FromKraken 101 (Py.Ok xmr_frame)) in
  exists n,
    rebuilds (MARQUEE_SYMBOLS default_symbols) [data; data] names0 = Py.Ok n
    /\ rendering_last_known n !! "xmrusdt" = Some (Some 150%float)
    /\ changed (MARQUEE_SYMBOLS default_symbols) data n = Py.Ok true.
Proof.
  intros data.
  destruct (rebuilds (MARQUEE_SYMBOLS default_symbols) [data; data] names0)
    as [n|e] eqn:E; [|vm_compute in E; discriminate].
  exists n. split; [reflexivity|]. split.
  - vm_compute in E. injection E as <-. vm_compute. reflexivity.
  - rewrite (marquee_prices_always_changed (MARQUEE_SYMBOLS default_symbols)
               [data; data] data n E).
    + vm_compute. reflexivity.
    + vm_compute. repeat constructor; eexists; reflexivity.
Defined.

End MarqueeExample.

(* ===================================================================== *)
(** * The network probe of [get_ws_color] *)
(* ===================================================================== *)

Section ProbeSpacing.
Import Constants Data Helpers Probe.

Lemma get_ws_color_idle (cfg : config) (now : Q) (probe : bool) (g : globals) :
  probes cfg now g = false -> wifi (snd (get_ws_color cfg now probe g)) = wifi g.
Proof. unfold probes, get_ws_color. intros ->. reflexivity. Qed.

Lemma get_ws_color_probed (cfg : config) (now : Q) (probe : bool) (g : globals) :
  probes cfg now g = true ->
  wifi (snd (get_ws_color cfg now probe g))
  = {| wifi_ok := probe; last_wifi_check := now |}
  /\ (WIFI_CHECK_INTERVAL cfg < now - last_wifi_check (wifi g))%Q.
Proof.
  unfold probes, get_ws_color, Qgt_bool. intros H. simpl.
  destruct (now - last_wifi_check (wifi g) ?= WIFI_CHECK_INTERVAL cfg)%Q eqn:E;
    try discriminate.
  split; [reflexivity|]. apply Qgt_alt. exact E.
Qed.

(** X12: over any sequence of calls of [get_ws_color], the calls that run the
    network probe are more than [WIFI_CHECK_INTERVAL] apart on the clock,
    the first more than that after the last check recorded before. *)
Theorem probe_spacing (cfg : config) (calls : list (Q * bool)) (g : globals) :
  spaced (WIFI_CHECK_INTERVAL cfg) (last_wifi_check (wifi g))
    (probe_times cfg calls g).
Proof.
  revert g. induction calls as [|[now probe] calls IH]; intros g; simpl.
  - exact I.
  - destruct (probes cfg now g) eqn:E.
    + destruct (get_ws_color_probed cfg now probe g E) as [Hw Hlt].
      simpl. split; [exact Hlt|].
      specialize (IH (snd (get_ws_color cfg now probe g))).
      rewrite Hw in IH. exact IH.
    + specialize (IH (snd (get_ws_color cfg now probe g))).
      rewrite (get_ws_color_idle cfg now probe g E) in IH. exact IH.
Qed.

(** Between two probes the indicator goes by the answer of the last one:
    a call inside the interval returns the same colour whatever the network
    does. *)
Example stale_probe :
  probe_times defaults [(100, true); (105, false); (112, false); (113, false)]%Q globals0
  = [100; 113]%Q
  /\ fst (get_ws_color defaults 105 false
            (snd (get_ws_color defaults 100 true globals0))) = GREEN.
Proof. vm_compute. split; reflexivity. Qed.

End ProbeSpacing.

(* ===================================================================== *)
(** * The indicator over a run of the process *)
(* ===================================================================== *)

Section IndicatorRuns.
Import Constants Data Helpers Websockets Session.

Lemma colours_initial_names (cfg : config) (acts : list action) (p : process) :
  ws (helpers_names p) = status_names0 ->
  Forall (fun c => c = GREEN \/ c = RED) (colours cfg acts p).
Proof.
  revert p. induction acts as [|[c|now probe] acts IH]; intros p Hp; simpl.
  - constructor.
  - apply IH. exact Hp.
  - unfold indicator.
    destruct (get_ws_color cfg now probe (helpers_names p)) as [c g] eqn:E.
    unfold get_ws_color in E. injection E as <- <-.
    constructor.
    + rewrite Hp. simpl.
      match goal with |- context [ws_color ?w _ _] => destruct w end;
        [left | right]; reflexivity.
    + apply IH. simpl. exact Hp.
Qed.

(** X13: whatever the two drivers report and whenever the render loop asks,
    the indicator is green or red, never orange: the status names
    [get_ws_color] reads are not those the callbacks assign. *)
Theorem indicator_never_orange (cfg : config) (acts : list action) :
  Forall (fun c => c = GREEN \/ c = RED) (colours cfg acts process0).
Proof. apply colours_initial_names. reflexivity. Qed.

Example outage_colours : colours defaults outage process0 = [GREEN; GREEN; RED].
Proof. vm_compute. reflexivity. Qed.

End IndicatorRuns.

(* ===================================================================== *)
(** * The CoinGecko poller *)
(* ===================================================================== *)

Section CoinGecko.
Import Feeds.
Local Open Scope float_scope.

Lemma coingecko_backoff_cases (jitter : float) (a : Requests.answer)
  (rest : Requests.response -> Py.result unit) :
  coingecko_backoff jitter a rest
  = if Py.raised (resp ← a; _ ← Requests.raise_for_status resp; rest resp)
    then 60 else 300.
Proof.
  unfold coingecko_backoff, truthy. destruct a as [resp|e]; simpl; [|reflexivity].
  destruct (Requests.raise_for_status resp) as [u|e]; simpl; [|reflexivity].
  destruct (rest resp); reflexivity.
Qed.

(** X14: [run_coingecko_polling] sleeps one second before its first request
    and then 300 seconds after a turn that raised nothing, 60 seconds after
    any other: the branch for status 429 is never taken, because the
    response of an [HTTPError] is false as a condition. *)
Theorem coingecko_sleeps_values
  (turns : list (float * Requests.answer * (Requests.response -> Py.result unit))) :
  Forall (fun s => s = 60 \/ s = 300) (tl (coingecko_sleeps 1 turns))
  /\ forall jitter a rest,
       coingecko_backoff jitter a rest
       = if Py.raised (resp ← a; _ ← Requests.raise_for_status resp; rest resp)
         then 60 else 300.
Proof.
  split; [|apply coingecko_backoff_cases].
  generalize 1. induction turns as [|[[jitter a] rest] turns IH]; intros b; simpl.
  - constructor.
  - specialize (IH (coingecko_backoff jitter a rest)).
    destruct turns as [|[[jitter' a'] rest'] turns']; simpl in *; [constructor|].
    constructor; [|exact IH].
    rewrite coingecko_backoff_cases.
    destruct (Py.raised _); [left | right]; reflexivity.
Qed.

Example rate_limit_sleeps :
  coingecko_sleeps 1
    [(7.5, Views.rate_limited, fun _ => Py.Ok tt);
     (7.5, Views.rate_limited, fun _ => Py.Ok tt);
     (7.5, Mempool.ok_json (Py.PDict []), fun _ => Py.Ok tt);
     (7.5, Py.Raise Py.RequestException, fun _ => Py.Ok tt)]
  = [1; 60; 60; 300].
Proof. vm_compute. reflexivity. Qed.

End CoinGecko.

(* ===================================================================== *)
(** * The miners poller over its cycles *)
(* ===================================================================== *)

Section MinerCycles.
Import Constants Data Miners FloatOrder.
Local Open Scope float_scope.

Lemma tally_all_bad (cfg : config) (rs : list (float * Py.pyval * bool)) (t : tally) :
  Exists (fun r => as_num (snd (fst r)) = None) rs ->
  tally_all cfg t rs = Py.Raise Py.TypeError.
Proof.
  revert t. induction rs as [|[[hr diff] c] rs IH]; intros t H.
  - inversion H.
  - simpl. unfold max_diff. destruct (as_num diff) as [d|] eqn:E; simpl.
    + apply IH. inversion H as [? ? Hd|? ? Hd]; subst; [|exact Hd].
      simpl in Hd. congruence.
    + reflexivity.
Qed.

Lemma tally_all_raises (cfg : config) (rs : list (float * Py.pyval * bool)) (t : tally)
  (e : Py.exn) :
  tally_all cfg t rs = Py.Raise e -> e = Py.TypeError.
Proof.
  revert t. induction rs as [|[[hr diff] c] rs IH]; intros t; simpl.
  - discriminate.
  - unfold max_diff. destruct (as_num diff) as [d|]; simpl.
    + apply IH.
    + congruence.
Qed.

Lemma poll_endpoints_raises (cfg : config) (answers : list Requests.answer)
  (s : store) (e : Py.exn) :
  poll_endpoints cfg answers s = Py.Raise e -> e = Py.TypeError.
Proof.
  unfold poll_endpoints, poll_cycle.
  destruct (tally_all cfg tally0 (map fetch_miner_stats answers)) as [t|e'] eqn:E;
    simpl; [discriminate|].
  intros H. injection H as <-. apply (tally_all_raises _ _ _ _ E).
Qed.

Lemma cycles_after_raise (cfg : config) (cycles : list (list Requests.answer))
  (e : Py.exn) :
  fold_left (fun acc answers => s' ← acc; poll_endpoints cfg answers s')
    cycles (Py.Raise e) = Py.Raise e.
Proof. induction cycles as [|c cycles IH]; simpl; [reflexivity | exact IH]. Qed.

Lemma cycles_raise (cfg : config) (cycles : list (list Requests.answer))
  (acc : Py.result store) (e : Py.exn) :
  (forall e', acc = Py.Raise e' -> e' = Py.TypeError) ->
  fold_left (fun acc answers => s' ← acc; poll_endpoints cfg answers s')
    cycles acc = Py.Raise e ->
  e = Py.TypeError.
Proof.
  revert acc. induction cycles as [|c cycles IH]; intros acc Hacc; simpl.
  - apply Hacc.
  - apply IH. intros e'. destruct acc as [s|e0]; simpl.
    + apply poll_endpoints_raises.
    + exact (Hacc e').
Qed.

(** X15: a miner that answers with a [bestDiff] that is not a number (a text
    such as "4.29M", [null], a list) ends the polling thread: the query
    itself succeeds, [max(best_diff, diff)] raises [TypeError] outside any
    [try], and no later cycle runs. *)
Theorem non_numeric_difficulty_stops_polling (cfg : config) (miners_ips : list string)
  (before after : list (list Requests.answer)) (answers : list Requests.answer)
  (s : store) :
  miners_ips <> [] ->
  Exists (fun a => as_num (snd (fst (fetch_miner_stats a))) = None) answers ->
  run_miners_polling cfg miners_ips (before ++ answers :: after) s
  = Py.Raise Py.TypeError.
Proof.
  intros Hips Hbad. unfold run_miners_polling.
  destruct miners_ips as [|ip ips]; [contradiction|].
  rewrite fold_left_app. simpl.
  set (f := fun acc answers => s' ← acc; poll_endpoints cfg answers s').
  destruct (fold_left f before (Py.Ok s)) as [s1|e] eqn:E; simpl.
  - unfold poll_endpoints, poll_cycle.
    rewrite tally_all_bad; [apply cycles_after_raise|].
    apply List.Exists_exists in Hbad. destruct Hbad as (a & Ha & Hnum).
    apply List.Exists_exists. exists (fetch_miner_stats a).
    split; [apply in_map; exact Ha | exact Hnum].
  - assert (e = Py.TypeError) as ->.
    { apply (cycles_raise cfg before (Py.Ok s) e); [discriminate | exact E]. }
    apply cycles_after_raise.
Qed.

Lemma non_numeric_difficulty_stops_polling_witness :
  run_miners_polling defaults ["192.168.1.20"; "192.168.1.21"]
    ([[Views.healthy_miner; server_error]]
     ++ [Views.healthy_miner; Views.text_difficulty]
     :: [[Views.healthy_miner; Views.healthy_miner]]) store0
  = Py.Raise Py.TypeError.
Proof.
  apply (non_numeric_difficulty_stops_polling defaults
           ["192.168.1.20"; "192.168.1.21"]
           [[Views.healthy_miner; server_error]]
           [[Views.healthy_miner; Views.healthy_miner]]
           [Views.healthy_miner; Views.text_difficulty] store0).
  - discriminate.
  - apply Exists_cons_tl. apply Exists_cons_hd. reflexivity.
Defined.

(** How many of the answers made [fetch_miner_stats] succeed. *)
Lemma fetch_miner_stats_shape (a : Requests.answer) :
  snd (fetch_miner_stats a) = negb (Py.raised (fetch_body a))
  /\ (Py.raised (fetch_body a) = true -> fst (fst (fetch_miner_stats a)) = 0).
Proof.
  unfold fetch_miner_stats.
  destruct (fetch_body a) as [[[hr diff] c]|e] eqn:E; simpl.
  - split; [|discriminate].
    unfold fetch_body in E.
    repeat (apply bind_Ok in E; destruct E as (? & _ & E)).
    injection E as _ _ <-. reflexivity.
  - split; auto.
Qed.

Lemma tally_all_counts (cfg : config) (answers : list Requests.answer) (t t' : tally) :
  (MINER_ACTIVE_THRESHOLD cfg <? 0) = false ->
  tally_all cfg t (map fetch_miner_stats answers) = Py.Ok t' ->
  let ok := Z.of_nat (List.length
                        (List.filter (fun a => negb (Py.raised (fetch_body a))) answers)) in
  conn_count t' = (conn_count t + ok)%Z
  /\ (act_count t <= act_count t' <= act_count t + ok)%Z.
Proof.
  intros Hthr. revert t. induction answers as [|a answers IH]; intros t H; simpl in *.
  - injection H as <-. lia.
  - destruct (fetch_miner_stats_shape a) as [Hc Hz].
    destruct (fetch_miner_stats a) as [[hr diff] c]. simpl in Hc, Hz.
    apply bind_Ok in H. destruct H as (t1 & H1 & H).
    unfold tally_step in H1.
    apply bind_Ok in H1. destruct H1 as (best & _ & H1). injection H1 as <-.
    specialize (IH _ H). simpl in IH. subst c.
    destruct (Py.raised (fetch_body a)); simpl in *.
    + rewrite (Hz eq_refl), Hthr in IH. exact IH.
    + destruct (MINER_ACTIVE_THRESHOLD cfg <? hr); lia.
Qed.

(** The counts a cycle stores. *)
Lemma poll_endpoints_counts (cfg : config) (answers : list Requests.answer)
  (s st : store) :
  (MINER_ACTIVE_THRESHOLD cfg <? 0) = false ->
  poll_endpoints cfg answers s = Py.Ok st ->
  connected_count (miner_stats st)
  = Z.of_nat (List.length
                (List.filter (fun a => negb (Py.raised (fetch_body a))) answers))
  /\ (0 <= active_count (miner_stats st) <= connected_count (miner_stats st))%Z
  /\ (connected_count (miner_stats st) <= Z.of_nat (List.length answers))%Z.
Proof.
  intros Hthr H. unfold poll_endpoints, poll_cycle in H.
  apply bind_Ok in H. destruct H as (t & Ht & H). injection H as <-. simpl.
  destruct (tally_all_counts cfg answers tally0 t Hthr Ht) as [Hc Ha].
  simpl in Hc, Ha.
  pose proof (filter_length_le (fun a => negb (Py.raised (fetch_body a))) answers).
  lia.
Qed.

(** X16: with a threshold that is not below zero, a cycle that completes
    stores as connected count the number of miners whose query succeeded,
    and an active count between zero and the connected count: a miner that
    could not be queried is never counted as active. *)
Theorem miner_counts_bounded (cfg : config) (answers : list Requests.answer)
  (s st : store) :
  (MINER_ACTIVE_THRESHOLD cfg <? 0) = false ->
  poll_endpoints cfg answers s = Py.Ok st ->
  connected_count (miner_stats st)
  = Z.of_nat (List.length
                (List.filter (fun a => negb (Py.raised (fetch_body a))) answers))
  /\ (0 <= active_count (miner_stats st) <= connected_count (miner_stats st))%Z
  /\ (connected_count (miner_stats st) <= Z.of_nat (List.length answers))%Z.
Proof. exact (poll_endpoints_counts cfg answers s st). Qed.

Lemma miner_counts_bounded_witness :
  exists st,
    poll_endpoints defaults [Views.healthy_miner; server_error; Views.healthy_miner]
      store0 = Py.Ok st
    /\ connected_count (miner_stats st) = 2%Z
    /\ (0 <= active_count (miner_stats st) <= connected_count (miner_stats st))%Z
    /\ (connected_count (miner_stats st) <= 3)%Z.
Proof.
  destruct (poll_endpoints defaults
              [Views.healthy_miner; server_error; Views.healthy_miner] store0)
    as [st|e] eqn:E; [|vm_compute in E; discriminate].
  exists st. split; [reflexivity|].
  apply (miner_counts_bounded defaults
           [Views.healthy_miner; server_error; Views.healthy_miner] store0 st);
    [reflexivity | exact E].
Defined.

Lemma deque_append_exact {A : Type} (n : nat) (d : list A) (x : A) :
  List.length (Py.deque_append n d x) = Nat.min n (List.length d + 1).
Proof.
  unfold Py.deque_append. rewrite length_skipn, length_app. simpl. lia.
Qed.

Lemma cycles_history (cfg : config) (cycles : list (list Requests.answer))
  (s s' : store) :
  fold_left (fun acc answers => s' ← acc; poll_endpoints cfg answers s')
    cycles (Py.Ok s) = Py.Ok s' ->
  List.length (hash_history s')
  = match cycles with
    | [] => List.length (hash_history s)
    | _ => Nat.min (MAX_CANDLES cfg) (List.length (hash_history s) + List.length cycles)
    end.
Proof.
  revert s. induction cycles as [|c cycles IH]; intros s H; simpl in H.
  - injection H as <-. reflexivity.
  - destruct (poll_endpoints cfg c s) as [s1|e] eqn:E;
      [|rewrite cycles_after_raise in H; discriminate].
    specialize (IH _ H).
    unfold poll_endpoints, poll_cycle in E.
    apply bind_Ok in E. destruct E as (t & _ & E). injection E as <-.
    simpl in IH. rewrite deque_append_exact in IH. rewrite IH.
    destruct cycles; simpl; lia.
Qed.

(** X17: each cycle that completes appends one total to [hash_history], and
    the history keeps the last [MAX_CANDLES] of them: after [k] cycles from
    a history of [h] totals it holds [min(MAX_CANDLES, h + k)]. *)
Theorem hash_history_capacity (cfg : config) (miners_ips : list string)
  (cycles : list (list Requests.answer)) (s s' : store) :
  miners_ips <> [] ->
  (List.length (hash_history s) <= MAX_CANDLES cfg)%nat ->
  run_miners_polling cfg miners_ips cycles s = Py.Ok s' ->
  List.length (hash_history s')
  = Nat.min (MAX_CANDLES cfg) (List.length (hash_history s) + List.length cycles).
Proof.
  intros Hips Hlen H. unfold run_miners_polling in H.
  destruct miners_ips as [|ip ips]; [contradiction|].
  rewrite (cycles_history cfg cycles s s' H).
  destruct cycles; simpl; lia.
Qed.

Lemma hash_history_capacity_witness :
  exists s',
    run_miners_polling Views.two_candles ["192.168.1.20"]
      [[Views.healthy_miner]; [server_error]; [Views.healthy_miner]] store0 = Py.Ok s'
    /\ hash_history s' = [0; 1.2]
    /\ List.length (hash_history s') = 2%nat.
Proof.
  destruct (run_miners_polling Views.two_candles ["192.168.1.20"]
              [[Views.healthy_miner]; [server_error]; [Views.healthy_miner]] store0)
    as [s'|e] eqn:E; [|vm_compute in E; discriminate].
  exists s'. split; [reflexivity|]. split.
  - vm_compute in E. injection E as <-. reflexivity.
  - apply (hash_history_capacity Views.two_candles ["192.168.1.20"]
             [[Views.healthy_miner]; [server_error]; [Views.healthy_miner]]
             store0 s'); [discriminate | simpl; lia | exact E].
Defined.

End MinerCycles.

(* ===================================================================== *)
(** * The block lookup of the network statistics poller *)
(* ===================================================================== *)

Section BlockLookup.
Import Data Mempool.

Variable float_of_str : string -> option float.

Lemma block_info_skipped (env : answers) (height : option Z) :
  truthy_height height = None -> block_info env height = Py.Ok (Py.PNone, Py.PNone).
Proof. unfold block_info. intros ->. reflexivity. Qed.

(** X19: when the height endpoint answers a text that is not all digits, or
    the number zero, the cycle makes neither of the two block requests:
    what it stores does not depend on what they would answer, and the pool
    and the difficulty are absent in a cycle that completes. *)
Theorem block_lookup_needs_height (env env' : answers) (r : Requests.response)
  (before : MempoolData) :
  fees_answer env' = fees_answer env ->
  height_answer env' = height_answer env ->
  hashrate_answer env' = hashrate_answer env ->
  height_answer env = Py.Ok r ->
  Py.isdigit (Py.strip (Requests.text r)) = false
  \/ Py.int_of_digits (Py.strip (Requests.text r)) = 0%Z ->
  poll_cycle float_of_str env' before = poll_cycle float_of_str env before
  /\ mining_pool (poll_cycle float_of_str env before) = Py.PNone
  /\ network_difficulty (poll_cycle float_of_str env before) = Py.PNone.
Proof.
  intros Hf Hh Hr Hheight Hzero.
  set (height := if Py.isdigit (Py.strip (Requests.text r))
                 then Some (Py.int_of_digits (Py.strip (Requests.text r)))
                 else None).
  assert (Hskip : truthy_height height = None).
  { subst height. destruct Hzero as [->| ->]; [reflexivity|].
    destruct (Py.isdigit _); reflexivity. }
  unfold poll_cycle, fetch_chain. rewrite Hf, Hh, Hr, Hheight.
  destruct (fees_answer env) as [resp|e]; simpl; [|repeat split].
  destruct (Requests.json resp) as [fees_resp|e]; simpl; [|repeat split].
  destruct (Py.get fees_resp "halfHourFee" Py.PNone) as [half|e]; simpl;
    [|repeat split].
  destruct (Py.to_float float_of_str half) as [fees|e]; simpl; [|repeat split].
  fold height.
  rewrite (block_info_skipped env' height Hskip),
    (block_info_skipped env height Hskip). simpl.
  destruct (hashrate_answer env) as [resp'|e]; simpl; [|repeat split].
  destruct (Requests.json resp') as [hr_resp|e]; simpl; [|repeat split].
  destruct (Py.get hr_resp "currentHashrate" (Py.PInt 0)) as [current|e]; simpl;
    [|repeat split].
  destruct (Py.truediv current 1e18) as [net_hr|e]; simpl; repeat split.
Qed.

End BlockLookup.

Section BlockLookupExample.
Import Data Mempool.
Local Open Scope float_scope.

Lemma block_lookup_needs_height_witness :
  poll_cycle (fun _ => None) Views.genesis mempool_none
  = {| fees_sats_vb := Py.PFloat 5;
       block_height := Py.PInt 0;
       mining_pool := Py.PNone;
       network_hashrate_eh := Py.PFloat 700;
       network_difficulty := Py.PNone |}
  /\ mining_pool (poll_cycle (fun _ => None) Views.genesis mempool_none) = Py.PNone
  /\ network_difficulty (poll_cycle (fun _ => None) Views.genesis mempool_none)
     = Py.PNone.
Proof.
  pose proof (block_lookup_needs_height (fun _ => None) Views.genesis Views.genesis
                {| Requests.status_code := 200; Requests.text := "0";
                   Requests.json := Py.Ok (Py.PInt 0) |}
                mempool_none eq_refl eq_refl eq_refl eq_refl
                (or_intror eq_refl)) as (_ & Hp & Hd).
  split; [vm_compute; reflexivity | split; [exact Hp | exact Hd]].
Defined.

End BlockLookupExample.

(* ===================================================================== *)
(** * The marquee reader under every schedule *)
(* ===================================================================== *)

Section MarqueeReader.
Import Constants Data Helpers Threads.
Local Open Scope float_scope.

Lemma marquee_reader_consistent_witness :
  (Some 50000, 1.2) = pair ticker_at_100
  \/ (Some 50000, 1.2) = updated call_at_130.
Proof.
  apply (marquee_reader_consistent defaults call_at_130 ticker_at_100
           ([Reader; Writer; Reader; Writer; Reader; Reader] ++ repeat Writer 8)
           (Some 50000) 1.2);
    vm_compute; reflexivity.
Defined.

End MarqueeReader.

(* ===================================================================== *)
(** * The render loop: the ticker of the current symbol, the miner line *)
(* ===================================================================== *)

Section RenderLoop.
Import Constants Data Builtins App Feeds Rendering.

Variable sy : symbols.

Lemma rotate_in_range (main : list string) (now : Q) (r : rotation) :
  main <> [] ->
  (0 <= current_symbol_idx r < Z.of_nat (List.length main))%Z ->
  exists r', rotate main now r = Done r'
             /\ (0 <= current_symbol_idx r' < Z.of_nat (List.length main))%Z.
Proof.
  intros Hmain Hr. unfold rotate.
  destruct (Qle_bool _ _); [|exists r; split; [reflexivity | exact Hr]].
  destruct main as [|s main]; [contradiction|].
  eexists. split; [reflexivity|]. simpl current_symbol_idx.
  apply Z.mod_pos_bound. simpl. lia.
Qed.

Lemma current_symbol_in_range (main : list string) (r : rotation) :
  (0 <= current_symbol_idx r < Z.of_nat (List.length main))%Z ->
  exists s, In s main /\ current_symbol main r = Done (Py.lower s).
Proof.
  intros Hr. unfold current_symbol.
  replace (current_symbol_idx r <? 0)%Z with false by (symmetry; apply Z.ltb_ge; lia).
  replace (0 <=? current_symbol_idx r)%Z with true by (symmetry; apply Z.leb_le; lia).
  replace (current_symbol_idx r <? Z.of_nat (List.length main))%Z with true
    by (symmetry; apply Z.ltb_lt; lia).
  simpl.
  destruct (nth_error main (Z.to_nat (current_symbol_idx r))) as [s|] eqn:E.
  - exists s. split; [apply (nth_error_In _ _ E) | reflexivity].
  - apply nth_error_None in E. lia.
Qed.

Lemma fetched_in_range (turns : list (Q * gmap string TickerData)) (r : rotation) :
  MAIN_SYMBOLS sy <> [] ->
  (0 <= current_symbol_idx r < Z.of_nat (List.length (MAIN_SYMBOLS sy)))%Z ->
  Forall (fun turn => dom (snd turn) = dom (init_data sy)) turns ->
  exists tickers,
    fetched (MAIN_SYMBOLS sy) turns r = Done tickers
    /\ List.length tickers = List.length turns
    /\ Forall is_Some tickers.
Proof.
  intros Hmain. revert r.
  induction turns as [|[now data] turns IH]; intros r Hr Hdom; simpl.
  - exists []. split; [reflexivity|]. split; [reflexivity | constructor].
  - inversion Hdom as [|? ? Hd Hdom']; subst. simpl in Hd.
    unfold fetch_ticker.
    destruct (rotate_in_range _ now r Hmain Hr) as (r' & -> & Hr'). simpl.
    destruct (current_symbol_in_range _ r' Hr') as (s & Hs & ->). simpl.
    destruct (IH r' Hr' Hdom') as (tickers & -> & Hlen & Hall). simpl.
    eexists. split; [reflexivity|]. simpl. split; [congruence|].
    constructor; [|exact Hall].
    apply (elem_of_dom (M := gmap string)). rewrite Hd. apply elem_of_dom.
    exists (new_ticker (source_of sy (Py.lower s))).
    apply (proj2 (init_data_lookup sy _ _)). split; [reflexivity|].
    rewrite map_app. apply in_or_app. left. apply in_map. exact Hs.
Qed.

(** X9: with at least one main symbol, and a dict that keeps the keys of the
    initialisation, every turn of the render loop finds the ticker of the
    current symbol: the rotation never leaves the list of main symbols, the
    index raises no [IndexError] and [data.get] never answers [None]. *)
Theorem render_loop_finds_ticker (t0 : Q) (turns : list (Q * gmap string TickerData)) :
  MAIN_SYMBOLS sy <> [] ->
  Forall (fun turn => dom (snd turn) = dom (init_data sy)) turns ->
  exists tickers,
    fetched (MAIN_SYMBOLS sy) turns (rotation0 t0) = Done tickers
    /\ List.length tickers = List.length turns
    /\ Forall is_Some tickers.
Proof.
  intros Hmain Hdom. apply fetched_in_range; [exact Hmain | | exact Hdom].
  simpl. destruct (MAIN_SYMBOLS sy); [contradiction | simpl; lia].
Qed.

End RenderLoop.

Section RenderLoopExamples.
Import Constants Data Builtins App Feeds Rendering.

Lemma render_loop_finds_ticker_witness :
  let data := deliver (fun _ => None) defaults default_symbols
                (init_data default_symbols) (FromBinance 100 (Py.Ok btc_frame)) in
  exists tickers,
    fetched (MAIN_SYMBOLS default_symbols)
      [(99, init_data default_symbols); (101, data)]%Q (rotation0 98) = Done tickers
    /\ List.length tickers = 2%nat
    /\ Forall is_Some tickers.
Proof.
  intros data.
  apply (render_loop_finds_ticker default_symbols 98
           [(99, init_data default_symbols); (101, data)]%Q).
  - discriminate.
  - repeat constructor; vm_compute; reflexivity.
Defined.

(** With no main symbol the first turn of the loop raises. *)
Example no_main_symbol :
  fetched [] [(99, init_data default_symbols)]%Q (rotation0 98)
  = Failed ZeroDivisionError.
Proof. vm_compute. reflexivity. Qed.

(** Two main symbols alternate every 21 seconds. *)
Example two_main_symbols :
  let main := ["BTCUSDT"; "ETHUSDT"] in
  (r1 ← rotate main 10 (rotation0 0);
   r2 ← rotate main 21 r1;
   r3 ← rotate main 30 r2;
   r4 ← rotate main 42 r3;
   mret (map current_symbol_idx [r1; r2; r3; r4]))
  = Done [0; 1; 1; 0]%Z.
Proof. vm_compute. reflexivity. Qed.

End RenderLoopExamples.

Section MinerLine.
Import Constants Data Miners Rendering.
Local Open Scope float_scope.

Lemma filter_length_all {A : Type} (f : A -> bool) (l : list A) :
  List.length (List.filter f l) = List.length l <-> forallb f l = true.
Proof.
  induction l as [|x l IH]; simpl; [tauto|].
  pose proof (filter_length_le f l) as Hle.
  destruct (f x); simpl.
  - rewrite <- IH. lia.
  - split; [lia | discriminate].
Qed.

Lemma filter_length_none {A : Type} (f : A -> bool) (l : list A) :
  List.length (List.filter (fun x => negb (f x)) l) = 0%nat <-> forallb f l = true.
Proof.
  induction l as [|x l IH]; simpl; [tauto|].
  destruct (f x); simpl; [exact IH | split; [lia | discriminate]].
Qed.

Lemma tally_all_active (cfg : config) (answers : list Requests.answer) (t t' : tally) :
  tally_all cfg t (map fetch_miner_stats answers) = Py.Ok t' ->
  act_count t'
  = Z.add (act_count t)
      (Z.of_nat (List.length
                   (List.filter
                      (fun a => MINER_ACTIVE_THRESHOLD cfg <? fst (fst (fetch_miner_stats a)))
                      answers))).
Proof.
  revert t. induction answers as [|a answers IH]; intros t H; simpl in *.
  - injection H as <-. lia.
  - destruct (fetch_miner_stats a) as [[hr diff] c]. simpl.
    apply bind_Ok in H. destruct H as (t1 & H1 & H).
    unfold tally_step in H1.
    apply bind_Ok in H1. destruct H1 as (best & _ & H1). injection H1 as <-.
    rewrite (IH _ H). simpl.
    destruct (MINER_ACTIVE_THRESHOLD cfg <? hr); simpl; lia.
Qed.

(** X18: after a cycle over the answers of all the configured miners, with a
    threshold that is not below zero, the miner line is blue exactly when
    every miner reported a hashrate above the threshold, and red exactly
    when no miner could be queried. *)
Theorem miner_line_colour (cfg : config) (answers : list Requests.answer)
  (s st : store) :
  answers <> [] ->
  (MINER_ACTIVE_THRESHOLD cfg <? 0) = false ->
  poll_endpoints cfg answers s = Py.Ok st ->
  let c := miner_color (Z.of_nat (List.length answers))
             (connected_count (miner_stats st)) (active_count (miner_stats st)) in
  (c = BLUE <->
   forallb (fun a => MINER_ACTIVE_THRESHOLD cfg <? fst (fst (fetch_miner_stats a)))
     answers = true)
  /\ (c = RED <-> forallb (fun a => Py.raised (fetch_body a)) answers = true).
Proof.
  intros Hne Hthr H c.
  destruct (poll_endpoints_counts cfg answers s st Hthr H) as (Hconn & Hact & Hle).
  unfold poll_endpoints, poll_cycle in H.
  apply bind_Ok in H. destruct H as (t & Ht & H). injection H as <-.
  pose proof (tally_all_active cfg answers tally0 t Ht) as Hexact.
  simpl in Hconn, Hact, Hle, Hexact.
  subst c. simpl connected_count. simpl active_count.
  rewrite <- filter_length_all.
  assert (Hraised : forallb (fun a => Py.raised (fetch_body a)) answers = true
                    <-> conn_count t = 0%Z).
  { rewrite Hconn, <- filter_length_none. lia. }
  rewrite Hraised.
  assert (Hpos : (0 < Z.of_nat (List.length answers))%Z).
  { destruct answers; [contradiction | simpl; lia]. }
  unfold miner_color.
  destruct (conn_count t =? Z.of_nat (List.length answers))%Z eqn:E1;
    [apply Z.eqb_eq in E1 | apply Z.eqb_neq in E1];
    (destruct (act_count t =? Z.of_nat (List.length answers))%Z eqn:E2;
     [apply Z.eqb_eq in E2 | apply Z.eqb_neq in E2]); simpl;
    (destruct (0 <? conn_count t)%Z eqn:E3;
     [apply Z.ltb_lt in E3 | apply Z.ltb_ge in E3]);
    split; split; intros Hc; try discriminate; try reflexivity; try lia.
Qed.

Lemma miner_line_colour_witness :
  exists st,
    poll_endpoints defaults [Views.healthy_miner; Views.healthy_miner] store0 = Py.Ok st
    /\ miner_color 2 (connected_count (miner_stats st)) (active_count (miner_stats st))
       = BLUE.
Proof.
  destruct (poll_endpoints defaults [Views.healthy_miner; Views.healthy_miner] store0)
    as [st|e] eqn:E; [|vm_compute in E; discriminate].
  exists st. split; [reflexivity|].
  apply (proj1 (miner_line_colour defaults [Views.healthy_miner; Views.healthy_miner]
                  store0 st ltac:(discriminate) eq_refl E)).
  vm_compute. reflexivity.
Defined.

(** One miner of two down: the line is orange. *)
Example one_miner_down :
  (st ← poll_endpoints defaults [Views.healthy_miner; server_error] store0;
   mret (miner_color 2 (connected_count (miner_stats st))
           (active_count (miner_stats st))))
  = Py.Ok ORANGE.
Proof. vm_compute. reflexivity. Qed.

End MinerLine.

(* ===================================================================== *)
(** * The bounded history against a history with room for everything *)
(* ===================================================================== *)

Section LatestCandles.
Import Constants Data Helpers Views.

(** Appending to the last [n] of a list and keeping the last [n] is
    keeping the last [n] of the longer list. *)
Lemma deque_append_latest {A : Type} (n : nat) (l : list A) (x : A) :
  Py.deque_append n (skipn (List.length l - n) l) x
  = skipn (List.length (l ++ [x]) - n) (l ++ [x]).
Proof.
  unfold Py.deque_append. rewrite !length_app, length_skipn. simpl.
  destruct (Nat.le_gt_cases (List.length l) n) as [Hle|Hgt].
  - replace (List.length l - n)%nat with 0%nat by lia. simpl.
    replace (List.length l - 0 + 1 - n)%nat with (List.length l + 1 - n)%nat by lia.
    reflexivity.
  - replace (List.length l - (List.length l - n) + 1 - n)%nat with 1%nat by lia.
    rewrite <- (drop_app_le l [x] (List.length l - n)) by lia.
    rewrite skipn_skipn. f_equal. lia.
Qed.

(** One sample keeps the bounded ticker the tail of the roomy one. *)
Lemma update_ticker_latest (cfg : config) (n : nat) (s : sample) (t u : TickerData) :
  current_candle t = current_candle u ->
  candles t = skipn (List.length (candles u) - MAX_CANDLES cfg) (candles u) ->
  (List.length (candles u) < n)%nat ->
  let t' := update_ticker cfg (s_now s) (s_price s) (s_change s) (s_marquee s) t in
  let u' := update_ticker (with_capacity n cfg) (s_now s) (s_price s) (s_change s)
              (s_marquee s) u in
  current_candle t' = current_candle u'
  /\ candles t' = skipn (List.length (candles u') - MAX_CANDLES cfg) (candles u')
  /\ (List.length (candles u') <= S (List.length (candles u)))%nat.
Proof.
  intros Hcur Hcan Hroom t' u'. subst t' u'.
  unfold update_ticker, build_candle, rolls_over. simpl. rewrite Hcur.
  destruct (current_candle u) as [c|].
  - destruct (Qle_bool (CANDLE_SECONDS cfg) (s_now s - start c)); simpl.
    + split; [reflexivity|].
      rewrite (deque_append_room n (candles u) c Hroom), Hcan.
      split; [apply deque_append_latest | rewrite length_app; simpl; lia].
    + split; [reflexivity|]. split; [exact Hcan | lia].
  - simpl. split; [reflexivity|]. split; [exact Hcan | lia].
Qed.

Lemma feed_latest (cfg : config) (n : nat) (samples : list sample) (t u : TickerData) :
  current_candle t = current_candle u ->
  candles t = skipn (List.length (candles u) - MAX_CANDLES cfg) (candles u) ->
  (List.length (candles u) + List.length samples <= n)%nat ->
  current_candle (feed cfg samples t) = current_candle (feed (with_capacity n cfg) samples u)
  /\ candles (feed cfg samples t)
     = skipn (List.length (candles (feed (with_capacity n cfg) samples u))
              - MAX_CANDLES cfg)
         (candles (feed (with_capacity n cfg) samples u)).
Proof.
  unfold feed. revert t u.
  induction samples as [|s samples IH]; intros t u Hcur Hcan Hroom; simpl in *.
  - split; assumption.
  - destruct (update_ticker_latest cfg n s t u Hcur Hcan ltac:(lia))
      as (Hcur' & Hcan' & Hlen).
    apply IH; [exact Hcur' | exact Hcan' | lia].
Qed.

(** X2: the bound of the deque only drops the oldest candles.  Fed the same
    samples, a ticker under [MAX_CANDLES] has the open candle of a ticker
    whose deque has room for every candle, and its closed history is the
    last [MAX_CANDLES] candles of that ticker's history, in the same
    order. *)
Theorem history_keeps_latest (cfg : config) (n : nat) (samples : list sample)
  (t : TickerData) :
  (List.length (candles t) <= MAX_CANDLES cfg)%nat ->
  (List.length (candles t) + List.length samples <= n)%nat ->
  let kept := feed cfg samples t in
  let every := feed (with_capacity n cfg) samples t in
  current_candle kept = current_candle every
  /\ candles kept
     = skipn (List.length (candles every) - MAX_CANDLES cfg) (candles every).
Proof.
  intros Hlen Hroom kept every. subst kept every.
  apply feed_latest; [reflexivity | | exact Hroom].
  replace (List.length (candles t) - MAX_CANDLES cfg)%nat with 0%nat by lia.
  reflexivity.
Qed.

Lemma history_keeps_latest_witness :
  let kept := feed two_candles four_minutes (new_ticker "binance") in
  let every := feed (with_capacity 4 two_candles) four_minutes (new_ticker "binance") in
  current_candle kept = current_candle every
  /\ candles kept
     = skipn (List.length (candles every) - MAX_CANDLES two_candles) (candles every).
Proof.
  apply (history_keeps_latest two_candles 4 four_minutes (new_ticker "binance"));
    simpl; lia.
Defined.

(** Of the three candles those four ticks close, two are kept. *)
Example two_of_three_kept :
  map start (candles (feed (with_capacity 4 two_candles) four_minutes
                        (new_ticker "binance")))
  = [inject_Z 100; inject_Z 160; inject_Z 220]
  /\ map start (candles (feed two_candles four_minutes (new_ticker "binance")))
     = [inject_Z 160; inject_Z 220].
Proof. vm_compute. split; reflexivity. Qed.

End LatestCandles.

(* ===================================================================== *)
(** * The streams the Binance driver subscribes to *)
(* ===================================================================== *)

Section Subscription.
Import Constants Data Helpers Builtins App Feeds.

Variable float_of_str : string -> option float.
Variable cfg : config.
Variable sy : symbols.

Lemma binance_symbols_assigned (syms : list string) (data : gmap string TickerData) :
  sources_assigned sy data ->
  Forall (fun s => is_Some (data !! Py.lower s)) syms ->
  binance_symbols syms data
  = Py.Ok (List.filter (fun k => String.eqb (source_of sy k) "binance")
             (map Py.lower syms)).
Proof.
  intros Hsrc. induction 1 as [|s syms [t Ht] _ IH]; simpl; [reflexivity|].
  rewrite Ht, IH. simpl. rewrite (Hsrc _ _ Ht). reflexivity.
Qed.

(** X20: after the initialisation, and whatever frames have arrived since,
    the list of streams the Binance driver builds at the top of a turn is
    computed without an exception and holds, in the order of
    [MAIN_SYMBOLS + MARQUEE_SYMBOLS] and lower-cased, exactly the symbols
    that are neither a key of [KRAKEN_PAIRS] nor a key of [COINGECKO_IDS]. *)
Theorem binance_subscription (frames : list frame) :
  binance_symbols (MAIN_SYMBOLS sy ++ MARQUEE_SYMBOLS sy)
    (fold_left (deliver float_of_str cfg sy) frames (init_data sy))
  = Py.Ok (List.filter
             (fun k => (negb (has_key k (KRAKEN_PAIRS sy))
                        && negb (has_key k (COINGECKO_IDS sy)))%bool)
             (map Py.lower (MAIN_SYMBOLS sy ++ MARQUEE_SYMBOLS sy))).
Proof.
  destruct (deliver_all_sources float_of_str cfg sy frames (init_data sy)
              (init_data_sources sy)) as [Hsrc Hdom].
  rewrite (binance_symbols_assigned _ _ Hsrc).
  - f_equal. apply filter_ext. intros k. unfold source_of.
    destruct (has_key k (KRAKEN_PAIRS sy)), (has_key k (COINGECKO_IDS sy));
      reflexivity.
  - apply List.Forall_forall. intros s Hs.
    apply (elem_of_dom (M := gmap string)). rewrite Hdom. apply elem_of_dom.
    exists (new_ticker (source_of sy (Py.lower s))).
    apply (proj2 (init_data_lookup sy _ _)). split; [reflexivity|].
    apply in_map. exact Hs.
Qed.

End Subscription.

Section SubscriptionExample.
Import Constants Data Helpers Builtins App Feeds.

(** The streams of the default configuration. *)
Example default_streams :
  (l ← binance_symbols
         (MAIN_SYMBOLS default_symbols ++ MARQUEE_SYMBOLS default_symbols)
         (init_data default_symbols);
   mret (stream_url l))
  = Py.Ok (String.concat ""
             ["wss://stream.binance.com:9443/ws/btcusdt@ticker/ethusdt@ticker/";
              "bnbusdt@ticker/solusdt@ticker/ltcusdt@ticker/xrpusdt@ticker/";
              "adausdt@ticker/trxusdt@ticker/meusdt@ticker/hbarusdt@ticker/";
              "xecusdt@ticker"]).
Proof. vm_compute. reflexivity. Qed.

End SubscriptionExample.
